(** * mcp-servarr: a shallow embedding of [src/server.py] and
    [src/http_server.py], and the properties of the specification
    checked against it.

    Layout: Python data (strings, JSON values, exceptions), the
    datetime and number-formatting helpers the facade relies on, an
    error-and-trace monad for the outbound HTTP calls, then the typed
    client, the fourteen facade operations, the [call_tool] dispatcher
    and the Starlette routes; theorems come last. *)

From Stdlib Require Import ZArith List String Ascii Bool Lia.
From Stdlib Require Import DecimalString DecimalZ.
From Stdlib Require Import Sorted Permutation.
Import ListNotations.

Set Warnings "-register-all".

Open Scope string_scope.
Open Scope Z_scope.

(* ================================================================= *)
(** ** Python strings

    A [str] is held as the bytes of its UTF-8 encoding, so ASCII text
    is held character by character.  The standard library is modelled
    as CPython 3.11 behaves.  Two operations are modelled on a part of
    their domain: [lower] on ASCII text, and [repr] on text whose
    characters beyond ASCII are printable.  A statement whose truth
    depends on [lower] takes ASCII text as a premise. *)

Module PyStr.

Definition nl : string := String "010"%char "".
Definition dquote : ascii := "034"%char.
Definition squote : ascii := "039"%char.
Definition backslash : ascii := "092"%char.

(** [str(n)] for an [int]. *)
Definition of_Z (n : Z) : string := NilEmpty.string_of_int (Z.to_int n).

(** [format(n, "02d")]: zero padding to width two, the sign counting
    towards the width. *)
Definition pad2 (n : Z) : string :=
  if (0 <=? n) && (n <? 10) then "0" ++ of_Z n else of_Z n.

Definition lower_ascii (c : ascii) : ascii :=
  let n := nat_of_ascii c in
  if (Nat.leb 65 n && Nat.leb n 90)%bool then ascii_of_nat (n + 32) else c.

(** [s.lower()] for ASCII text: the letters A to Z.  The cased letters
    beyond ASCII, which [str.lower] maps as well, are left as they are;
    [is_ascii] marks the text on which this is [str.lower]. *)
Fixpoint lower (s : string) : string :=
  match s with
  | EmptyString => EmptyString
  | String c r => String (lower_ascii c) (lower r)
  end.

(** [needle in hay]. *)
Fixpoint contains (needle hay : string) : bool :=
  prefix needle hay ||
  match hay with
  | EmptyString => false
  | String _ r => contains needle r
  end.

(** [s.replace(c, new)] for a one-character pattern [c]. *)
Fixpoint replace_char (c : ascii) (new : string) (s : string) : string :=
  match s with
  | EmptyString => EmptyString
  | String a r =>
      if Ascii.eqb a c then new ++ replace_char c new r
      else String a (replace_char c new r)
  end.

Fixpoint mem_char (c : ascii) (s : string) : bool :=
  match s with
  | EmptyString => false
  | String a r => Ascii.eqb a c || mem_char c r
  end.

Definition hex_digit (n : nat) : ascii :=
  if Nat.ltb n 10 then ascii_of_nat (48 + n) else ascii_of_nat (87 + n).

Definition escape_char (q c : ascii) : string :=
  let n := nat_of_ascii c in
  if Ascii.eqb c backslash then String backslash (String backslash "")
  else if Ascii.eqb c q then String backslash (String q "")
  else if Nat.eqb n 10 then String backslash "n"
  else if Nat.eqb n 13 then String backslash "r"
  else if Nat.eqb n 9 then String backslash "t"
  else if (Nat.ltb n 32 || Nat.eqb n 127)%bool then
    String backslash
      (String "x" (String (hex_digit (n / 16)) (String (hex_digit (n mod 16)) "")))
  else String c "".

Fixpoint escape (q : ascii) (s : string) : string :=
  match s with
  | EmptyString => EmptyString
  | String c r => escape_char q c ++ escape q r
  end.

(** [repr(s)] for a [str]: single quotes unless the text has a single
    quote and no double quote.  Characters beyond ASCII are taken as
    printable and kept. *)
Definition repr (s : string) : string :=
  let q := if mem_char squote s && negb (mem_char dquote s) then dquote else squote in
  String q (escape q s ++ String q "").

(** [s.rstrip("/")]. *)
Fixpoint rstrip_slash (s : string) : string :=
  match s with
  | EmptyString => EmptyString
  | String c r =>
      match rstrip_slash r with
      | EmptyString => if Ascii.eqb c "/"%char then EmptyString else String c EmptyString
      | r' => String c r'
      end
  end.

Definition is_empty (s : string) : bool :=
  match s with EmptyString => true | _ => false end.

(** Whether the text is ASCII: every byte below 128. *)
Fixpoint is_ascii (s : string) : bool :=
  match s with
  | EmptyString => true
  | String c r => Nat.ltb (nat_of_ascii c) 128 && is_ascii r
  end.

Definition byte (c : ascii) : Z := Z.of_nat (nat_of_ascii c).

Definition is_continuation (c : ascii) : bool := (128 <=? byte c) && (byte c <=? 191).

(** How a sequence starts: what its first byte gives at once, the
    number of continuation bytes it asks for, and its payload. *)
Definition utf8_start (b : Z) : list Z * nat * Z :=
  if b <? 128 then ([b], 0%nat, 0)
  else if (194 <=? b) && (b <=? 223) then ([], 1%nat, b - 192)
  else if (224 <=? b) && (b <=? 239) then ([], 2%nat, b - 224)
  else if (240 <=? b) && (b <=? 244) then ([], 3%nat, b - 240)
  else ([65533], 0%nat, 0).

(** UTF-8 decoding with [need] continuation bytes still to come for
    the payload [acc]; a byte that fits no sequence is read as U+FFFD. *)
Fixpoint utf8_decode (need : nat) (acc : Z) (s : string) : list Z :=
  match s with
  | EmptyString => match need with O => [] | S _ => [65533] end
  | String c r =>
      match need with
      | S k =>
          if is_continuation c then
            match k with
            | O => (acc * 64 + (byte c - 128)) :: utf8_decode 0 0 r
            | S _ => utf8_decode k (acc * 64 + (byte c - 128)) r
            end
          else
            let '(out, need', acc') := utf8_start (byte c) in
            (65533 :: out ++ utf8_decode need' acc' r)%list
      | O =>
          let '(out, need', acc') := utf8_start (byte c) in
          (out ++ utf8_decode need' acc' r)%list
      end
  end.

(** The code points of a text, which the model holds as UTF-8 bytes. *)
Definition code_points (s : string) : list Z := utf8_decode 0 0 s.

(** The first [n] characters of a text. *)
Fixpoint take_chars (n : nat) (s : string) : string :=
  match s with
  | EmptyString => EmptyString
  | String c r =>
      if is_continuation c then String c (take_chars n r)
      else
        match n with
        | O => EmptyString
        | S k => String c (take_chars k r)
        end
  end.

End PyStr.

(* ================================================================= *)
(** ** JSON values, as [json.loads] hands them to the code *)

(** Numbers are restricted to integer literals, which [json.loads] reads
    with [int()]: they have at most 4300 digits, and [str] never
    refuses them.  Objects keep their insertion order, as Python dicts
    do. *)
Inductive json : Type :=
| JNull
| JBool (b : bool)
| JNum (n : Z)
| JStr (s : string)
| JArr (items : list json)
| JObj (fields : list (string * json)).

Module Py.

Definition type_name (j : json) : string :=
  match j with
  | JNull => "NoneType"
  | JBool _ => "bool"
  | JNum _ => "int"
  | JStr _ => "str"
  | JArr _ => "list"
  | JObj _ => "dict"
  end.

Fixpoint join (sep : string) (l : list string) : string :=
  match l with
  | [] => ""
  | [x] => x
  | x :: r => x ++ sep ++ join sep r
  end.

(** [repr(v)]. *)
Fixpoint repr (j : json) : string :=
  match j with
  | JNull => "None"
  | JBool true => "True"
  | JBool false => "False"
  | JNum n => PyStr.of_Z n
  | JStr s => PyStr.repr s
  | JArr l => "[" ++ join ", " (map repr l) ++ "]"
  | JObj kvs =>
      "{" ++ join ", " (map (fun kv => PyStr.repr (fst kv) ++ ": " ++ repr (snd kv)) kvs) ++ "}"
  end.

(** [str(v)], which is what an f-string field without a format
    specification inserts. *)
Definition str (j : json) : string :=
  match j with
  | JStr s => s
  | _ => repr j
  end.

(** [bool(v)]. *)
Definition truthy (j : json) : bool :=
  match j with
  | JNull => false
  | JBool b => b
  | JNum n => negb (n =? 0)
  | JStr s => negb (PyStr.is_empty s)
  | JArr l => match l with [] => false | _ => true end
  | JObj kvs => match kvs with [] => false | _ => true end
  end.

Fixpoint lookup (k : string) (kvs : list (string * json)) : option json :=
  match kvs with
  | [] => None
  | (k', v) :: r => if String.eqb k' k then Some v else lookup k r
  end.

End Py.

(* ================================================================= *)
(** ** Exceptions *)

(** The exception classes the code can meet, all of them subclasses of
    [Exception], each with what [str(e)] needs.  [ApiRequestFailed n] is the
    [Exception(f"API request failed: {n}")] raised by the client;
    [TransportError] and [JSONDecodeError] are raised by the HTTP
    library and re-raised unchanged. *)
Inductive exn : Type :=
| KeyError (key : string)
| TypeError (msg : string)
| AttributeError (msg : string)
| ValueError (msg : string)
| OverflowError (msg : string)
| ApiRequestFailed (status : Z)
| TransportError (msg : string)
| JSONDecodeError (msg : string).

Definition str_exn (e : exn) : string :=
  match e with
  | KeyError k => PyStr.repr k
  | TypeError m | AttributeError m | ValueError m | OverflowError m => m
  | ApiRequestFailed n => "API request failed: " ++ PyStr.of_Z n
  | TransportError m | JSONDecodeError m => m
  end.

Inductive result (A : Type) : Type :=
| Ok (a : A)
| Raise (e : exn).
Arguments Ok {A} a.
Arguments Raise {A} e.

(* ================================================================= *)
(** ** [datetime]: the part of the standard library the facade calls *)

Module PyDatetime.

Definition is_leap (y : Z) : bool :=
  (y mod 4 =? 0) && (negb (y mod 100 =? 0) || (y mod 400 =? 0)).

Definition days_in_month (y m : Z) : Z :=
  if m =? 2 then (if is_leap y then 29 else 28)
  else if (m =? 4) || (m =? 6) || (m =? 9) || (m =? 11) then 30
  else 31.

Definition days_before_year (y : Z) : Z :=
  let p := y - 1 in p * 365 + p / 4 - p / 100 + p / 400.

Definition days_before_month_common (m : Z) : Z :=
  match m with
  | 1 => 0 | 2 => 31 | 3 => 59 | 4 => 90 | 5 => 120 | 6 => 151
  | 7 => 181 | 8 => 212 | 9 => 243 | 10 => 273 | 11 => 304 | _ => 334
  end.

Definition days_before_month (y m : Z) : Z :=
  days_before_month_common m + (if (2 <? m) && is_leap y then 1 else 0).

(** Proleptic Gregorian ordinal, 0001-01-01 being day 1. *)
Definition ymd2ord (y m d : Z) : Z :=
  days_before_year y + days_before_month y m + d.

Definition us_per_second : Z := 1000000.
Definition us_per_day : Z := 86400 * us_per_second.

(** [datetime.max] is 9999-12-31T23:59:59.999999. *)
Definition max_wall : Z := 3652059 * us_per_day - 1.

(** A [datetime]: the wall-clock reading in microseconds since
    0001-01-01T00:00:00, and the UTC offset (microseconds) of its
    [tzinfo]; [None] makes it naive. *)
Record datetime : Type := mkDatetime {
  wall : Z;
  utcoffset : option Z
}.

Definition of_fields (y mo d h mi s us : Z) : Z :=
  (ymd2ord y mo d - 1) * us_per_day + ((h * 60 + mi) * 60 + s) * us_per_second + us.

(** [_ord2ymd] of [Lib/datetime.py]. *)
Definition ord2ymd (ordinal : Z) : Z * Z * Z :=
  let n := ordinal - 1 in
  let n400 := n / 146097 in
  let n := n mod 146097 in
  let n100 := n / 36524 in
  let n := n mod 36524 in
  let n4 := n / 1461 in
  let n := n mod 1461 in
  let n1 := n / 365 in
  let n := n mod 365 in
  let year := n400 * 400 + 1 + n100 * 100 + n4 * 4 + n1 in
  if (n1 =? 4) || (n100 =? 4) then (year - 1, 12, 31)
  else
    let leapyear := (n1 =? 3) && (negb (n4 =? 24) || (n100 =? 3)) in
    let month := Z.shiftr (n + 50) 5 in
    let preceding :=
      days_before_month_common month + (if (2 <? month) && leapyear then 1 else 0) in
    if n <? preceding then
      let month' := month - 1 in
      let dim :=
        if month' =? 2 then (if leapyear then 29 else 28)
        else if (month' =? 4) || (month' =? 6) || (month' =? 9) || (month' =? 11) then 30
        else 31 in
      (year, month', n - (preceding - dim) + 1)
    else (year, month, n - preceding + 1).

Fixpoint zeros (k : nat) : string :=
  match k with
  | O => ""
  | S k' => "0" ++ zeros k'
  end.

Definition zero_pad (width : nat) (s : string) : string :=
  zeros (width - String.length s) ++ s.

Definition digits (width : nat) (n : Z) : string := zero_pad width (PyStr.of_Z n).

(** [dt.isoformat()] of a naive datetime. *)
Definition isoformat (w : Z) : string :=
  let '(y, mo, d) := ord2ymd (w / us_per_day + 1) in
  let r := w mod us_per_day in
  let us := r mod us_per_second in
  let secs := r / us_per_second in
  digits 4 y ++ "-" ++ digits 2 mo ++ "-" ++ digits 2 d ++ "T"
  ++ digits 2 (secs / 3600) ++ ":" ++ digits 2 (secs / 60 mod 60) ++ ":"
  ++ digits 2 (secs mod 60)
  ++ (if us =? 0 then "" else "." ++ digits 6 us).

(** *** [datetime.fromisoformat]

    As CPython 3.11 implements it in [Modules/_datetimemodule.c].  The
    parser walks the UTF-8 bytes of the text, which a NUL follows.  It
    reads the calendar form of a date, the basic form ([YYYYMMDD]) and
    the week forms ([YYYY-Www-D]), takes any one character as the
    separator, reads a time with or without colons and with a fraction
    of any length, and an offset or a closing [Z]. *)

Definition chr (c : ascii) : Z := Z.of_nat (nat_of_ascii c).

(** [s[i]] as the C code reads it: the NUL from the end on. *)
Definition byte_at (s : string) (i : nat) : Z :=
  match String.get i s with
  | Some c => chr c
  | None => 0
  end.

Definition is_digit (b : Z) : bool := (48 <=? b) && (b <=? 57).

(** [parse_digits]: exactly [num_digits] decimal digits from [p] on;
    the value and the position after them. *)
Fixpoint parse_digits (s : string) (p : nat) (num_digits : nat) (var : Z) : option (Z * nat) :=
  match num_digits with
  | O => Some (var, p)
  | S k =>
      let tmp := byte_at s p - 48 in
      if (0 <=? tmp) && (tmp <=? 9) then parse_digits s (S p) k (var * 10 + tmp) else None
  end.

(** The position of the first byte from [p] on that is no digit. *)
Fixpoint skip_digits (s : string) (p : nat) (fuel : nat) : nat :=
  match fuel with
  | O => p
  | S f => if is_digit (byte_at s p) then skip_digits s (S p) f else p
  end.

(** [_find_isoformat_datetime_separator]: where the date ends, from
    the characters 4 and 5 and, for week dates, what follows. *)
Definition find_isoformat_datetime_separator (s : string) (len : nat) : option nat :=
  if Nat.eqb len 7 then Some 7%nat
  else if byte_at s 4 =? chr "-" then
    if byte_at s 5 =? chr "W" then
      if Nat.ltb len 8 then None
      else if Nat.ltb 8 len && (byte_at s 8 =? chr "-") then
        if Nat.eqb len 9 then None
        else if Nat.ltb 10 len && is_digit (byte_at s 10) then Some 8%nat
        else Some 10%nat
      else Some 8%nat
    else Some 10%nat
  else if byte_at s 4 =? chr "W" then
    let idx := skip_digits s 7 (len - 7) in
    if Nat.ltb idx 9 then Some idx
    else if Nat.even idx then Some 7%nat
    else Some 8%nat
  else Some 8%nat.

(** The tables [_days_before_month] and [_days_in_month], index 0
    unused.  The C code reads outside them only for a month below 1,
    which the constructor refuses whatever was read. *)
Definition days_before_month_table : list Z :=
  [0; 0; 31; 59; 90; 120; 151; 181; 212; 243; 273; 304; 334].

Definition days_in_month_table : list Z :=
  [0; 31; 28; 31; 30; 31; 30; 31; 31; 30; 31; 30; 31].

Definition table_at (t : list Z) (i : Z) : Z :=
  if i <? 0 then 0 else nth (Z.to_nat i) t 0.

(** The calendar helpers of the C module.  Its division truncates, so
    they are written with [Z.quot] and [Z.rem]; they differ from
    [ymd2ord] and [ord2ymd] only before year 1. *)
Definition ymd_to_ord (year month day : Z) : Z :=
  let y := year - 1 in
  y * 365 + Z.quot y 4 - Z.quot y 100 + Z.quot y 400
  + (table_at days_before_month_table month + (if (2 <? month) && is_leap year then 1 else 0))
  + day.

Definition weekday (year month day : Z) : Z := Z.rem (ymd_to_ord year month day + 6) 7.

Definition iso_week1_monday (year : Z) : Z :=
  let first_day := ymd_to_ord year 1 1 in
  let first_weekday := Z.rem (first_day + 6) 7 in
  let week1_monday := first_day - first_weekday in
  if 3 <? first_weekday then week1_monday + 7 else week1_monday.

Definition ord_to_ymd (ordinal : Z) : Z * Z * Z :=
  let ordinal := ordinal - 1 in
  let n400 := Z.quot ordinal 146097 in
  let n := Z.rem ordinal 146097 in
  let n100 := Z.quot n 36524 in
  let n := Z.rem n 36524 in
  let n4 := Z.quot n 1461 in
  let n := Z.rem n 1461 in
  let n1 := Z.quot n 365 in
  let n := Z.rem n 365 in
  let year := n400 * 400 + 1 + n100 * 100 + n4 * 4 + n1 in
  if (n1 =? 4) || (n100 =? 4) then (year - 1, 12, 31)
  else
    let leapyear := (n1 =? 3) && (negb (n4 =? 24) || (n100 =? 3)) in
    let month := Z.shiftr (n + 50) 5 in
    let preceding :=
      table_at days_before_month_table month + (if (2 <? month) && leapyear then 1 else 0) in
    if n <? preceding then
      let month' := month - 1 in
      let dim :=
        if (month' =? 2) && is_leap year then 29 else table_at days_in_month_table month' in
      (year, month', n - (preceding - dim) + 1)
    else (year, month, n - preceding + 1).

(** [iso_to_ymd]: year, week and weekday of the ISO calendar to year,
    month and day; [None] for a week or a day that does not exist. *)
Definition iso_to_ymd (iso_year iso_week iso_day : Z) : option (Z * Z * Z) :=
  let out_of_range :=
    if (iso_week <=? 0) || (53 <=? iso_week) then
      negb ((iso_week =? 53)
            && (let first_weekday := weekday iso_year 1 1 in
                (first_weekday =? 3) || ((first_weekday =? 2) && is_leap iso_year)))
    else false in
  if out_of_range then None
  else if (iso_day <=? 0) || (8 <=? iso_day) then None
  else Some (ord_to_ymd (iso_week1_monday iso_year + ((iso_week - 1) * 7 + iso_day - 1))).

(** [parse_isoformat_date]: the date that ends at [len]. *)
Definition parse_isoformat_date (s : string) (len : nat) : option (Z * Z * Z) :=
  match parse_digits s 0 4 0 with
  | None => None
  | Some (year, p) =>
      let uses_separator := byte_at s p =? chr "-" in
      let p := if uses_separator then S p else p in
      if byte_at s p =? chr "W" then
        match parse_digits s (S p) 2 0 with
        | None => None
        | Some (iso_week, p) =>
            if Nat.ltb p len then
              if uses_separator && negb (byte_at s p =? chr "-") then None
              else
                match parse_digits s (if uses_separator then S p else p) 1 0 with
                | None => None
                | Some (iso_day, _) => iso_to_ymd year iso_week iso_day
                end
            else iso_to_ymd year iso_week 1
        end
      else
        match parse_digits s p 2 0 with
        | None => None
        | Some (month, p) =>
            if uses_separator && negb (byte_at s p =? chr "-") then None
            else
              match parse_digits s (if uses_separator then S p else p) 2 0 with
              | None => None
              | Some (day, _) => Some (year, month, day)
              end
        end
  end.

(** What [parse_hh_mm_ss_ff] hands back: hour, minute, second and
    microsecond, and whether text is left behind them. *)
Definition clock_reading : Type := Z * Z * Z * Z * bool.

Definition reading (vals : list Z) (microsecond : Z) (more : bool) : clock_reading :=
  (nth 0 vals 0, nth 1 vals 0, nth 2 vals 0, microsecond, more).

(** The fraction: up to six digits count, further digits are dropped. *)
Definition parse_fraction (s : string) (p p_end : nat) (vals : list Z) : option clock_reading :=
  let to_parse := Nat.min (p_end - p) 6 in
  match parse_digits s p to_parse 0 with
  | None => None
  | Some (microsecond, p) =>
      let p := skip_digits s p (String.length s) in
      Some (reading vals (microsecond * 10 ^ Z.of_nat (6 - to_parse)) (negb (byte_at s p =? 0)))
  end.

(** The loop over hour, minute and second of [parse_hh_mm_ss_ff];
    [todo] components are still to read, [first] marks the hour, after
    which the loop knows whether colons are used. *)
Fixpoint parse_components (s : string) (p_end : nat) (todo : nat) (first has_separator : bool)
    (p : nat) (vals : list Z) : option clock_reading :=
  match todo with
  | O => parse_fraction s p p_end vals
  | S todo' =>
      match parse_digits s p 2 0 with
      | None => None
      | Some (v, p) =>
          let c := byte_at s p in
          let has_separator := if first then c =? chr ":" else has_separator in
          let vals := (vals ++ [v])%list in
          if Nat.leb p_end (S p) then Some (reading vals 0 (negb (c =? 0)))
          else if has_separator && (c =? chr ":") then
            parse_components s p_end todo' false has_separator (S p) vals
          else if (c =? chr ".") || (c =? chr ",") then parse_fraction s (S p) p_end vals
          else if negb has_separator then
            parse_components s p_end todo' false has_separator p vals
          else None
      end
  end.

(** [parse_hh_mm_ss_ff]: [HH[:MM[:SS[.f+]]]], with or without colons,
    between [p] and [p_end]. *)
Definition parse_hh_mm_ss_ff (s : string) (p p_end : nat) : option clock_reading :=
  parse_components s p_end 3 true true p [].

Definition is_tz_mark (b : Z) : bool := (b =? chr "Z") || (b =? chr "+") || (b =? chr "-").

(** The [do ... while] of [parse_isoformat_time] that looks for [Z],
    [+] or [-]. *)
Fixpoint find_tzinfo (s : string) (tzinfo_pos p_end : nat) (fuel : nat) : nat :=
  match fuel with
  | O => tzinfo_pos
  | S f =>
      if is_tz_mark (byte_at s tzinfo_pos) then tzinfo_pos
      else if Nat.ltb (S tzinfo_pos) p_end then find_tzinfo s (S tzinfo_pos) p_end f
      else S tzinfo_pos
  end.

(** [parse_isoformat_time]: the time between [p] and [p_end], and the
    offset as seconds and microseconds when there is one. *)
Definition parse_isoformat_time (s : string) (p p_end : nat)
    : option (Z * Z * Z * Z * option (Z * Z)) :=
  let tzinfo_pos := find_tzinfo s p p_end (S (p_end - p)) in
  match parse_hh_mm_ss_ff s p tzinfo_pos with
  | None => None
  | Some (hour, minute, second, microsecond, more) =>
      if Nat.eqb tzinfo_pos p_end then
        if more then None else Some (hour, minute, second, microsecond, None)
      else if byte_at s tzinfo_pos =? chr "Z" then
        if byte_at s (S tzinfo_pos) =? 0 then Some (hour, minute, second, microsecond, Some (0, 0))
        else None
      else
        let tzsign := if byte_at s tzinfo_pos =? chr "-" then -1 else 1 in
        match parse_hh_mm_ss_ff s (S tzinfo_pos) p_end with
        | Some (tzhour, tzminute, tzsecond, tzmicrosecond, false) =>
            Some (hour, minute, second, microsecond,
                  Some (tzsign * (tzhour * 3600 + tzminute * 60 + tzsecond),
                        tzsign * tzmicrosecond))
        | _ => None
        end
  end.

(** The number of bytes of the separator, from its first byte. *)
Definition separator_width (b : Z) : nat :=
  if Z.land b 128 =? 0 then 1%nat
  else if Z.land b 240 =? 240 then 4%nat
  else if Z.land b 240 =? 224 then 3%nat
  else 2%nat.

(** [repr] of a [timedelta] of [us] microseconds. *)
Definition timedelta_repr (us : Z) : string :=
  let part (name : string) (v : Z) : list string :=
    if v =? 0 then [] else [name ++ "=" ++ PyStr.of_Z v] in
  let parts :=
    (part "days" (us / us_per_day)
     ++ part "seconds" (us mod us_per_day / us_per_second)
     ++ part "microseconds" (us mod us_per_second))%list in
  "datetime.timedelta("
  ++ String.concat ", " (match parts with [] => ["0"] | _ => parts end) ++ ")".

(** [tzinfo_from_isoformat_results]: an offset of zero seconds is UTC
    whatever its microseconds; any other goes through the [timezone]
    constructor and its range check. *)
Definition tzinfo_from_isoformat_results (tz : option (Z * Z)) : result (option Z) :=
  match tz with
  | None => Ok None
  | Some (tzoffset, tz_useconds) =>
      if tzoffset =? 0 then Ok (Some 0)
      else
        let off := tzoffset * us_per_second + tz_useconds in
        if (- us_per_day <? off) && (off <? us_per_day) then Ok (Some off)
        else Raise (ValueError
          ("offset must be a timedelta strictly between -timedelta(hours=24) and "
           ++ "timedelta(hours=24), not " ++ timedelta_repr off ++ "."))
  end.

(** The range checks of the [datetime] constructor. *)
Definition new_datetime (year month day hour minute second microsecond : Z)
    (tzinfo : option Z) : result datetime :=
  if negb ((1 <=? year) && (year <=? 9999)) then
    Raise (ValueError ("year " ++ PyStr.of_Z year ++ " is out of range"))
  else if negb ((1 <=? month) && (month <=? 12)) then
    Raise (ValueError "month must be in 1..12")
  else if negb ((1 <=? day) && (day <=? days_in_month year month)) then
    Raise (ValueError "day is out of range for month")
  else if negb ((0 <=? hour) && (hour <=? 23)) then Raise (ValueError "hour must be in 0..23")
  else if negb ((0 <=? minute) && (minute <=? 59)) then
    Raise (ValueError "minute must be in 0..59")
  else if negb ((0 <=? second) && (second <=? 59)) then
    Raise (ValueError "second must be in 0..59")
  else if negb ((0 <=? microsecond) && (microsecond <=? 999999)) then
    Raise (ValueError "microsecond must be in 0..999999")
  else Ok (mkDatetime (of_fields year month day hour minute second microsecond) tzinfo).

Definition fromisoformat (s : string) : result datetime :=
  let invalid := Raise (ValueError ("Invalid isoformat string: " ++ PyStr.repr s)) in
  let len := String.length s in
  if Nat.ltb len 7 then invalid
  else
    match find_isoformat_datetime_separator s len with
    | None => invalid
    | Some separator_location =>
        match parse_isoformat_date s separator_location with
        | None => invalid
        | Some (year, month, day) =>
            let time :=
              if Nat.ltb separator_location len then
                parse_isoformat_time s
                  (separator_location + separator_width (byte_at s separator_location)) len
              else Some (0, 0, 0, 0, None) in
            match time with
            | None => invalid
            | Some (hour, minute, second, microsecond, tz) =>
                match tzinfo_from_isoformat_results tz with
                | Raise e => Raise e
                | Ok tzinfo => new_datetime year month day hour minute second microsecond tzinfo
                end
            end
        end
    end.

(** [a > b]. *)
Definition gt (a b : datetime) : result bool :=
  match utcoffset a, utcoffset b with
  | None, None => Ok (wall b <? wall a)
  | Some oa, Some ob => Ok (wall b - ob <? wall a - oa)
  | _, _ => Raise (TypeError "can't compare offset-naive and offset-aware datetimes")
  end.

(** [timedelta(days=v)] for a value out of an argument bag: the number
    of days.  The count must fit a C [int] before its magnitude is
    looked at. *)
Definition timedelta_days (v : json) : result Z :=
  let check (n : Z) :=
    if Z.abs n <=? 999999999 then Ok n
    else if (- 2 ^ 31 <=? n) && (n <? 2 ^ 31) then
      Raise (OverflowError
        ("days=" ++ PyStr.of_Z n ++ "; must have magnitude <= 999999999"))
    else Raise (OverflowError "Python int too large to convert to C int") in
  match v with
  | JNum n => check n
  | JBool b => check (Z.b2z b)
  | _ => Raise (TypeError
      ("unsupported type for timedelta days component: " ++ Py.type_name v))
  end.

(** [naive + timedelta(days=d)] and [naive - timedelta(days=d)]. *)
Definition shift_days (w : Z) (d : Z) : result Z :=
  let r := w + d * us_per_day in
  if (0 <=? r) && (r <=? max_wall) then Ok r
  else Raise (OverflowError "date value out of range").

End PyDatetime.

(* ================================================================= *)
(** ** [int / 2**k] and the [.2f] format *)

Module PyFloat.

(** Nearest integer to [a / b], ties to even, for [0 <= a], [0 < b]. *)
Definition round_half_even (a b : Z) : Z :=
  let q := a / b in
  let r := a mod b in
  if 2 * r <? b then q
  else if b <? 2 * r then q + 1
  else if Z.even q then q else q + 1.

(** The magnitude of [float(n)]: [n] rounded to 53 significant bits. *)
Definition to_double_magnitude (a : Z) : Z :=
  let bits := if a =? 0 then 0 else Z.log2 a + 1 in
  if bits <=? 53 then a
  else let sh := bits - 53 in round_half_even a (2 ^ sh) * 2 ^ sh.

(** The hundredths that [format(n / 2**k, ".2f")] prints. *)
Definition hundredths (n k : Z) : Z :=
  round_half_even (to_double_magnitude (Z.abs n) * 100) (2 ^ k).

(** [f"{n / 2**k:.2f}"] for an [int] [n]. *)
Definition format_2f_div_pow2 (n k : Z) : result string :=
  if 2 ^ (1024 + k) <=? to_double_magnitude (Z.abs n) then
    Raise (OverflowError "integer division result too large for a float")
  else
    let h := hundredths n k in
    Ok ((if n <? 0 then "-" else "") ++ PyStr.of_Z (h / 100) ++ "."
        ++ PyDatetime.digits 2 (h mod 100)).

(** [f"{v / (2**k):.2f}"] for a JSON value [v]. *)
Definition format_2f_json (v : json) (k : Z) : result string :=
  match v with
  | JNum n => format_2f_div_pow2 n k
  | JBool b => format_2f_div_pow2 (Z.b2z b) k
  | _ => Raise (TypeError
      ("unsupported operand type(s) for /: '" ++ Py.type_name v ++ "' and 'int'"))
  end.

End PyFloat.

(* ================================================================= *)
(** ** Exceptions without I/O, and Python's dynamic operations *)

Definition bindR {A B : Type} (m : result A) (k : A -> result B) : result B :=
  match m with
  | Ok a => k a
  | Raise e => Raise e
  end.

Notation "x <~ c1 ;; c2" := (bindR c1 (fun x => c2))
  (at level 61, c1 at next level, right associativity).

(** A [for] loop whose body may raise: the first exception ends it. *)
Fixpoint mapR {A B : Type} (f : A -> result B) (l : list A) : result (list B) :=
  match l with
  | [] => Ok []
  | x :: r => y <~ f x ;; ys <~ mapR f r ;; Ok (y :: ys)
  end.

Module Dyn.

(** [obj[key]] with a [str] key.  The wording of the [TypeError]
    messages is that of CPython 3.11. *)
Definition getitem (obj : json) (key : string) : result json :=
  match obj with
  | JObj kvs =>
      match Py.lookup key kvs with
      | Some v => Ok v
      | None => Raise (KeyError key)
      end
  | JArr _ => Raise (TypeError "list indices must be integers or slices, not str")
  | JStr _ => Raise (TypeError "string indices must be integers, not 'str'")
  | _ => Raise (TypeError ("'" ++ Py.type_name obj ++ "' object is not subscriptable"))
  end.

Definition no_attribute (obj : json) (attr : string) : exn :=
  AttributeError ("'" ++ Py.type_name obj ++ "' object has no attribute '" ++ attr ++ "'").

(** [obj.get(key, default)]. *)
Definition get (obj : json) (key : string) (default : json) : result json :=
  match obj with
  | JObj kvs =>
      match Py.lookup key kvs with
      | Some v => Ok v
      | None => Ok default
      end
  | _ => Raise (no_attribute obj "get")
  end.

(** The characters of a text, each with its continuation bytes. *)
Fixpoint chars (s : string) : list string :=
  match s with
  | EmptyString => []
  | String c r =>
      match chars r with
      | String c' x :: rest =>
          if PyStr.is_continuation c' then String c (String c' x) :: rest
          else String c "" :: String c' x :: rest
      | rest => String c "" :: rest
      end
  end.

(** What [for x in obj] walks through. *)
Definition iter (obj : json) : result (list json) :=
  match obj with
  | JArr l => Ok l
  | JObj kvs => Ok (map (fun kv => JStr (fst kv)) kvs)
  | JStr s => Ok (map JStr (chars s))
  | _ => Raise (TypeError ("'" ++ Py.type_name obj ++ "' object is not iterable"))
  end.

(** [obj.replace("Z", "+00:00")]. *)
Definition replace_Z (obj : json) : result string :=
  match obj with
  | JStr s => Ok (PyStr.replace_char "Z"%char "+00:00" s)
  | _ => Raise (no_attribute obj "replace")
  end.

(** [obj.lower()]. *)
Definition lower (obj : json) : result string :=
  match obj with
  | JStr s => Ok (PyStr.lower s)
  | _ => Raise (no_attribute obj "lower")
  end.

(** [f"{obj:02d}"]. *)
Definition format_02d (obj : json) : result string :=
  match obj with
  | JNum n => Ok (PyStr.pad2 n)
  | JBool b => Ok (PyStr.pad2 (Z.b2z b))
  | JStr _ => Raise (ValueError "Unknown format code 'd' for object of type 'str'")
  | _ => Raise (TypeError
      ("unsupported format string passed to " ++ Py.type_name obj ++ ".__format__"))
  end.

(** *** [int(s)] for a [str], base ten, as CPython 3.11 reads it *)

(** The zero digits of the decimal-digit blocks of Unicode 14.0 beyond
    ASCII; the nine code points after each are its digits 1 to 9. *)
Definition decimal_zeros : list Z :=
  [1632; 1776; 1984; 2406; 2534; 2662; 2790; 2918; 3046; 3174; 3302; 3430; 3558; 3664;
   3792; 3872; 4160; 4240; 6112; 6160; 6470; 6608; 6784; 6800; 6992; 7088; 7232; 7248;
   42528; 43216; 43264; 43472; 43504; 43600; 44016; 65296; 66720; 68912; 69734; 69872;
   69942; 70096; 70384; 70736; 70864; 71248; 71360; 71472; 71904; 72016; 72784; 73040;
   73120; 92768; 92864; 93008; 120782; 120792; 120802; 120812; 120822; 123200; 123632;
   125264; 130032].

(** [Py_UNICODE_TODECIMAL]. *)
Definition to_decimal (ch : Z) : option Z :=
  match find (fun z => (z <=? ch) && (ch <? z + 10)) decimal_zeros with
  | Some z => Some (ch - z)
  | None => None
  end.

(** [Py_UNICODE_ISSPACE] beyond ASCII. *)
Definition is_unicode_space (ch : Z) : bool :=
  (ch =? 133) || (ch =? 160) || (ch =? 5760) || ((8192 <=? ch) && (ch <=? 8202))
  || (ch =? 8232) || (ch =? 8233) || (ch =? 8239) || (ch =? 8287) || (ch =? 12288).

(** [_PyUnicode_TransformDecimalAndSpaceToASCII], one character: ASCII
    stays, a space becomes [' '], a decimal digit its ASCII digit, and
    anything else ['?']. *)
Definition to_ascii (ch : Z) : Z :=
  if ch <? 128 then ch
  else if is_unicode_space ch then 32
  else
    match to_decimal ch with
    | Some d => 48 + d
    | None => 63
    end.

(** [Py_ISSPACE]. *)
Definition is_space (b : Z) : bool := (b =? 32) || ((9 <=? b) && (b <=? 13)).

Fixpoint skip_spaces (l : list Z) : list Z :=
  match l with
  | b :: r => if is_space b then skip_spaces r else l
  | [] => []
  end.

(** The scan over digits and underscores of [long_from_string_base]:
    the value, the number of digits and what follows the run; [None]
    for two underscores in a row or one at the end. *)
Fixpoint scan_digits (prev : Z) (value digits : Z) (l : list Z) : option (Z * Z * list Z) :=
  let stop := if prev =? 95 then None else Some (value, digits, l) in
  match l with
  | b :: r =>
      if PyDatetime.is_digit b then scan_digits b (value * 10 + (b - 48)) (digits + 1) r
      else if b =? 95 then (if prev =? 95 then None else scan_digits b value digits r)
      else stop
  | [] => stop
  end.

(** [sys.get_int_max_str_digits()], as the interpreter starts. *)
Definition int_max_str_digits : Z := 4300.

(** [int(s)]: spaces, a sign, digits with single underscores between
    them, spaces.  A run of more than 4300 digits is refused before
    what follows it is looked at. *)
Definition int_of_str (s : string) : result Z :=
  let invalid :=
    Raise (ValueError ("invalid literal for int() with base 10: "
                       ++ PyStr.take_chars 200 (PyStr.repr s))) in
  let buffer := skip_spaces (map to_ascii (PyStr.code_points s)) in
  let '(sign, str) :=
    match buffer with
    | 43 :: r => (1, r)
    | 45 :: r => (-1, r)
    | _ => (1, buffer)
    end in
  match str with
  | 95 :: _ => invalid
  | _ =>
      match scan_digits 0 0 0 str with
      | None => invalid
      | Some (value, digits, rest) =>
          if int_max_str_digits <? digits then
            Raise (ValueError
              ("Exceeds the limit (" ++ PyStr.of_Z int_max_str_digits
               ++ " digits) for integer string conversion: value has " ++ PyStr.of_Z digits
               ++ " digits; use sys.set_int_max_str_digits() to increase the limit"))
          else if digits =? 0 then invalid
          else
            match skip_spaces rest with
            | [] => Ok (sign * value)
            | _ => invalid
            end
      end
  end.

End Dyn.

(* ================================================================= *)
(** ** Outbound HTTP: requests, responses and the effect monad *)

Inductive http_method : Type := GET | POST.

Record request : Type := mkRequest {
  req_method : http_method;
  req_url : string;
  req_headers : list (string * string);
  req_params : option (list (string * string));
  req_json : option json
}.

(** What [response.json()] gives: the decoded body, or the decoder's
    exception when the body is empty or not valid JSON. *)
Inductive body : Type :=
| BodyJson (j : json)
| BodyUndecodable (msg : string).

(** The outcome of one request: a response with its status code, or an
    exception of the HTTP library (timeout, refused connection). *)
Inductive response : Type :=
| Response (status_code : Z) (b : body)
| ConnectFailure (msg : string).

(** The outside world of one inbound request: the remote backends and
    the local clock ([datetime.now()], microseconds since
    0001-01-01T00:00:00). *)
Record world : Type := mkWorld {
  backend : request -> response;
  now : Z
}.

(** A computation reads the world, appends the requests it sends to the
    trace, and returns or raises.  The trace survives an exception. *)
Definition M (A : Type) : Type := world -> list request -> result A * list request.

Definition ret {A : Type} (a : A) : M A := fun _ t => (Ok a, t).

Definition raise {A : Type} (e : exn) : M A := fun _ t => (Raise e, t).

Definition bind {A B : Type} (m : M A) (k : A -> M B) : M B :=
  fun w t =>
    match m w t with
    | (Ok a, t') => k a w t'
    | (Raise e, t') => (Raise e, t')
    end.

Definition lift {A : Type} (r : result A) : M A := fun _ t => (r, t).

Definition send (r : request) : M response :=
  fun w t => (Ok (backend w r), (t ++ [r])%list).

Definition datetime_now : M Z := fun w t => (Ok (now w), t).

Notation "x <- c1 ;; c2" := (bind c1 (fun x => c2))
  (at level 61, c1 at next level, right associativity).

(* ================================================================= *)
(** ** [Config] *)

Record Config : Type := mkConfig {
  sonarr_url : string;
  sonarr_api_key : string;
  radarr_url : string;
  radarr_api_key : string;
  request_timeout : Z
}.

Definition getenv (env : list (string * string)) (name default : string) : string :=
  match find (fun kv => String.eqb (fst kv) name) env with
  | Some kv => snd kv
  | None => default
  end.

Definition Config_from_env (env : list (string * string)) : result Config :=
  t <~ Dyn.int_of_str (getenv env "REQUEST_TIMEOUT" "30") ;;
  Ok (mkConfig (PyStr.rstrip_slash (getenv env "SONARR_URL" ""))
               (getenv env "SONARR_API_KEY" "")
               (PyStr.rstrip_slash (getenv env "RADARR_URL" ""))
               (getenv env "RADARR_API_KEY" "")
               t).

Definition validate_service (c : Config) (service : string) : bool :=
  if String.eqb service "sonarr" then
    negb (PyStr.is_empty (sonarr_url c)) && negb (PyStr.is_empty (sonarr_api_key c))
  else if String.eqb service "radarr" then
    negb (PyStr.is_empty (radarr_url c)) && negb (PyStr.is_empty (radarr_api_key c))
  else false.

(* ================================================================= *)
(** ** [APIClient] *)

(** [get] and [post] are the two methods the facade calls; [put] and
    [delete] have no caller and are left out. *)

Record APIClient : Type := mkAPIClient {
  base_url : string;
  api_key : string;
  timeout : Z
}.

Definition is_success (status : Z) : bool := (200 <=? status) && (status <=? 299).

(** The part common to [get] and [post]: send, [raise_for_status()]
    (which raises on every status outside 200..299), [response.json()].
    The [except httpx.HTTPStatusError] clause replaces the library's
    exception by [Exception("API request failed: <status>")]; the
    [except Exception] clause logs and re-raises what it caught. *)
Definition APIClient_request (r : request) : M json :=
  resp <- send r ;;
  match resp with
  | ConnectFailure msg => raise (TransportError msg)
  | Response status b =>
      if is_success status then
        match b with
        | BodyJson j => ret j
        | BodyUndecodable msg => raise (JSONDecodeError msg)
        end
      else raise (ApiRequestFailed status)
  end.

Definition api_url (c : APIClient) (endpoint : string) : string :=
  base_url c ++ "/api/v3/" ++ endpoint.

Definition api_headers (c : APIClient) : list (string * string) :=
  [("X-Api-Key", api_key c)].

Definition APIClient_get (c : APIClient) (endpoint : string)
    (params : option (list (string * string))) : M json :=
  APIClient_request (mkRequest GET (api_url c endpoint) (api_headers c) params None).

Definition APIClient_post (c : APIClient) (endpoint : string) (json_data : json) : M json :=
  APIClient_request (mkRequest POST (api_url c endpoint) (api_headers c) None (Some json_data)).

(* ================================================================= *)
(** ** [SonarrRadarrMCP]: the facade *)

Record SonarrRadarrMCP : Type := mkMCP {
  config : Config;
  sonarr_client : option APIClient;
  radarr_client : option APIClient
}.

Definition make_client (c : Config) (service url key : string) : option APIClient :=
  if validate_service c service then Some (mkAPIClient url key (request_timeout c)) else None.

(** [SonarrRadarrMCP.__init__], from the configuration it loaded. *)
Definition SonarrRadarrMCP_init (c : Config) : SonarrRadarrMCP :=
  mkMCP c
    (make_client c "sonarr" (sonarr_url c) (sonarr_api_key c))
    (make_client c "radarr" (radarr_url c) (radarr_api_key c)).

(** [client.get(...)] and [client.post(...)] on an attribute that may
    still be [None]. *)
Definition client_get (c : option APIClient) (endpoint : string)
    (params : option (list (string * string))) : M json :=
  match c with
  | Some cl => APIClient_get cl endpoint params
  | None => raise (Dyn.no_attribute JNull "get")
  end.

Definition client_post (c : option APIClient) (endpoint : string) (json_data : json) : M json :=
  match c with
  | Some cl => APIClient_post cl endpoint json_data
  | None => raise (Dyn.no_attribute JNull "post")
  end.

Import PyStr(nl).

(** [datetime.now() - timedelta(days=days)]. *)
Definition cutoff_of (days : json) : M PyDatetime.datetime :=
  n <- datetime_now ;;
  d <- lift (PyDatetime.timedelta_days days) ;;
  c <- lift (PyDatetime.shift_days n (- d)) ;;
  ret (PyDatetime.mkDatetime c None).

(** The key of [recent.sort(key=lambda x: x["added"], reverse=True)];
    every dict of [recent] holds a [str] there. *)
Definition added_key (d : json) : string :=
  match d with
  | JObj kvs =>
      match Py.lookup "added" kvs with
      | Some (JStr s) => s
      | _ => ""
      end
  | _ => ""
  end.

Fixpoint insert_desc (x : json) (l : list json) : list json :=
  match l with
  | [] => [x]
  | y :: r => if String.ltb (added_key x) (added_key y) then y :: insert_desc x r else x :: l
  end.

(** A stable sort, largest key first, as [list.sort(reverse=True)] is. *)
Definition sort_added_desc (l : list json) : list json := fold_right insert_desc [] l.

Fixpoint keep {A : Type} (l : list (option A)) : list A :=
  match l with
  | [] => []
  | Some a :: r => a :: keep r
  | None :: r => keep r
  end.

(** *** Sonarr *)

(** One turn of the first loop of [get_recent_series]. *)
Definition recent_series_step (cutoff_date : PyDatetime.datetime) (show : json)
    : result (option json) :=
  a <~ Dyn.getitem show "added" ;;
  r <~ Dyn.replace_Z a ;;
  added <~ PyDatetime.fromisoformat r ;;
  newer <~ PyDatetime.gt added cutoff_date ;;
  if newer : bool then
    title <~ Dyn.getitem show "title" ;;
    year <~ Dyn.get show "year" JNull ;;
    added' <~ Dyn.getitem show "added" ;;
    status <~ Dyn.getitem show "status" ;;
    network <~ Dyn.get show "network" JNull ;;
    seasons <~ Dyn.get show "seasonCount" (JNum 0) ;;
    Ok (Some (JObj [("title", title); ("year", year); ("added", added');
                    ("status", status); ("network", network); ("seasons", seasons)]))
  else Ok None.

(** One turn of the second loop of [get_recent_series]. *)
Definition render_recent_series (show : json) : result string :=
  title <~ Dyn.getitem show "title" ;;
  year <~ Dyn.getitem show "year" ;;
  added <~ Dyn.getitem show "added" ;;
  network <~ Dyn.get show "network" (JStr "Unknown") ;;
  seasons <~ Dyn.getitem show "seasons" ;;
  Ok ("- " ++ Py.str title ++ " (" ++ Py.str year ++ ")" ++ nl
      ++ "  Added: " ++ Py.str added ++ nl
      ++ "  Network: " ++ Py.str network ++ nl
      ++ "  Seasons: " ++ Py.str seasons ++ nl ++ nl).

Definition get_recent_series (self : SonarrRadarrMCP) (days : json) : M string :=
  series <- client_get (sonarr_client self) "series" None ;;
  cutoff_date <- cutoff_of days ;;
  shows <- lift (Dyn.iter series) ;;
  kept <- lift (mapR (recent_series_step cutoff_date) shows) ;;
  let recent := sort_added_desc (keep kept) in
  match recent with
  | [] => ret ("No series added in the last " ++ Py.str days ++ " days.")
  | _ =>
      blocks <- lift (mapR render_recent_series recent) ;;
      ret ("Recently added series (last " ++ Py.str days ++ " days):" ++ nl ++ nl
           ++ String.concat "" blocks)
  end.

(** [start] and [end] of the calendar window, as sent. *)
Definition calendar_params (days : json) : M (list (string * string)) :=
  start <- datetime_now ;;
  d <- lift (PyDatetime.timedelta_days days) ;;
  stop <- lift (PyDatetime.shift_days start d) ;;
  ret [("start", PyDatetime.isoformat start); ("end", PyDatetime.isoformat stop)].

Definition render_episode (episode : json) : result string :=
  air_date <~ Dyn.get episode "airDateUtc" (JStr "Unknown") ;;
  series <~ Dyn.getitem episode "series" ;;
  series_title <~ Dyn.getitem series "title" ;;
  sn <~ Dyn.getitem episode "seasonNumber" ;;
  season <~ Dyn.format_02d sn ;;
  en <~ Dyn.getitem episode "episodeNumber" ;;
  number <~ Dyn.format_02d en ;;
  title <~ Dyn.get episode "title" (JStr "TBA") ;;
  Ok ("- " ++ Py.str series_title ++ " - S" ++ season ++ "E" ++ number ++ nl
      ++ "  Title: " ++ Py.str title ++ nl
      ++ "  Airs: " ++ Py.str air_date ++ nl ++ nl).

Definition get_sonarr_calendar (self : SonarrRadarrMCP) (days : json) : M string :=
  params <- calendar_params days ;;
  calendar <- client_get (sonarr_client self) "calendar" (Some params) ;;
  if negb (Py.truthy calendar) then
    ret ("No episodes airing in the next " ++ Py.str days ++ " days.")
  else
    episodes <- lift (Dyn.iter calendar) ;;
    blocks <- lift (mapR render_episode episodes) ;;
    ret ("Upcoming episodes (next " ++ Py.str days ++ " days):" ++ nl ++ nl
         ++ String.concat "" blocks).

(** The condition of the comprehension
    [[s for s in series if query.lower() in s["title"].lower()]]. *)
Definition title_matches (query : json) (s : json) : result bool :=
  q <~ Dyn.lower query ;;
  t <~ Dyn.getitem s "title" ;;
  tl <~ Dyn.lower t ;;
  Ok (PyStr.contains q tl).

Fixpoint filterR {A : Type} (f : A -> result bool) (l : list A) : result (list A) :=
  match l with
  | [] => Ok []
  | x :: r =>
      b <~ f x ;;
      ys <~ filterR f r ;;
      Ok (if b : bool then x :: ys else ys)
  end.

Definition render_series_match (show : json) : result string :=
  title <~ Dyn.getitem show "title" ;;
  year <~ Dyn.get show "year" (JStr "N/A") ;;
  status <~ Dyn.getitem show "status" ;;
  seasons <~ Dyn.get show "seasonCount" (JNum 0) ;;
  id <~ Dyn.getitem show "id" ;;
  Ok ("- " ++ Py.str title ++ " (" ++ Py.str year ++ ")" ++ nl
      ++ "  Status: " ++ Py.str status ++ nl
      ++ "  Seasons: " ++ Py.str seasons ++ nl
      ++ "  ID: " ++ Py.str id ++ nl ++ nl).

Definition search_sonarr_series (self : SonarrRadarrMCP) (query : json) : M string :=
  series <- client_get (sonarr_client self) "series" None ;;
  shows <- lift (Dyn.iter series) ;;
  matches <- lift (filterR (title_matches query) shows) ;;
  match matches with
  | [] => ret ("No series found matching '" ++ Py.str query ++ "'.")
  | _ =>
      blocks <- lift (mapR render_series_match (firstn 10 matches)) ;;
      ret ("Series matching '" ++ Py.str query ++ "':" ++ nl ++ nl
           ++ String.concat "" blocks)
  end.

Definition render_disk (disk : json) : result string :=
  free <~ Dyn.getitem disk "freeSpace" ;;
  free_gb <~ PyFloat.format_2f_json free 30 ;;
  total <~ Dyn.getitem disk "totalSpace" ;;
  total_gb <~ PyFloat.format_2f_json total 30 ;;
  path <~ Dyn.getitem disk "path" ;;
  Ok ("- " ++ Py.str path ++ ": " ++ free_gb ++ " GB free of " ++ total_gb ++ " GB" ++ nl).

(** The body shared, word for word, by [get_sonarr_status] and
    [get_radarr_status] once the two answers are in. *)
Definition render_status (name : string) (status disk_space : json) : result string :=
  version <~ Dyn.getitem status "version" ;;
  os <~ Dyn.get status "osName" (JStr "Unknown") ;;
  runtime <~ Dyn.get status "runtimeName" (JStr "Unknown") ;;
  disks <~ Dyn.iter disk_space ;;
  lines <~ mapR render_disk disks ;;
  Ok (name ++ " System Status:" ++ nl ++ nl
      ++ "Version: " ++ Py.str version ++ nl
      ++ "OS: " ++ Py.str os ++ nl
      ++ "Runtime: " ++ Py.str runtime ++ nl ++ nl
      ++ "Disk Space:" ++ nl ++ String.concat "" lines).

Definition get_sonarr_status (self : SonarrRadarrMCP) : M string :=
  status <- client_get (sonarr_client self) "system/status" None ;;
  disk_space <- client_get (sonarr_client self) "diskspace" None ;;
  lift (render_status "Sonarr" status disk_space).

(** The [Progress] line of a queue item:
    [item.get('sizeleft', 0) / (1024**2)] under [.2f]. *)
Definition render_progress (item : json) : result string :=
  sizeleft <~ Dyn.get item "sizeleft" (JNum 0) ;;
  mb <~ PyFloat.format_2f_json sizeleft 20 ;;
  Ok ("  Progress: " ++ mb ++ " MB remaining" ++ nl ++ nl).

Definition render_sonarr_queue_item (item : json) : result string :=
  series <~ Dyn.getitem item "series" ;;
  title <~ Dyn.getitem series "title" ;;
  ep <~ Dyn.getitem item "episode" ;;
  sn <~ Dyn.getitem ep "seasonNumber" ;;
  season <~ Dyn.format_02d sn ;;
  ep' <~ Dyn.getitem item "episode" ;;
  en <~ Dyn.getitem ep' "episodeNumber" ;;
  number <~ Dyn.format_02d en ;;
  status <~ Dyn.getitem item "status" ;;
  progress <~ render_progress item ;;
  Ok ("- " ++ Py.str title ++ " - S" ++ season ++ "E" ++ number ++ nl
      ++ "  Status: " ++ Py.str status ++ nl
      ++ progress).

(** The body shared by [get_sonarr_queue] and [get_radarr_queue] once
    the queue is fetched; [render_item] is the per-backend block. *)
Definition render_queue (render_item : json -> result string) (queue : json) : result string :=
  records <~ Dyn.get queue "records" JNull ;;
  if negb (Py.truthy records) then Ok "Download queue is empty."
  else
    records' <~ Dyn.getitem queue "records" ;;
    items <~ Dyn.iter records' ;;
    blocks <~ mapR render_item items ;;
    Ok ("Current Download Queue:" ++ nl ++ nl ++ String.concat "" blocks).

Definition get_sonarr_queue (self : SonarrRadarrMCP) : M string :=
  queue <- client_get (sonarr_client self) "queue" None ;;
  lift (render_queue render_sonarr_queue_item queue).

Definition refresh_sonarr_series (self : SonarrRadarrMCP) (series_id : json) : M string :=
  _ <- client_post (sonarr_client self) "command"
         (JObj [("name", JStr "RefreshSeries"); ("seriesId", series_id)]) ;;
  ret ("Refresh triggered for series ID " ++ Py.str series_id).

Definition search_sonarr_episodes (self : SonarrRadarrMCP) (series_id : json) : M string :=
  _ <- client_post (sonarr_client self) "command"
         (JObj [("name", JStr "SeriesSearch"); ("seriesId", series_id)]) ;;
  ret ("Episode search triggered for series ID " ++ Py.str series_id).

(** *** Radarr *)

Definition recent_movies_step (cutoff_date : PyDatetime.datetime) (movie : json)
    : result (option json) :=
  a <~ Dyn.getitem movie "added" ;;
  r <~ Dyn.replace_Z a ;;
  added <~ PyDatetime.fromisoformat r ;;
  newer <~ PyDatetime.gt added cutoff_date ;;
  if newer : bool then
    title <~ Dyn.getitem movie "title" ;;
    year <~ Dyn.get movie "year" JNull ;;
    added' <~ Dyn.getitem movie "added" ;;
    status <~ Dyn.getitem movie "status" ;;
    studio <~ Dyn.get movie "studio" JNull ;;
    Ok (Some (JObj [("title", title); ("year", year); ("added", added');
                    ("status", status); ("studio", studio)]))
  else Ok None.

Definition render_recent_movie (movie : json) : result string :=
  title <~ Dyn.getitem movie "title" ;;
  year <~ Dyn.getitem movie "year" ;;
  added <~ Dyn.getitem movie "added" ;;
  studio <~ Dyn.get movie "studio" (JStr "Unknown") ;;
  Ok ("- " ++ Py.str title ++ " (" ++ Py.str year ++ ")" ++ nl
      ++ "  Added: " ++ Py.str added ++ nl
      ++ "  Studio: " ++ Py.str studio ++ nl ++ nl).

Definition get_recent_movies (self : SonarrRadarrMCP) (days : json) : M string :=
  movies <- client_get (radarr_client self) "movie" None ;;
  cutoff_date <- cutoff_of days ;;
  items <- lift (Dyn.iter movies) ;;
  kept <- lift (mapR (recent_movies_step cutoff_date) items) ;;
  let recent := sort_added_desc (keep kept) in
  match recent with
  | [] => ret ("No movies added in the last " ++ Py.str days ++ " days.")
  | _ =>
      blocks <- lift (mapR render_recent_movie recent) ;;
      ret ("Recently added movies (last " ++ Py.str days ++ " days):" ++ nl ++ nl
           ++ String.concat "" blocks)
  end.

Definition render_release (movie : json) : result string :=
  title <~ Dyn.getitem movie "title" ;;
  year <~ Dyn.get movie "year" (JStr "N/A") ;;
  release <~ Dyn.get movie "inCinemas" (JStr "TBA") ;;
  status <~ Dyn.getitem movie "status" ;;
  Ok ("- " ++ Py.str title ++ " (" ++ Py.str year ++ ")" ++ nl
      ++ "  Release: " ++ Py.str release ++ nl
      ++ "  Status: " ++ Py.str status ++ nl ++ nl).

Definition get_radarr_calendar (self : SonarrRadarrMCP) (days : json) : M string :=
  params <- calendar_params days ;;
  calendar <- client_get (radarr_client self) "calendar" (Some params) ;;
  if negb (Py.truthy calendar) then
    ret ("No movies releasing in the next " ++ Py.str days ++ " days.")
  else
    movies <- lift (Dyn.iter calendar) ;;
    blocks <- lift (mapR render_release movies) ;;
    ret ("Upcoming movie releases (next " ++ Py.str days ++ " days):" ++ nl ++ nl
         ++ String.concat "" blocks).

Definition render_movie_match (movie : json) : result string :=
  title <~ Dyn.getitem movie "title" ;;
  year <~ Dyn.get movie "year" (JStr "N/A") ;;
  status <~ Dyn.getitem movie "status" ;;
  id <~ Dyn.getitem movie "id" ;;
  Ok ("- " ++ Py.str title ++ " (" ++ Py.str year ++ ")" ++ nl
      ++ "  Status: " ++ Py.str status ++ nl
      ++ "  ID: " ++ Py.str id ++ nl ++ nl).

Definition search_radarr_movies (self : SonarrRadarrMCP) (query : json) : M string :=
  movies <- client_get (radarr_client self) "movie" None ;;
  items <- lift (Dyn.iter movies) ;;
  matches <- lift (filterR (title_matches query) items) ;;
  match matches with
  | [] => ret ("No movies found matching '" ++ Py.str query ++ "'.")
  | _ =>
      blocks <- lift (mapR render_movie_match (firstn 10 matches)) ;;
      ret ("Movies matching '" ++ Py.str query ++ "':" ++ nl ++ nl
           ++ String.concat "" blocks)
  end.

Definition get_radarr_status (self : SonarrRadarrMCP) : M string :=
  status <- client_get (radarr_client self) "system/status" None ;;
  disk_space <- client_get (radarr_client self) "diskspace" None ;;
  lift (render_status "Radarr" status disk_space).

Definition render_radarr_queue_item (item : json) : result string :=
  movie <~ Dyn.getitem item "movie" ;;
  title <~ Dyn.getitem movie "title" ;;
  movie' <~ Dyn.getitem item "movie" ;;
  year <~ Dyn.get movie' "year" (JStr "N/A") ;;
  status <~ Dyn.getitem item "status" ;;
  progress <~ render_progress item ;;
  Ok ("- " ++ Py.str title ++ " (" ++ Py.str year ++ ")" ++ nl
      ++ "  Status: " ++ Py.str status ++ nl
      ++ progress).

Definition get_radarr_queue (self : SonarrRadarrMCP) : M string :=
  queue <- client_get (radarr_client self) "queue" None ;;
  lift (render_queue render_radarr_queue_item queue).

Definition refresh_radarr_movie (self : SonarrRadarrMCP) (movie_id : json) : M string :=
  _ <- client_post (radarr_client self) "command"
         (JObj [("name", JStr "RefreshMovie"); ("movieIds", JArr [movie_id])]) ;;
  ret ("Refresh triggered for movie ID " ++ Py.str movie_id).

Definition search_radarr_movie (self : SonarrRadarrMCP) (movie_id : json) : M string :=
  _ <- client_post (radarr_client self) "command"
         (JObj [("name", JStr "MoviesSearch"); ("movieIds", JArr [movie_id])]) ;;
  ret ("Search triggered for movie ID " ++ Py.str movie_id).

(* ================================================================= *)
(** ** [call_tool]: the structured tool-invocation handler *)

Record TextContent : Type := mkTextContent {
  type : string;
  text : string
}.

Definition text_content (s : string) : list TextContent := [mkTextContent "text" s].

(** A branch of [call_tool]: the guard on the client, then the call. *)
Definition guarded (client : option APIClient) (service : string) (run : M string)
    : M (list TextContent) :=
  match client with
  | None => ret (text_content (service ++ " is not configured"))
  | Some _ => result <- run ;; ret (text_content result)
  end.

(** The [try] block of [call_tool]. *)
Definition call_tool_body (self : SonarrRadarrMCP) (name : string) (arguments : json)
    : M (list TextContent) :=
  if String.eqb name "sonarr_get_recent_series" then
    guarded (sonarr_client self) "Sonarr"
      (days <- lift (Dyn.get arguments "days" (JNum 7)) ;; get_recent_series self days)
  else if String.eqb name "sonarr_get_calendar" then
    guarded (sonarr_client self) "Sonarr"
      (days <- lift (Dyn.get arguments "days" (JNum 7)) ;; get_sonarr_calendar self days)
  else if String.eqb name "sonarr_search_series" then
    guarded (sonarr_client self) "Sonarr"
      (query <- lift (Dyn.getitem arguments "query") ;; search_sonarr_series self query)
  else if String.eqb name "sonarr_get_system_status" then
    guarded (sonarr_client self) "Sonarr" (get_sonarr_status self)
  else if String.eqb name "sonarr_get_queue" then
    guarded (sonarr_client self) "Sonarr" (get_sonarr_queue self)
  else if String.eqb name "sonarr_refresh_series" then
    guarded (sonarr_client self) "Sonarr"
      (id <- lift (Dyn.getitem arguments "series_id") ;; refresh_sonarr_series self id)
  else if String.eqb name "sonarr_search_episodes" then
    guarded (sonarr_client self) "Sonarr"
      (id <- lift (Dyn.getitem arguments "series_id") ;; search_sonarr_episodes self id)
  else if String.eqb name "radarr_get_recent_movies" then
    guarded (radarr_client self) "Radarr"
      (days <- lift (Dyn.get arguments "days" (JNum 7)) ;; get_recent_movies self days)
  else if String.eqb name "radarr_get_calendar" then
    guarded (radarr_client self) "Radarr"
      (days <- lift (Dyn.get arguments "days" (JNum 30)) ;; get_radarr_calendar self days)
  else if String.eqb name "radarr_search_movies" then
    guarded (radarr_client self) "Radarr"
      (query <- lift (Dyn.getitem arguments "query") ;; search_radarr_movies self query)
  else if String.eqb name "radarr_get_system_status" then
    guarded (radarr_client self) "Radarr" (get_radarr_status self)
  else if String.eqb name "radarr_get_queue" then
    guarded (radarr_client self) "Radarr" (get_radarr_queue self)
  else if String.eqb name "radarr_refresh_movie" then
    guarded (radarr_client self) "Radarr"
      (id <- lift (Dyn.getitem arguments "movie_id") ;; refresh_radarr_movie self id)
  else if String.eqb name "radarr_search_movie" then
    guarded (radarr_client self) "Radarr"
      (id <- lift (Dyn.getitem arguments "movie_id") ;; search_radarr_movie self id)
  else ret (text_content ("Unknown tool: " ++ name)).

(** [call_tool]: the [try] block under its [except Exception]. *)
Definition call_tool (self : SonarrRadarrMCP) (name : string) (arguments : json)
    (w : world) (t : list request) : list TextContent * list request :=
  match call_tool_body self name arguments w t with
  | (Ok r, t') => (r, t')
  | (Raise e, t') => (text_content ("Error: " ++ str_exn e), t')
  end.


Definition sonarr_tools : list string :=
  ["sonarr_get_recent_series"; "sonarr_get_calendar"; "sonarr_search_series";
   "sonarr_get_system_status"; "sonarr_get_queue"; "sonarr_refresh_series";
   "sonarr_search_episodes"].

Definition radarr_tools : list string :=
  ["radarr_get_recent_movies"; "radarr_get_calendar"; "radarr_search_movies";
   "radarr_get_system_status"; "radarr_get_queue"; "radarr_refresh_movie";
   "radarr_search_movie"].

(** The names [list_tools] offers. *)
Definition list_tools (self : SonarrRadarrMCP) : list string :=
  ((match sonarr_client self with Some _ => sonarr_tools | None => [] end)
   ++ (match radarr_client self with Some _ => radarr_tools | None => [] end))%list.

(* ================================================================= *)
(** ** [http_server.py]: the Starlette routes *)

Module Http.

Record Request : Type := mkHttpRequest {
  query_params : list (string * string)
}.

Record JSONResponse : Type := mkJSONResponse {
  content : json;
  status_code : Z
}.

(** [request.query_params.get(key)]: of a repeated key the last value
    is the one kept. *)
Definition params_get (key : string) (r : Request) : option string :=
  match find (fun kv => String.eqb (fst kv) key) (rev (query_params r)) with
  | Some kv => Some (snd kv)
  | None => None
  end.

(** [int(request.query_params.get(key, default))]. *)
Definition int_param (r : Request) (key : string) (default : Z) : result Z :=
  match params_get key r with
  | Some s => Dyn.int_of_str s
  | None => Ok default
  end.

Definition error_response (msg : string) (code : Z) : JSONResponse :=
  mkJSONResponse (JObj [("error", JStr msg)]) code.

Definition result_response (s : string) : JSONResponse :=
  mkJSONResponse (JObj [("result", JStr s)]) 200.

(** [try: result = await op; return {"result": result}
     except Exception as e: return {"error": str(e)}, 500]. *)
Definition try_result (op : M string) : M JSONResponse :=
  fun w t =>
    match op w t with
    | (Ok s, t') => (Ok (result_response s), t')
    | (Raise e, t') => (Ok (error_response (str_exn e) 500), t')
    end.

(** The guard [not mcp_instance or not mcp_instance.<client>]: the
    instance when it passes, [None] when the route must answer 503. *)
Definition ready_with (mcp_instance : option SonarrRadarrMCP)
    (client : SonarrRadarrMCP -> option APIClient) : option SonarrRadarrMCP :=
  match mcp_instance with
  | Some mcp => match client mcp with Some _ => Some mcp | None => None end
  | None => None
  end.

Definition health (_ : Request) : M JSONResponse :=
  ret (mkJSONResponse (JObj [("status", JStr "healthy")]) 200).

Definition is_some {A : Type} (o : option A) : bool :=
  match o with Some _ => true | None => false end.

Definition readiness (mcp_instance : option SonarrRadarrMCP) (_ : Request) : M JSONResponse :=
  match mcp_instance with
  | None => ret (mkJSONResponse (JObj [("status", JStr "not ready")]) 503)
  | Some mcp =>
      ret (mkJSONResponse
             (JObj [("status", JStr "ready");
                    ("sonarr_configured", JBool (is_some (sonarr_client mcp)));
                    ("radarr_configured", JBool (is_some (radarr_client mcp)))])
             200)
  end.

Definition sonarr_recent_series (mcp_instance : option SonarrRadarrMCP) (request : Request)
    : M JSONResponse :=
  match ready_with mcp_instance sonarr_client with
  | None => ret (error_response "Sonarr not configured" 503)
  | Some mcp =>
      days <- lift (int_param request "days" 7) ;;
      try_result (get_recent_series mcp (JNum days))
  end.

Definition sonarr_calendar (mcp_instance : option SonarrRadarrMCP) (request : Request)
    : M JSONResponse :=
  match ready_with mcp_instance sonarr_client with
  | None => ret (error_response "Sonarr not configured" 503)
  | Some mcp =>
      days <- lift (int_param request "days" 7) ;;
      try_result (get_sonarr_calendar mcp (JNum days))
  end.

Definition sonarr_search (mcp_instance : option SonarrRadarrMCP) (request : Request)
    : M JSONResponse :=
  match ready_with mcp_instance sonarr_client with
  | None => ret (error_response "Sonarr not configured" 503)
  | Some mcp =>
      let query := match params_get "query" request with Some q => q | None => "" end in
      if PyStr.is_empty query then ret (error_response "query parameter required" 400)
      else try_result (search_sonarr_series mcp (JStr query))
  end.

Definition sonarr_status (mcp_instance : option SonarrRadarrMCP) (request : Request)
    : M JSONResponse :=
  match ready_with mcp_instance sonarr_client with
  | None => ret (error_response "Sonarr not configured" 503)
  | Some mcp => try_result (get_sonarr_status mcp)
  end.

Definition sonarr_queue (mcp_instance : option SonarrRadarrMCP) (request : Request)
    : M JSONResponse :=
  match ready_with mcp_instance sonarr_client with
  | None => ret (error_response "Sonarr not configured" 503)
  | Some mcp => try_result (get_sonarr_queue mcp)
  end.

Definition radarr_recent_movies (mcp_instance : option SonarrRadarrMCP) (request : Request)
    : M JSONResponse :=
  match ready_with mcp_instance radarr_client with
  | None => ret (error_response "Radarr not configured" 503)
  | Some mcp =>
      days <- lift (int_param request "days" 7) ;;
      try_result (get_recent_movies mcp (JNum days))
  end.

Definition radarr_calendar (mcp_instance : option SonarrRadarrMCP) (request : Request)
    : M JSONResponse :=
  match ready_with mcp_instance radarr_client with
  | None => ret (error_response "Radarr not configured" 503)
  | Some mcp =>
      days <- lift (int_param request "days" 30) ;;
      try_result (get_radarr_calendar mcp (JNum days))
  end.

Definition radarr_search (mcp_instance : option SonarrRadarrMCP) (request : Request)
    : M JSONResponse :=
  match ready_with mcp_instance radarr_client with
  | None => ret (error_response "Radarr not configured" 503)
  | Some mcp =>
      let query := match params_get "query" request with Some q => q | None => "" end in
      if PyStr.is_empty query then ret (error_response "query parameter required" 400)
      else try_result (search_radarr_movies mcp (JStr query))
  end.

Definition radarr_status (mcp_instance : option SonarrRadarrMCP) (request : Request)
    : M JSONResponse :=
  match ready_with mcp_instance radarr_client with
  | None => ret (error_response "Radarr not configured" 503)
  | Some mcp => try_result (get_radarr_status mcp)
  end.

Definition radarr_queue (mcp_instance : option SonarrRadarrMCP) (request : Request)
    : M JSONResponse :=
  match ready_with mcp_instance radarr_client with
  | None => ret (error_response "Radarr not configured" 503)
  | Some mcp => try_result (get_radarr_queue mcp)
  end.

(** The per-backend routes of [app]. *)
Inductive route : Type :=
| SonarrRecent | SonarrCalendar | SonarrSearch | SonarrStatus | SonarrQueue
| RadarrRecent | RadarrCalendar | RadarrSearch | RadarrStatus | RadarrQueue.

Definition route_path (r : route) : string :=
  match r with
  | SonarrRecent => "/api/sonarr/recent"
  | SonarrCalendar => "/api/sonarr/calendar"
  | SonarrSearch => "/api/sonarr/search"
  | SonarrStatus => "/api/sonarr/status"
  | SonarrQueue => "/api/sonarr/queue"
  | RadarrRecent => "/api/radarr/recent"
  | RadarrCalendar => "/api/radarr/calendar"
  | RadarrSearch => "/api/radarr/search"
  | RadarrStatus => "/api/radarr/status"
  | RadarrQueue => "/api/radarr/queue"
  end.

Definition endpoint (r : route) : option SonarrRadarrMCP -> Request -> M JSONResponse :=
  match r with
  | SonarrRecent => sonarr_recent_series
  | SonarrCalendar => sonarr_calendar
  | SonarrSearch => sonarr_search
  | SonarrStatus => sonarr_status
  | SonarrQueue => sonarr_queue
  | RadarrRecent => radarr_recent_movies
  | RadarrCalendar => radarr_calendar
  | RadarrSearch => radarr_search
  | RadarrStatus => radarr_status
  | RadarrQueue => radarr_queue
  end.

Definition route_client (r : route) : SonarrRadarrMCP -> option APIClient :=
  match r with
  | SonarrRecent | SonarrCalendar | SonarrSearch | SonarrStatus | SonarrQueue => sonarr_client
  | _ => radarr_client
  end.

End Http.

(* ================================================================= *)
(** ** Vocabulary of the statements *)

(** The two backends, and what belongs to each. *)
Inductive service : Type := Sonarr | Radarr.

Definition service_name (b : service) : string :=
  match b with Sonarr => "Sonarr" | Radarr => "Radarr" end.

Definition service_url (b : service) (c : Config) : string :=
  match b with Sonarr => sonarr_url c | Radarr => radarr_url c end.

Definition service_key (b : service) (c : Config) : string :=
  match b with Sonarr => sonarr_api_key c | Radarr => radarr_api_key c end.

Definition service_client (b : service) : SonarrRadarrMCP -> option APIClient :=
  match b with Sonarr => sonarr_client | Radarr => radarr_client end.

Definition service_tools (b : service) : list string :=
  match b with Sonarr => sonarr_tools | Radarr => radarr_tools end.

Definition service_flag (b : service) : string :=
  match b with Sonarr => "sonarr_configured" | Radarr => "radarr_configured" end.

Definition route_service (r : Http.route) : service :=
  match r with
  | Http.SonarrRecent | Http.SonarrCalendar | Http.SonarrSearch
  | Http.SonarrStatus | Http.SonarrQueue => Sonarr
  | _ => Radarr
  end.

(** The tool a name dispatches to belongs to this backend. *)
Definition tool_service (name : string) : option service :=
  if existsb (String.eqb name) sonarr_tools then Some Sonarr
  else if existsb (String.eqb name) radarr_tools then Some Radarr
  else None.

(** The four command operations. *)
Inductive command : Type := RefreshSeries | SeriesSearch | RefreshMovie | MoviesSearch.

Definition run_command (c : command) : SonarrRadarrMCP -> json -> M string :=
  match c with
  | RefreshSeries => refresh_sonarr_series
  | SeriesSearch => search_sonarr_episodes
  | RefreshMovie => refresh_radarr_movie
  | MoviesSearch => search_radarr_movie
  end.

Definition command_service (c : command) : service :=
  match c with
  | RefreshSeries | SeriesSearch => Sonarr
  | RefreshMovie | MoviesSearch => Radarr
  end.

Definition command_name (c : command) : string :=
  match c with
  | RefreshSeries => "RefreshSeries"
  | SeriesSearch => "SeriesSearch"
  | RefreshMovie => "RefreshMovie"
  | MoviesSearch => "MoviesSearch"
  end.

(** The documented payload shape: a scalar [seriesId] for the series
    backend, a one-element [movieIds] list for the movie backend. *)
Definition documented_payload (c : command) (id : json) : json :=
  match command_service c with
  | Sonarr => JObj [("name", JStr (command_name c)); ("seriesId", id)]
  | Radarr => JObj [("name", JStr (command_name c)); ("movieIds", JArr [id])]
  end.

(** The sentence each command returns ends with [str(id)]. *)
Definition confirmation_prefix (c : command) : string :=
  match c with
  | RefreshSeries => "Refresh triggered for series ID "
  | SeriesSearch => "Episode search triggered for series ID "
  | RefreshMovie => "Refresh triggered for movie ID "
  | MoviesSearch => "Search triggered for movie ID "
  end.

Definition command_request (cl : APIClient) (c : command) (id : json) : request :=
  mkRequest POST (base_url cl ++ "/api/v3/command") [("X-Api-Key", api_key cl)] None
            (Some (documented_payload c id)).

(** What the client turns an answer into. *)
Definition decode (r : response) : result json :=
  match r with
  | ConnectFailure msg => Raise (TransportError msg)
  | Response status b =>
      if is_success status then
        match b with
        | BodyJson j => Ok j
        | BodyUndecodable msg => Raise (JSONDecodeError msg)
        end
      else Raise (ApiRequestFailed status)
  end.


(** [queue()] of either backend, its per-item block and the request it
    sends. *)
Definition get_queue (b : service) : SonarrRadarrMCP -> M string :=
  match b with Sonarr => get_sonarr_queue | Radarr => get_radarr_queue end.

Definition render_queue_item (b : service) : json -> result string :=
  match b with Sonarr => render_sonarr_queue_item | Radarr => render_radarr_queue_item end.

Definition get_request (cl : APIClient) (endpoint : string) : request :=
  mkRequest GET (base_url cl ++ "/api/v3/" ++ endpoint) [("X-Api-Key", api_key cl)] None None.

(** A number of hundredths written with two decimals. *)
Definition two_decimals (negative : bool) (h : Z) : string :=
  (if negative then "-" else "") ++ PyStr.of_Z (h / 100) ++ "."
  ++ PyDatetime.digits 2 (h mod 100).

(** [s] ends with [p]. *)
Definition ends_with (s p : string) : Prop := exists head, s = head ++ p.

(** [s] begins with [p]. *)
Definition begins_with (s p : string) : Prop := exists tail, s = p ++ tail.

Definition naive_aware_message : string :=
  "can't compare offset-naive and offset-aware datetimes".

(** [recent(days)] of either backend and the collection it fetches. *)
Definition get_recent (b : service) : SonarrRadarrMCP -> json -> M string :=
  match b with Sonarr => get_recent_series | Radarr => get_recent_movies end.

Definition recent_step (b : service) : PyDatetime.datetime -> json -> result (option json) :=
  match b with Sonarr => recent_series_step | Radarr => recent_movies_step end.

Definition render_recent (b : service) : json -> result string :=
  match b with Sonarr => render_recent_series | Radarr => render_recent_movie end.

Definition collection (b : service) : string :=
  match b with Sonarr => "series" | Radarr => "movie" end.

(** The secondary attribute: network for series, studio for movies. *)
Definition secondary (b : service) : string :=
  match b with Sonarr => "network" | Radarr => "studio" end.

Definition secondary_label (b : service) : string :=
  match b with Sonarr => "  Network: " | Radarr => "  Studio: " end.

(** The [added] text once [Z] is replaced, as [fromisoformat] reads it. *)
Definition parse_added (s : string) : result PyDatetime.datetime :=
  PyDatetime.fromisoformat (PyStr.replace_char "Z"%char "+00:00" s).


(** [mid] occurs in [s]. *)
Definition has_infix (s mid : string) : Prop := exists before after, s = before ++ mid ++ after.

(** [search(query)] of either backend. *)
Definition search (b : service) : SonarrRadarrMCP -> json -> M string :=
  match b with Sonarr => search_sonarr_series | Radarr => search_radarr_movies end.

Definition render_match (b : service) : json -> result string :=
  match b with Sonarr => render_series_match | Radarr => render_movie_match end.

Definition search_listing (b : service) (query body : string) : string :=
  match b with
  | Sonarr => "Series matching '" ++ query ++ "':" ++ nl ++ nl ++ body
  | Radarr => "Movies matching '" ++ query ++ "':" ++ nl ++ nl ++ body
  end.

Definition search_nothing (b : service) (query : string) : string :=
  match b with
  | Sonarr => "No series found matching '" ++ query ++ "'."
  | Radarr => "No movies found matching '" ++ query ++ "'."
  end.

(** An entity whose [title] is text. *)
Definition titled (s : json) : Prop :=
  exists fields title, s = JObj fields /\ Py.lookup "title" fields = Some (JStr title).

(** An entity whose [title] is ASCII text. *)
Definition ascii_titled (s : json) : Prop :=
  exists fields title,
    s = JObj fields /\ Py.lookup "title" fields = Some (JStr title)
    /\ PyStr.is_ascii title = true.

(** An entity that has what a match is rendered from besides its
    title: [status] and [id]. *)
Definition listable (s : json) : Prop :=
  exists fields status id,
    s = JObj fields /\ Py.lookup "status" fields = Some status
    /\ Py.lookup "id" fields = Some id.

Definition title_of (s : json) : string :=
  match s with
  | JObj fields =>
      match Py.lookup "title" fields with
      | Some (JStr title) => title
      | _ => ""
      end
  | _ => ""
  end.

(** The title holds the query as a substring, letter case aside. *)
Definition title_has (query : string) (s : json) : bool :=
  PyStr.contains (PyStr.lower query) (PyStr.lower (title_of s)).



(* ----------------------------------------------------------------- *)
(** *** Operations by backend, and what they send *)

Definition get_calendar (b : service) : SonarrRadarrMCP -> json -> M string :=
  match b with Sonarr => get_sonarr_calendar | Radarr => get_radarr_calendar end.

Definition get_status (b : service) : SonarrRadarrMCP -> M string :=
  match b with Sonarr => get_sonarr_status | Radarr => get_radarr_status end.

(** The five operations that only read. *)
Inductive read_op : Type := Recent | Calendar | Search | Status | Queue.

(** [arg] is [days] for recent and calendar, [query] for search, and
    unused by status and queue. *)
Definition run_read (b : service) (o : read_op) (self : SonarrRadarrMCP) (arg : json)
    : M string :=
  match o with
  | Recent => get_recent b self arg
  | Calendar => get_calendar b self arg
  | Search => search b self arg
  | Status => get_status b self
  | Queue => get_queue b self
  end.

Definition read_budget (o : read_op) : nat :=
  match o with Status => 2%nat | _ => 1%nat end.

(** Whatever [m] returns or raises, it only appends to the trace: at
    most [n] requests, each satisfying [R]. *)
Definition emits {A : Type} (R : request -> Prop) (n : nat) (m : M A) : Prop :=
  forall w t x t',
    m w t = (x, t') ->
    exists new, t' = (t ++ new)%list /\ Forall R new /\ (List.length new <= n)%nat.

(** A request of method [meth] to the versioned API of the backend
    behind [cl], authenticated with the key of [cl]. *)
Definition addressed_to (cl : APIClient) (meth : http_method) (r : request) : Prop :=
  req_method r = meth
  /\ begins_with (req_url r) (base_url cl ++ "/api/v3/")
  /\ req_headers r = [("X-Api-Key", api_key cl)].

(** A request an operation of backend [b] may send from [self]. *)
Definition from_backend (b : service) (self : SonarrRadarrMCP) (meth : http_method)
    (r : request) : Prop :=
  exists cl, service_client b self = Some cl /\ addressed_to cl meth r.

Definition command_tools : list string :=
  ["sonarr_refresh_series"; "sonarr_search_episodes";
   "radarr_refresh_movie"; "radarr_search_movie"].

(** A request [call_tool] may send while serving tool [name]: to the
    tool's own backend, and a POST only for a command tool. *)
Definition tool_request (self : SonarrRadarrMCP) (name : string) (r : request) : Prop :=
  exists b meth,
    tool_service name = Some b
    /\ from_backend b self meth r
    /\ (meth = POST -> In name command_tools).

(** A request a route may send: a GET to the route's own backend. *)
Definition route_request (mcp_instance : option SonarrRadarrMCP) (r : Http.route)
    (q : request) : Prop :=
  exists mcp, mcp_instance = Some mcp /\ from_backend (route_service r) mcp GET q.

(** The three answers of [call_tool] that stand for "not served". *)
Definition refusal (name s : string) : Prop :=
  s = "Sonarr is not configured" \/ s = "Radarr is not configured"
  \/ s = "Unknown tool: " ++ name.

(* ----------------------------------------------------------------- *)
(** *** The two transports side by side *)

(** The number of days a tool takes when the bag has none. *)
Definition default_days (name : string) : option Z :=
  if String.eqb name "sonarr_get_recent_series" then Some 7
  else if String.eqb name "sonarr_get_calendar" then Some 7
  else if String.eqb name "radarr_get_recent_movies" then Some 7
  else if String.eqb name "radarr_get_calendar" then Some 30
  else None.

(** The tool behind a route. *)
Definition route_tool (r : Http.route) : string :=
  match r with
  | Http.SonarrRecent => "sonarr_get_recent_series"
  | Http.SonarrCalendar => "sonarr_get_calendar"
  | Http.SonarrSearch => "sonarr_search_series"
  | Http.SonarrStatus => "sonarr_get_system_status"
  | Http.SonarrQueue => "sonarr_get_queue"
  | Http.RadarrRecent => "radarr_get_recent_movies"
  | Http.RadarrCalendar => "radarr_get_calendar"
  | Http.RadarrSearch => "radarr_search_movies"
  | Http.RadarrStatus => "radarr_get_system_status"
  | Http.RadarrQueue => "radarr_get_queue"
  end.

(** The argument bag that says what the query string of a request
    says: [days] as an integer, [query] as text. *)
Definition route_arguments (r : Http.route) (request : Http.Request) : option json :=
  match r with
  | Http.SonarrRecent | Http.SonarrCalendar | Http.RadarrRecent | Http.RadarrCalendar =>
      match Http.params_get "days" request with
      | None => Some (JObj [])
      | Some s =>
          match Dyn.int_of_str s with
          | Ok n => Some (JObj [("days", JNum n)])
          | Raise _ => None
          end
      end
  | Http.SonarrSearch | Http.RadarrSearch =>
      match Http.params_get "query" request with
      | Some (String c q) => Some (JObj [("query", JStr (String c q))])
      | _ => None
      end
  | _ => Some (JObj [])
  end.

(** The reading operation behind a route. *)
Definition route_op (r : Http.route) : read_op :=
  match r with
  | Http.SonarrRecent | Http.RadarrRecent => Recent
  | Http.SonarrCalendar | Http.RadarrCalendar => Calendar
  | Http.SonarrSearch | Http.RadarrSearch => Search
  | Http.SonarrStatus | Http.RadarrStatus => Status
  | Http.SonarrQueue | Http.RadarrQueue => Queue
  end.

(* ----------------------------------------------------------------- *)
(** *** Reports *)

(** [fields.get(key, default)] on the fields of an object. *)
Definition field_or (key : string) (default : json) (fields : list (string * json)) : json :=
  match Py.lookup key fields with
  | Some v => v
  | None => default
  end.

(** The report of [status()] for version [v], the fields [sf] of the
    status answer and the rendered disk lines. *)
Definition status_text (b : service) (v : json) (sf : list (string * json))
    (lines : list string) : string :=
  service_name b ++ " System Status:" ++ nl ++ nl
  ++ "Version: " ++ Py.str v ++ nl
  ++ "OS: " ++ Py.str (field_or "osName" (JStr "Unknown") sf) ++ nl
  ++ "Runtime: " ++ Py.str (field_or "runtimeName" (JStr "Unknown") sf) ++ nl ++ nl
  ++ "Disk Space:" ++ nl ++ String.concat "" lines.

(** The calendar request for a window of [d] days from [start]. *)
Definition calendar_request (cl : APIClient) (start d : Z) : request :=
  mkRequest GET (base_url cl ++ "/api/v3/calendar") [("X-Api-Key", api_key cl)]
    (Some [("start", PyDatetime.isoformat start);
           ("end", PyDatetime.isoformat (start + d * PyDatetime.us_per_day))])
    None.

Definition render_calendar_entry (b : service) : json -> result string :=
  match b with Sonarr => render_episode | Radarr => render_release end.

Definition calendar_nothing (b : service) (days : json) : string :=
  match b with
  | Sonarr => "No episodes airing in the next " ++ Py.str days ++ " days."
  | Radarr => "No movies releasing in the next " ++ Py.str days ++ " days."
  end.

Definition calendar_listing (b : service) (days : json) (body : string) : string :=
  match b with
  | Sonarr => "Upcoming episodes (next " ++ Py.str days ++ " days):" ++ nl ++ nl ++ body
  | Radarr => "Upcoming movie releases (next " ++ Py.str days ++ " days):" ++ nl ++ nl ++ body
  end.

(** A volume as the backends report it: its path, and the free and the
    total space as integers below 2^53 in magnitude. *)
Definition volume (disk : json) : Prop :=
  exists fields free total path,
    disk = JObj fields
    /\ Py.lookup "freeSpace" fields = Some (JNum free)
    /\ Py.lookup "totalSpace" fields = Some (JNum total)
    /\ Py.lookup "path" fields = Some path
    /\ Z.abs free < 2 ^ 53 /\ Z.abs total < 2 ^ 53.

(** A calendar entry as backend [b] sends it: an episode with its
    series, the title of the series and its two numbers; a movie with
    its title and status. *)
Definition calendar_entry (b : service) (entry : json) : Prop :=
  exists fields,
    entry = JObj fields
    /\ match b with
       | Sonarr =>
           exists sf title sn en,
             Py.lookup "series" fields = Some (JObj sf)
             /\ Py.lookup "title" sf = Some title
             /\ Py.lookup "seasonNumber" fields = Some (JNum sn)
             /\ Py.lookup "episodeNumber" fields = Some (JNum en)
       | Radarr =>
           exists title status,
             Py.lookup "title" fields = Some title
             /\ Py.lookup "status" fields = Some status
       end.

(** An entity whose [added] is missing, is no text, or is a text that
    [fromisoformat] refuses once [Z] is replaced. *)
Definition undated (show : json) : Prop :=
  match Dyn.getitem show "added" with
  | Ok (JStr s) => exists e, parse_added s = Raise e
  | _ => True
  end.

(** An entity whose [title] is missing or is no text. *)
Definition untitled (s : json) : Prop :=
  match Dyn.getitem s "title" with
  | Ok (JStr _) => False
  | _ => True
  end.

(* ----------------------------------------------------------------- *)
(** *** Configuration *)

(** [k] slashes. *)
Fixpoint slashes (k : nat) : string :=
  match k with
  | O => ""
  | S k' => String "/" (slashes k')
  end.

Definition env_lookup (env : list (string * string)) (name : string) : option string :=
  match find (fun kv => String.eqb (fst kv) name) env with
  | Some kv => Some (snd kv)
  | None => None
  end.

(* ----------------------------------------------------------------- *)
(** *** Recent additions without offsets *)







(** The endpoint a reading operation asks first; the calendar is left
    out, it works on [days] before it calls. *)
Definition first_endpoint (b : service) (o : read_op) : string :=
  match o with
  | Recent | Search => collection b
  | Calendar => "calendar"
  | Status => "system/status"
  | Queue => "queue"
  end.

(* ----------------------------------------------------------------- *)
(** *** Queue items *)

(** The bytes an item has left: its [sizeleft], 0 when it has none. *)
Definition sizeleft_of (item : json) : Z :=
  match item with
  | JObj fields =>
      match Py.lookup "sizeleft" fields with
      | Some (JNum n) => n
      | _ => 0
      end
  | _ => 0
  end.

(** An item of the queue as backend [b] sends it: the series with its
    title and the episode with its two numbers (for movies, the movie
    with its title), a status, and a [sizeleft] that is absent or an
    integer below 2^53 in magnitude. *)
Definition queue_item (b : service) (item : json) : Prop :=
  exists fields status,
    item = JObj fields
    /\ Py.lookup "status" fields = Some status
    /\ (Py.lookup "sizeleft" fields = None
        \/ exists n, Py.lookup "sizeleft" fields = Some (JNum n) /\ Z.abs n < 2 ^ 53)
    /\ match b with
       | Sonarr =>
           exists sf title ef sn en,
             Py.lookup "series" fields = Some (JObj sf)
             /\ Py.lookup "title" sf = Some title
             /\ Py.lookup "episode" fields = Some (JObj ef)
             /\ Py.lookup "seasonNumber" ef = Some (JNum sn)
             /\ Py.lookup "episodeNumber" ef = Some (JNum en)
       | Radarr =>
           exists mf title,
             Py.lookup "movie" fields = Some (JObj mf) /\ Py.lookup "title" mf = Some title
       end.

(* ================================================================= *)
(** ** Sample data for the concrete runs *)

Module Sample.

Definition both : Config := mkConfig "http://sonarr:8989" "k1" "http://radarr:7878" "k2" 30.

Definition mcp : SonarrRadarrMCP := SonarrRadarrMCP_init both.

Definition sonarr : APIClient := mkAPIClient "http://sonarr:8989" "k1" 30.
Definition radarr : APIClient := mkAPIClient "http://radarr:7878" "k2" 30.


(** 2024-01-15T10:30:00, local time. *)
Definition clock : Z := 63840911400000000.

(** A backend that answers every request with status 200 and [j]. *)
Definition serving (j : json) : world := mkWorld (fun _ => Response 200 (BodyJson j)) clock.

(** A backend that answers 200 with an empty body. *)
Definition empty_body : world :=
  mkWorld (fun _ => Response 200 (BodyUndecodable "Expecting value: line 1 column 1 (char 0)"))
          clock.

(** A backend that cannot be reached: the HTTP library raises with
    message [msg]. *)
Definition unreachable (msg : string) : world := mkWorld (fun _ => ConnectFailure msg) clock.

(** One series as Sonarr reports it: [added] in UTC with the [Z]
    suffix, one day before [clock]. *)
Definition utc_series : json :=
  JArr [JObj [("title", JStr "Alpha"); ("year", JNum 2020);
              ("added", JStr "2024-01-14T08:00:00Z"); ("status", JStr "continuing");
              ("network", JStr "HBO"); ("seasonCount", JNum 2); ("id", JNum 1)]].

Definition utc_movies : json :=
  JArr [JObj [("title", JStr "Heat"); ("year", JNum 1995);
              ("added", JStr "2024-01-14T08:00:00Z"); ("status", JStr "released");
              ("studio", JStr "Regency"); ("id", JNum 1)]].

(** Entities with a naive timestamp inside the window and without the
    secondary attribute. *)
Definition plain_series : json :=
  JArr [JObj [("title", JStr "Alpha"); ("year", JNum 2020);
              ("added", JStr "2024-01-14T08:00:00"); ("status", JStr "continuing");
              ("seasonCount", JNum 2); ("id", JNum 1)]].

Definition plain_movies : json :=
  JArr [JObj [("title", JStr "Heat"); ("year", JNum 1995);
              ("added", JStr "2024-01-14T08:00:00"); ("status", JStr "released");
              ("id", JNum 1)]].

(** A library of two series. *)
Definition library : json :=
  JArr [JObj [("title", JStr "Alpha"); ("status", JStr "continuing"); ("id", JNum 1)];
        JObj [("title", JStr "Beta"); ("status", JStr "ended"); ("id", JNum 2)]].

End Sample.

(* ================================================================= *)
(** ** Basic facts about the monad and the client *)

Lemma bind_Ok {A B : Type} (m : M A) (k : A -> M B) w t a t' :
  m w t = (Ok a, t') -> bind m k w t = k a w t'.
Proof. intros H. unfold bind. now rewrite H. Qed.

Lemma bind_Raise {A B : Type} (m : M A) (k : A -> M B) w t e t' :
  m w t = (Raise e, t') -> bind m k w t = (Raise e, t').
Proof. intros H. unfold bind. now rewrite H. Qed.

Lemma bind_inv {A B : Type} (m : M A) (k : A -> M B) w t r t' :
  bind m k w t = (r, t') ->
  (exists a t1, m w t = (Ok a, t1) /\ k a w t1 = (r, t'))
  \/ (exists e, m w t = (Raise e, t') /\ r = Raise e).
Proof.
  unfold bind. destruct (m w t) as [[a|e] t1] eqn:E; intros H.
  - left. now exists a, t1.
  - right. exists e. now inversion H.
Qed.

Lemma bindR_Ok_inv {A B : Type} (m : result A) (k : A -> result B) b :
  bindR m k = Ok b -> exists a, m = Ok a /\ k a = Ok b.
Proof. destruct m as [a|e]; simpl; intros H; [eauto | discriminate H]. Qed.

Ltac inv_bindR H :=
  repeat (apply bindR_Ok_inv in H; destruct H as (? & ? & H); cbv beta in H).

Lemma lift_inv {A : Type} (r : result A) w t x t' : lift r w t = (x, t') -> r = x /\ t' = t.
Proof. unfold lift. intros H; inversion H; auto. Qed.

Lemma ret_inv {A : Type} (a : A) w t x t' : ret a w t = (x, t') -> x = Ok a /\ t' = t.
Proof. unfold ret. intros H; inversion H; auto. Qed.

(** Peel a successful run apart, one [bind] at a time. *)
Ltac inv_M H :=
  repeat first
    [ apply bind_inv in H;
      destruct H as [(? & ? & ? & H) | (? & _ & H)]; [cbv beta in H | discriminate H]
    | match type of H with
      | (match ?l with [] => _ | _ :: _ => _ end) _ _ = _ => destruct l
      | (if ?c then _ else _) _ _ = _ => destruct c
      end ].

(** The run left in [H] ends in a text that cannot be the one [H]
    claims for it. *)
Ltac other_text H :=
  first
    [ apply ret_inv in H; destruct H as [H _]; discriminate H
    | apply lift_inv in H; destruct H as [H _];
      unfold render_status, render_queue in H; inv_bindR H;
      repeat match type of H with
        | (if ?c then _ else _) = _ => destruct c
        end;
      inv_bindR H; discriminate H ].

Lemma APIClient_request_spec r w t :
  APIClient_request r w t =
    (match backend w r with
     | ConnectFailure msg => Raise (TransportError msg)
     | Response status b =>
         if is_success status then
           match b with
           | BodyJson j => Ok j
           | BodyUndecodable msg => Raise (JSONDecodeError msg)
           end
         else Raise (ApiRequestFailed status)
     end, (t ++ [r])%list).
Proof.
  unfold APIClient_request, bind, send.
  destruct (backend w r) as [status [j|msg]|msg]; try reflexivity;
    destruct (is_success status); reflexivity.
Qed.


(* ================================================================= *)
(** ** Unconfigured backends *)

Lemma is_empty_iff s : PyStr.is_empty s = true <-> s = "".
Proof. destruct s; simpl; split; congruence. Qed.

Lemma init_client_none (b : service) (c : Config) :
  service_url b c = "" \/ service_key b c = "" ->
  service_client b (SonarrRadarrMCP_init c) = None.
Proof.
  intros H. destruct b; simpl in *; unfold make_client, validate_service; simpl;
    destruct H as [-> | ->]; simpl; rewrite ?andb_false_r; reflexivity.
Qed.

Lemma init_client_some (b : service) (c : Config) :
  service_url b c <> "" -> service_key b c <> "" ->
  service_client b (SonarrRadarrMCP_init c)
  = Some (mkAPIClient (service_url b c) (service_key b c) (request_timeout c)).
Proof.
  intros Hu Hk. destruct b; simpl in *; unfold make_client, validate_service; simpl.
  - destruct (sonarr_url c); [congruence|]. destruct (sonarr_api_key c); [congruence|].
    reflexivity.
  - destruct (radarr_url c); [congruence|]. destruct (radarr_api_key c); [congruence|].
    reflexivity.
Qed.

Lemma call_tool_unconfigured (b : service) self name arguments w t :
  service_client b self = None ->
  In name (service_tools b) ->
  call_tool self name arguments w t
  = (text_content (service_name b ++ " is not configured"), t).
Proof.
  intros Hc Hin. unfold call_tool, call_tool_body.
  destruct b; simpl in Hc, Hin;
    repeat (destruct Hin as [<- | Hin]; [simpl; rewrite Hc; reflexivity|]);
    contradiction.
Qed.

Lemma endpoint_unconfigured (r : Http.route) mcp_instance request w t :
  Http.ready_with mcp_instance (service_client (route_service r)) = None ->
  Http.endpoint r mcp_instance request w t
  = (Ok (Http.error_response (service_name (route_service r) ++ " not configured") 503), t).
Proof.
  intros H. destruct r; simpl in *;
    match goal with |- ?f _ _ _ _ = _ => unfold f end; rewrite H; reflexivity.
Qed.

Lemma try_result_status op w t resp t' :
  Http.try_result op w t = (Ok resp, t') ->
  Http.status_code resp = 200 \/ Http.status_code resp = 500.
Proof.
  unfold Http.try_result. destruct (op w t) as [[s|e] t1]; intros H; inversion H; subst;
    simpl; auto.
Qed.

(** A route answers 503 only through its guard. *)
Lemma endpoint_503_only_unconfigured (r : Http.route) mcp_instance request w t resp t' :
  Http.endpoint r mcp_instance request w t = (Ok resp, t') ->
  Http.status_code resp = 503 ->
  Http.ready_with mcp_instance (service_client (route_service r)) = None.
Proof.
  intros H H503.
  destruct (Http.ready_with mcp_instance (service_client (route_service r))) as [mcp|] eqn:E;
    [exfalso | reflexivity].
  destruct r; simpl in *;
    match type of H with ?f _ _ _ _ = _ => unfold f in H end; rewrite E in H;
    try (apply try_result_status in H; lia);
    try (apply bind_inv in H;
         destruct H as [(a & t1 & _ & H) | (e & _ & H)]; [|discriminate];
         apply try_result_status in H; lia);
    try (destruct (PyStr.is_empty _);
         [inversion H; subst; simpl in H503; lia | apply try_result_status in H; lia]).
Qed.

Lemma not_configured_is_no_error (b : service) (s : string) :
  text_content (service_name b ++ " is not configured") <> text_content ("Error: " ++ s)
  /\ text_content (service_name b ++ " is not configured")
     <> text_content ("Unknown tool: " ++ s).
Proof. destruct b; split; simpl; unfold text_content; intros H; discriminate H. Qed.

(** [call_tool] gives the not-configured answer only when the client of
    the tool's backend is missing. *)
Lemma not_configured_only_without_client (b : service) self name arguments w t t' :
  In name (service_tools b) ->
  call_tool self name arguments w t
  = (text_content (service_name b ++ " is not configured"), t') ->
  service_client b self = None.
Proof.
  intros Hin H.
  destruct (service_client b self) as [cl|] eqn:Hc; [exfalso | reflexivity].
  unfold call_tool in H.
  destruct (call_tool_body self name arguments w t) as [[r|e] t1] eqn:E.
  - injection H as -> ->.
    destruct b; cbn [service_tools service_client service_name append] in *;
      repeat (destruct Hin as [<- | Hin];
        [ unfold call_tool_body in E; cbn [String.eqb Ascii.eqb Bool.eqb] in E;
          rewrite Hc in E; unfold guarded in E;
          apply bind_inv in E;
          destruct E as [(s & t2 & Hrun & E) | (? & _ & E)]; [|discriminate E];
          apply ret_inv in E; destruct E as [E _]; injection E as E; subst s;
          unfold get_recent_series, get_sonarr_calendar, search_sonarr_series,
            get_sonarr_status, get_sonarr_queue, refresh_sonarr_series,
            search_sonarr_episodes, get_recent_movies, get_radarr_calendar,
            search_radarr_movies, get_radarr_status, get_radarr_queue,
            refresh_radarr_movie, search_radarr_movie in Hrun;
          inv_M Hrun; other_text Hrun
        | ]);
      contradiction.
  - destruct b; simpl in H; unfold text_content in H; discriminate H.
Qed.

(** C2.  A backend whose URL or API key is empty gets no client; each of
    its seven tools answers with the text "<Backend> is not configured"
    and each of its five routes with status 503, leaving the trace of
    outbound requests as it was; that text is no error text, no tool of
    the backend returns it while the client exists, and 503 is answered
    in no other case; the readiness endpoint reports the backend's flag
    as false. *)
Theorem C2_unconfigured_backend_rejected (b : service) (c : Config) :
  service_url b c = "" \/ service_key b c = "" ->
  let self := SonarrRadarrMCP_init c in
  service_client b self = None
  /\ (forall name arguments w t, In name (service_tools b) ->
        call_tool self name arguments w t
        = (text_content (service_name b ++ " is not configured"), t))
  /\ (forall r request w t, route_service r = b ->
        Http.endpoint r (Some self) request w t
        = (Ok (Http.error_response (service_name b ++ " not configured") 503), t))
  /\ (forall s,
        text_content (service_name b ++ " is not configured") <> text_content ("Error: " ++ s)
        /\ text_content (service_name b ++ " is not configured")
           <> text_content ("Unknown tool: " ++ s))
  /\ (forall other name arguments w t t', In name (service_tools b) ->
        call_tool other name arguments w t
        = (text_content (service_name b ++ " is not configured"), t') ->
        service_client b other = None)
  /\ (forall r mcp_instance request w t resp t',
        Http.endpoint r mcp_instance request w t = (Ok resp, t') ->
        Http.status_code resp = 503 ->
        Http.ready_with mcp_instance (service_client (route_service r)) = None)
  /\ (forall request w t, exists fields,
        Http.readiness (Some self) request w t
        = (Ok (Http.mkJSONResponse (JObj fields) 200), t)
        /\ Py.lookup "status" fields = Some (JStr "ready")
        /\ Py.lookup (service_flag b) fields = Some (JBool false)).
Proof.
  intros H self. pose proof (init_client_none b c H) as Hnone. fold self in Hnone.
  split; [exact Hnone|]. split; [|split; [|split; [|split; [|split]]]].
  - intros. now apply call_tool_unconfigured.
  - intros r request w t <-. apply endpoint_unconfigured. simpl.
    now rewrite Hnone.
  - apply not_configured_is_no_error.
  - intros. eapply not_configured_only_without_client; eassumption.
  - intros. eapply endpoint_503_only_unconfigured; eassumption.
  - intros request w t. eexists. split; [reflexivity|].
    destruct b; simpl in Hnone |- *; rewrite Hnone; split; reflexivity.
Qed.

Lemma C2_witness :
  let c := mkConfig "" "key" "http://radarr:7878" "key2" 30 in
  sonarr_client (SonarrRadarrMCP_init c) = None
  /\ forall name arguments w t, In name sonarr_tools ->
       call_tool (SonarrRadarrMCP_init c) name arguments w t
       = (text_content "Sonarr is not configured", t).
Proof.
  intros c.
  pose proof (C2_unconfigured_backend_rejected Sonarr c (or_introl eq_refl)) as H.
  split; [exact (proj1 H) | exact (proj1 (proj2 H))].
Defined.

(* ================================================================= *)
(** ** The tool-invocation handler is total *)

Lemma guarded_text client svc run w t r t' :
  guarded client svc run w t = (Ok r, t') -> exists s, r = text_content s.
Proof.
  unfold guarded. destruct client.
  - unfold bind. destruct (run w t) as [[s|e] t1]; intros H; inversion H; eauto.
  - intros H; inversion H; eauto.
Qed.

Lemma call_tool_body_text self name arguments w t r t' :
  call_tool_body self name arguments w t = (Ok r, t') -> exists s, r = text_content s.
Proof.
  unfold call_tool_body.
  repeat (destruct (String.eqb name _); [apply guarded_text|]).
  intros H; inversion H; eauto.
Qed.

(** C9.  For every tool name, argument bag, world and trace, [call_tool]
    returns one text payload; when the dispatched operation raises [e],
    that payload is the text "Error: " followed by [str(e)]. *)
Theorem C9_call_tool_total self name arguments w t :
  exists s t',
    call_tool self name arguments w t = ([mkTextContent "text" s], t')
    /\ (forall e t'', call_tool_body self name arguments w t = (Raise e, t'') ->
          s = "Error: " ++ str_exn e /\ t' = t'').
Proof.
  unfold call_tool.
  destruct (call_tool_body self name arguments w t) as [[r|e] t1] eqn:E.
  - destruct (call_tool_body_text _ _ _ _ _ _ _ E) as [s ->].
    exists s, t1. split; [reflexivity|]. intros e t'' H; discriminate H.
  - exists ("Error: " ++ str_exn e), t1. split; [reflexivity|].
    intros e' t'' H; inversion H; subst; auto.
Qed.

(* ================================================================= *)
(** ** Refresh and trigger-search *)

Lemma run_command_spec (c : command) self cl id w t :
  service_client (command_service c) self = Some cl ->
  run_command c self id w t
  = (_ <~ decode (backend w (command_request cl c id)) ;;
     Ok (confirmation_prefix c ++ Py.str id),
     (t ++ [command_request cl c id])%list).
Proof.
  intros Hc.
  destruct c; simpl in Hc; simpl run_command;
    match goal with |- ?f _ _ _ _ = _ => unfold f end;
    rewrite Hc; unfold client_post, APIClient_post, bind;
    rewrite APIClient_request_spec;
    unfold command_request, api_url, api_headers, documented_payload, decode; simpl;
    match goal with |- context [backend w ?r] => destruct (backend w r) as [st [j|m]|m] end;
    try destruct (is_success st); reflexivity.
Qed.

(** C6.  With a client for the command's backend, refresh and
    trigger-search append exactly one request to the trace: a POST to
    [<base_url>/api/v3/command] whose JSON payload carries the id as a
    scalar [seriesId] (series backend) or as the one-element list
    [movieIds] (movie backend); when the backend answers it with a 2xx
    status and a JSON body, the operation returns its confirmation
    sentence, which ends with the id as [str] renders it. *)
Theorem C6_command_round_trip (c : command) self cl id w t :
  service_client (command_service c) self = Some cl ->
  let req := command_request cl c id in
  snd (run_command c self id w t) = (t ++ [req])%list
  /\ req_method req = POST
  /\ req_url req = base_url cl ++ "/api/v3/command"
  /\ req_json req
     = Some (match command_service c with
             | Sonarr => JObj [("name", JStr (command_name c)); ("seriesId", id)]
             | Radarr => JObj [("name", JStr (command_name c)); ("movieIds", JArr [id])]
             end)
  /\ (forall status j,
        backend w req = Response status (BodyJson j) -> is_success status = true ->
        fst (run_command c self id w t) = Ok (confirmation_prefix c ++ Py.str id)).
Proof.
  intros Hc req. rewrite (run_command_spec c self cl id w t Hc). fold req.
  repeat split.
  intros status j Hb Hs. simpl. rewrite Hb. simpl. rewrite Hs. reflexivity.
Qed.

(** C10.  When the backend answers the command POST with a 2xx status
    and a body that [response.json()] cannot decode (empty or not JSON),
    the operation raises the decoder's exception, and the trace already
    holds the POST: the request went out although the caller is told of
    a failure. *)
Theorem C10_failed_command_was_sent (c : command) self cl id w t status msg :
  service_client (command_service c) self = Some cl ->
  backend w (command_request cl c id) = Response status (BodyUndecodable msg) ->
  is_success status = true ->
  run_command c self id w t
  = (Raise (JSONDecodeError msg), (t ++ [command_request cl c id])%list).
Proof.
  intros Hc Hb Hs. rewrite (run_command_spec c self cl id w t Hc).
  rewrite Hb. simpl. rewrite Hs. reflexivity.
Qed.

(** Through [call_tool] the caller of a command whose answer cannot be
    decoded reads an error although the POST is in the trace. *)
Example failed_refresh_through_call_tool :
  call_tool Sample.mcp "sonarr_refresh_series" (JObj [("series_id", JNum 7)])
    Sample.empty_body []
  = (text_content "Error: Expecting value: line 1 column 1 (char 0)",
     [command_request Sample.sonarr RefreshSeries (JNum 7)]).
Proof. vm_compute. reflexivity. Qed.

Lemma C6_witness :
  run_command RefreshMovie Sample.mcp (JNum 5) (Sample.serving (JObj [])) []
  = (Ok "Refresh triggered for movie ID 5",
     [mkRequest POST "http://radarr:7878/api/v3/command" [("X-Api-Key", "k2")] None
        (Some (JObj [("name", JStr "RefreshMovie"); ("movieIds", JArr [JNum 5])]))]).
Proof.
  pose proof (C6_command_round_trip RefreshMovie Sample.mcp Sample.radarr (JNum 5)
                (Sample.serving (JObj [])) [] eq_refl) as H.
  destruct H as (Htrace & _ & _ & _ & Hok).
  specialize (Hok 200 (JObj []) eq_refl eq_refl).
  destruct (run_command RefreshMovie Sample.mcp (JNum 5) (Sample.serving (JObj [])) [])
    as [r tr].
  simpl in Htrace, Hok. subst. reflexivity.
Defined.

Lemma C10_witness :
  run_command RefreshSeries Sample.mcp (JNum 7) Sample.empty_body []
  = (Raise (JSONDecodeError "Expecting value: line 1 column 1 (char 0)"),
     [mkRequest POST "http://sonarr:8989/api/v3/command" [("X-Api-Key", "k1")] None
        (Some (JObj [("name", JStr "RefreshSeries"); ("seriesId", JNum 7)]))]).
Proof.
  exact (C10_failed_command_was_sent RefreshSeries Sample.mcp Sample.sonarr (JNum 7)
           Sample.empty_body [] 200 _ eq_refl eq_refl eq_refl).
Defined.

(* ================================================================= *)
(** ** The download queue *)

Lemma append_assoc (a b c : string) : (a ++ b) ++ c = a ++ (b ++ c).
Proof. induction a as [|x a IH]; simpl; [reflexivity | now rewrite IH]. Qed.

Lemma round_half_even_close a b :
  0 <= a -> 0 < b ->
  0 <= PyFloat.round_half_even a b
  /\ 2 * Z.abs (PyFloat.round_half_even a b * b - a) <= b.
Proof.
  intros Ha Hb. unfold PyFloat.round_half_even.
  pose proof (Z.div_mod a b ltac:(lia)) as Hdm.
  pose proof (Z.mod_pos_bound a b Hb) as Hr.
  pose proof (Z.div_pos a b Ha Hb) as Hq.
  set (q := a / b) in *. set (r := a mod b) in *.
  destruct (Z.ltb_spec (2 * r) b); [split; lia|].
  destruct (Z.ltb_spec b (2 * r)); [split; lia|].
  destruct (Z.even q); split; lia.
Qed.

Lemma to_double_magnitude_exact a :
  0 <= a < 2 ^ 53 -> PyFloat.to_double_magnitude a = a.
Proof.
  intros [H0 H]. unfold PyFloat.to_double_magnitude.
  destruct (Z.eqb_spec a 0) as [->|Hne]; [reflexivity|].
  assert (Z.log2 a < 53) by (apply Z.log2_lt_pow2; lia).
  destruct (Z.leb_spec (Z.log2 a + 1) 53); [reflexivity | lia].
Qed.

Lemma format_2f_exact n k :
  Z.abs n < 2 ^ 53 -> 0 <= k ->
  PyFloat.format_2f_div_pow2 n k
  = Ok (two_decimals (n <? 0) (PyFloat.round_half_even (Z.abs n * 100) (2 ^ k))).
Proof.
  intros Hn Hk. unfold PyFloat.format_2f_div_pow2, PyFloat.hundredths.
  rewrite to_double_magnitude_exact by lia.
  assert (2 ^ 53 <= 2 ^ (1024 + k)) by (apply Z.pow_le_mono_r; lia).
  destruct (Z.leb_spec (2 ^ (1024 + k)) (Z.abs n)); [lia|]. reflexivity.
Qed.

Lemma get_queue_spec (b : service) self cl w t :
  service_client b self = Some cl ->
  get_queue b self w t
  = (q <~ decode (backend w (get_request cl "queue")) ;;
     render_queue (render_queue_item b) q,
     (t ++ [get_request cl "queue"])%list).
Proof.
  intros Hc.
  destruct b; simpl in Hc; simpl get_queue;
    match goal with |- ?f _ _ _ = _ => unfold f end;
    rewrite Hc; unfold client_get, APIClient_get, bind;
    rewrite APIClient_request_spec;
    unfold get_request, api_url, api_headers, decode, lift; simpl;
    match goal with |- context [backend w ?r] => destruct (backend w r) as [st [j|m]|m] end;
    try destruct (is_success st); reflexivity.
Qed.

Lemma ends_with_refl p : ends_with p p.
Proof. now exists "". Qed.

Lemma ends_with_String c s p : ends_with s p -> ends_with (String c s) p.
Proof. intros [h ->]. now exists (String c h). Qed.

Lemma ends_with_append u s p : ends_with s p -> ends_with (u ++ s) p.
Proof. intros [h ->]. exists (u ++ h). now rewrite append_assoc. Qed.

Ltac ends_with_tac :=
  repeat first [apply ends_with_refl | apply ends_with_String | apply ends_with_append].

Lemma render_queue_item_progress (b : service) item s :
  render_queue_item b item = Ok s ->
  exists p, render_progress item = Ok p /\ ends_with s p.
Proof.
  destruct b; simpl; unfold render_sonarr_queue_item, render_radarr_queue_item;
    intros H; inv_bindR H; injection H as <-;
    eexists; (split; [eassumption|]); ends_with_tac.
Qed.

Lemma mapR_Forall2 {A B : Type} (f : A -> result B) l ys :
  mapR f l = Ok ys -> Forall2 (fun x y => f x = Ok y) l ys.
Proof.
  revert ys. induction l as [|x l IH]; simpl; intros ys H.
  - injection H as <-. constructor.
  - inv_bindR H. injection H as <-. constructor; auto.
Qed.

Lemma mapR_total {A B : Type} (f : A -> result B) l :
  Forall (fun x => exists y, f x = Ok y) l -> exists ys, mapR f l = Ok ys.
Proof.
  induction 1 as [|x l [y Hy] _ [ys IH]]; [now exists []|].
  simpl. rewrite Hy, IH. simpl. eauto.
Qed.

Lemma render_progress_sizeleft fields n :
  Py.lookup "sizeleft" fields = Some (JNum n) -> Z.abs n < 2 ^ 53 ->
  render_progress (JObj fields)
  = Ok ("  Progress: "
        ++ two_decimals (n <? 0) (PyFloat.round_half_even (Z.abs n * 100) (2 ^ 20))
        ++ " MB remaining" ++ nl ++ nl).
Proof.
  intros Hl Hn. unfold render_progress, Dyn.get. rewrite Hl.
  cbn [bindR PyFloat.format_2f_json]. rewrite format_2f_exact by lia. reflexivity.
Qed.

Lemma render_progress_total fields :
  Py.lookup "sizeleft" fields = None
  \/ (exists n, Py.lookup "sizeleft" fields = Some (JNum n) /\ Z.abs n < 2 ^ 53) ->
  exists h,
    render_progress (JObj fields)
    = Ok ("  Progress: " ++ two_decimals (sizeleft_of (JObj fields) <? 0) h
          ++ " MB remaining" ++ nl ++ nl)
    /\ 0 <= h
    /\ 2 * Z.abs (h * 1024 ^ 2 - 100 * Z.abs (sizeleft_of (JObj fields))) <= 1024 ^ 2.
Proof.
  intros [Hn | (n & Hl & Hn)]; cbn [sizeleft_of].
  - exists 0. rewrite Hn. unfold render_progress, Dyn.get. rewrite Hn.
    split; [reflexivity|]. split; [lia|]. vm_compute. discriminate.
  - rewrite Hl. exists (PyFloat.round_half_even (Z.abs n * 100) (2 ^ 20)).
    split; [now apply render_progress_sizeleft|].
    replace (1024 ^ 2) with (2 ^ 20) by reflexivity.
    pose proof (round_half_even_close (Z.abs n * 100) (2 ^ 20)
                  ltac:(lia) ltac:(reflexivity)) as [H0 H1].
    split; [exact H0|]. replace (100 * Z.abs n) with (Z.abs n * 100) by lia. exact H1.
Qed.

(** A well-formed item is always rendered, and its block ends with its
    progress line. *)
Lemma render_queue_item_total (b : service) item :
  queue_item b item ->
  exists block h,
    render_queue_item b item = Ok block
    /\ ends_with block ("  Progress: " ++ two_decimals (sizeleft_of item <? 0) h
                        ++ " MB remaining" ++ nl ++ nl)
    /\ 0 <= h
    /\ 2 * Z.abs (h * 1024 ^ 2 - 100 * Z.abs (sizeleft_of item)) <= 1024 ^ 2.
Proof.
  intros (fields & status & -> & Hst & Hsz & Hb).
  destruct (render_progress_total fields Hsz) as (h & Hp & H0 & H1).
  destruct b.
  - destruct Hb as (sf & title & ef & sn & en & Hs & Ht & He & Hsn & Hen).
    cbn [render_queue_item]. unfold render_sonarr_queue_item, Dyn.getitem.
    rewrite Hs, He, Hst. cbn [bindR]. rewrite Ht, Hsn, Hen. cbn [bindR Dyn.format_02d].
    rewrite Hp. cbn [bindR].
    eexists _, h. split; [reflexivity|]. split; [ends_with_tac | auto].
  - destruct Hb as (mf & title & Hm & Ht).
    cbn [render_queue_item]. unfold render_radarr_queue_item, Dyn.getitem, Dyn.get.
    rewrite Hm, Hst. cbn [bindR]. rewrite Ht. cbn [bindR].
    destruct (Py.lookup "year" mf); cbn [bindR]; rewrite Hp; cbn [bindR];
      (eexists _, h; split; [reflexivity|]; split; [ends_with_tac | auto]).
Qed.

Lemma mapR_queue_items (b : service) items :
  Forall (queue_item b) items ->
  exists blocks,
    mapR (render_queue_item b) items = Ok blocks
    /\ Forall2 (fun it block =>
                  exists h,
                    ends_with block ("  Progress: " ++ two_decimals (sizeleft_of it <? 0) h
                                     ++ " MB remaining" ++ nl ++ nl)
                    /\ 0 <= h
                    /\ 2 * Z.abs (h * 1024 ^ 2 - 100 * Z.abs (sizeleft_of it)) <= 1024 ^ 2)
               items blocks.
Proof.
  induction 1 as [|it items Hit _ (blocks & Hm & Hf)]; [exists []; split; [reflexivity | constructor]|].
  destruct (render_queue_item_total b it Hit) as (block & h & Hr & He).
  exists (block :: blocks). split.
  - simpl. rewrite Hr, Hm. reflexivity.
  - constructor; [exists h; exact He | exact Hf].
Qed.

(** C7.  [queue()] of either backend, with its client in place.  When
    the fetched queue has no [records] entry or an empty list there, the
    result is exactly "Download queue is empty.".  Otherwise the result
    is the header followed by one block per item, each block ending in
    the item's progress line.  The progress line of an item whose
    [sizeleft] is the integer [n] (below 2^53 in magnitude) shows, with
    two decimals, the number of hundredths nearest to [n / 1024^2]; an
    item without [sizeleft] shows 0.00.  On a list of items as the
    backend sends them the operation always succeeds: every item gets
    its block, and every block ends with that line. *)
Theorem C7_queue_megabytes (b : service) self cl w t :
  service_client b self = Some cl ->
  (forall status fields,
      backend w (get_request cl "queue") = Response status (BodyJson (JObj fields)) ->
      is_success status = true ->
      Py.lookup "records" fields = None \/ Py.lookup "records" fields = Some (JArr []) ->
      get_queue b self w t
      = (Ok "Download queue is empty.", (t ++ [get_request cl "queue"])%list))
  /\ (forall status fields item items blocks,
        backend w (get_request cl "queue") = Response status (BodyJson (JObj fields)) ->
        is_success status = true ->
        Py.lookup "records" fields = Some (JArr (item :: items)) ->
        mapR (render_queue_item b) (item :: items) = Ok blocks ->
        get_queue b self w t
        = (Ok ("Current Download Queue:" ++ nl ++ nl ++ String.concat "" blocks),
           (t ++ [get_request cl "queue"])%list)
        /\ Forall2 (fun it block => exists p, render_progress it = Ok p /\ ends_with block p)
                   (item :: items) blocks)
  /\ (forall fields n,
        Py.lookup "sizeleft" fields = Some (JNum n) -> Z.abs n < 2 ^ 53 ->
        exists h,
          render_progress (JObj fields)
          = Ok ("  Progress: " ++ two_decimals (n <? 0) h ++ " MB remaining" ++ nl ++ nl)
          /\ 0 <= h
          /\ 2 * Z.abs (h * 1024 ^ 2 - 100 * Z.abs n) <= 1024 ^ 2)
  /\ (forall fields,
        Py.lookup "sizeleft" fields = None ->
        render_progress (JObj fields) = Ok ("  Progress: 0.00 MB remaining" ++ nl ++ nl))
  /\ (forall status fields item items,
        backend w (get_request cl "queue") = Response status (BodyJson (JObj fields)) ->
        is_success status = true ->
        Py.lookup "records" fields = Some (JArr (item :: items)) ->
        Forall (queue_item b) (item :: items) ->
        exists blocks,
          mapR (render_queue_item b) (item :: items) = Ok blocks
          /\ get_queue b self w t
             = (Ok ("Current Download Queue:" ++ nl ++ nl ++ String.concat "" blocks),
                (t ++ [get_request cl "queue"])%list)
          /\ Forall2 (fun it block =>
                        exists h,
                          ends_with block
                            ("  Progress: " ++ two_decimals (sizeleft_of it <? 0) h
                             ++ " MB remaining" ++ nl ++ nl)
                          /\ 0 <= h
                          /\ 2 * Z.abs (h * 1024 ^ 2 - 100 * Z.abs (sizeleft_of it))
                             <= 1024 ^ 2)
                     (item :: items) blocks).
Proof.
  intros Hc.
  assert (Hlist : forall status fields item items blocks,
            backend w (get_request cl "queue") = Response status (BodyJson (JObj fields)) ->
            is_success status = true ->
            Py.lookup "records" fields = Some (JArr (item :: items)) ->
            mapR (render_queue_item b) (item :: items) = Ok blocks ->
            get_queue b self w t
            = (Ok ("Current Download Queue:" ++ nl ++ nl ++ String.concat "" blocks),
               (t ++ [get_request cl "queue"])%list)).
  { intros status fields item items blocks Hb Hs Hrec Hmap.
    rewrite (get_queue_spec b self cl w t Hc), Hb. simpl decode. rewrite Hs.
    unfold render_queue, Dyn.get, Dyn.getitem. cbn [bindR]. rewrite Hrec.
    cbn [bindR Py.truthy negb Dyn.iter]. rewrite Hmap. reflexivity. }
  split; [|split; [|split; [|split]]].
  - intros status fields Hb Hs Hrec. rewrite (get_queue_spec b self cl w t Hc), Hb.
    simpl decode. rewrite Hs. unfold render_queue, Dyn.get. cbn [bindR].
    destruct Hrec as [-> | ->]; reflexivity.
  - intros status fields item items blocks Hb Hs Hrec Hmap. split.
    + now apply (Hlist status fields item items).
    + apply mapR_Forall2 in Hmap.
      eapply Forall2_impl; [|exact Hmap].
      intros it block H. now apply (render_queue_item_progress b).
  - intros fields n Hl Hn.
    exists (PyFloat.round_half_even (Z.abs n * 100) (2 ^ 20)).
    split; [now apply render_progress_sizeleft|].
    replace (1024 ^ 2) with (2 ^ 20) by reflexivity.
    pose proof (round_half_even_close (Z.abs n * 100) (2 ^ 20)
                  ltac:(lia) ltac:(reflexivity)) as [H0 H1].
    split; [exact H0|]. replace (100 * Z.abs n) with (Z.abs n * 100) by lia. exact H1.
  - intros fields Hl. unfold render_progress, Dyn.get. rewrite Hl. reflexivity.
  - intros status fields item items Hb Hs Hrec Hitems.
    destruct (mapR_queue_items b (item :: items) Hitems) as (blocks & Hmap & Hends).
    exists blocks. split; [exact Hmap|]. split; [|exact Hends].
    now apply (Hlist status fields item items).
Qed.

(** A queue of one episode with 1.5 MiB left, as Sonarr sends it. *)
Lemma C7_witness :
  let item := JObj [("series", JObj [("title", JStr "Alpha")]);
                    ("episode", JObj [("seasonNumber", JNum 1); ("episodeNumber", JNum 12)]);
                    ("status", JStr "downloading");
                    ("sizeleft", JNum 1572864)] in
  get_queue Sonarr Sample.mcp (Sample.serving (JObj [("records", JArr [item])])) []
  = (Ok ("Current Download Queue:" ++ nl ++ nl
         ++ "- Alpha - S01E12" ++ nl
         ++ "  Status: downloading" ++ nl
         ++ "  Progress: 1.50 MB remaining" ++ nl ++ nl),
     [get_request Sample.sonarr "queue"])
  /\ get_queue Radarr Sample.mcp (Sample.serving (JObj [("records", JArr [])])) []
     = (Ok "Download queue is empty.", [get_request Sample.radarr "queue"]).
Proof.
  intros item. split.
  - pose proof (C7_queue_megabytes Sonarr Sample.mcp Sample.sonarr
                  (Sample.serving (JObj [("records", JArr [item])])) [] eq_refl)
      as (_ & _ & _ & _ & Hfull).
    assert (Hitem : Forall (queue_item Sonarr) [item]).
    { constructor; [|constructor].
      exists [("series", JObj [("title", JStr "Alpha")]);
              ("episode", JObj [("seasonNumber", JNum 1); ("episodeNumber", JNum 12)]);
              ("status", JStr "downloading"); ("sizeleft", JNum 1572864)],
             (JStr "downloading").
      split; [reflexivity|]. split; [reflexivity|]. split.
      - right. exists 1572864. split; [reflexivity | reflexivity].
      - exists [("title", JStr "Alpha")], (JStr "Alpha"),
               [("seasonNumber", JNum 1); ("episodeNumber", JNum 12)], 1, 12.
        repeat split; reflexivity. }
    destruct (Hfull 200 _ item [] eq_refl eq_refl eq_refl Hitem) as (blocks & Hmap & Hrun & _).
    vm_compute in Hmap. injection Hmap as <-. exact Hrun.
  - pose proof (C7_queue_megabytes Radarr Sample.mcp Sample.radarr
                  (Sample.serving (JObj [("records", JArr [])])) [] eq_refl)
      as (Hempty & _).
    exact (Hempty 200 _ eq_refl eq_refl (or_intror eq_refl)).
Defined.

Example queue_run :
  get_queue Sonarr Sample.mcp
    (Sample.serving
       (JObj [("records",
               JArr [JObj [("series", JObj [("title", JStr "Alpha")]);
                           ("episode", JObj [("seasonNumber", JNum 1);
                                             ("episodeNumber", JNum 12)]);
                           ("status", JStr "downloading");
                           ("sizeleft", JNum 1572864)]])])) []
  = (Ok ("Current Download Queue:" ++ nl ++ nl
         ++ "- Alpha - S01E12" ++ nl
         ++ "  Status: downloading" ++ nl
         ++ "  Progress: 1.50 MB remaining" ++ nl ++ nl),
     [get_request Sample.sonarr "queue"]).
Proof. vm_compute. reflexivity. Qed.

(* ================================================================= *)
(** ** Recent additions *)

Lemma get_recent_fetch (b : service) self cl days w t :
  service_client b self = Some cl ->
  get_recent b self days w t
  = match decode (backend w (get_request cl (collection b))) with
    | Raise e => (Raise e, (t ++ [get_request cl (collection b)])%list)
    | Ok fetched =>
        (cutoff_date <- cutoff_of days ;;
         items <- lift (Dyn.iter fetched) ;;
         kept <- lift (mapR (recent_step b cutoff_date) items) ;;
         match sort_added_desc (keep kept) with
         | [] => ret ("No " ++ (match b with Sonarr => "series" | Radarr => "movies" end)
                       ++ " added in the last " ++ Py.str days ++ " days.")
         | _ =>
             blocks <- lift (mapR (render_recent b) (sort_added_desc (keep kept))) ;;
             ret ("Recently added "
                  ++ (match b with Sonarr => "series" | Radarr => "movies" end)
                  ++ " (last " ++ Py.str days ++ " days):" ++ nl ++ nl
                  ++ String.concat "" blocks)
         end) w (t ++ [get_request cl (collection b)])%list
    end.
Proof.
  intros Hc.
  destruct b; simpl in Hc; simpl get_recent;
    match goal with |- ?f _ _ _ _ = _ => unfold f end;
    rewrite Hc; unfold client_get, APIClient_get;
    unfold bind at 1; rewrite APIClient_request_spec;
    unfold get_request, api_url, api_headers, decode, collection;
    match goal with |- context [backend w ?r] => destruct (backend w r) as [st [j|m]|m] end;
    try destruct (is_success st); reflexivity.
Qed.

(** A timestamp that carries an offset cannot be compared with the
    naive cut-off: the loop stops there. *)
Lemma recent_step_aware (b : service) c show s dt off :
  Dyn.getitem show "added" = Ok (JStr s) ->
  parse_added s = Ok dt ->
  PyDatetime.utcoffset dt = Some off ->
  recent_step b (PyDatetime.mkDatetime c None) show = Raise (TypeError naive_aware_message).
Proof.
  unfold parse_added. intros Ha Hp Ho.
  destruct b; simpl; unfold recent_series_step, recent_movies_step;
    rewrite Ha; cbn [bindR Dyn.replace_Z]; rewrite Hp; cbn [bindR];
    unfold PyDatetime.gt; rewrite Ho; reflexivity.
Qed.

(** A naive timestamp is kept exactly when it is strictly after the
    cut-off. *)
Lemma recent_step_naive (b : service) c fields s wl title status :
  Py.lookup "added" fields = Some (JStr s) ->
  parse_added s = Ok (PyDatetime.mkDatetime wl None) ->
  Py.lookup "title" fields = Some title ->
  Py.lookup "status" fields = Some status ->
  exists entry,
    recent_step b (PyDatetime.mkDatetime c None) (JObj fields)
    = Ok (if c <? wl then Some entry else None)
    /\ added_key entry = s.
Proof.
  unfold parse_added. intros Ha Hp Ht Hs.
  destruct b; simpl; unfold recent_series_step, recent_movies_step, Dyn.getitem, Dyn.get;
    rewrite Ha, Ht, Hs; cbn [bindR Dyn.replace_Z]; rewrite Hp; cbn [bindR];
    unfold PyDatetime.gt; cbn [PyDatetime.utcoffset PyDatetime.wall bindR];
    repeat match goal with
      | |- context [Py.lookup ?k fields] => destruct (Py.lookup k fields)
      end;
    cbn [bindR];
    eexists; (split; [destruct (c <? wl); reflexivity|]); reflexivity.
Qed.

(** C1.  On the timestamps the backends send ([added] in UTC with the
    [Z] suffix), [recent(days)] of either backend fetches the collection
    and then raises the naive-against-aware [TypeError] instead of
    listing the entity added one day before now; through [call_tool] the
    caller receives that error text. *)
Theorem C1_recent_fails_on_Z_timestamps :
  get_recent_series Sample.mcp (JNum 7) (Sample.serving Sample.utc_series) []
  = (Raise (TypeError naive_aware_message), [get_request Sample.sonarr "series"])
  /\ get_recent_movies Sample.mcp (JNum 7) (Sample.serving Sample.utc_movies) []
     = (Raise (TypeError naive_aware_message), [get_request Sample.radarr "movie"])
  /\ call_tool Sample.mcp "sonarr_get_recent_series" (JObj [])
       (Sample.serving Sample.utc_series) []
     = (text_content ("Error: " ++ naive_aware_message), [get_request Sample.sonarr "series"])
  /\ parse_added "2024-01-14T08:00:00Z"
     = Ok (PyDatetime.mkDatetime (Sample.clock - 26 * 3600 * 1000000 - 1800 * 1000000) (Some 0)).
Proof. repeat split; vm_compute; reflexivity. Qed.

(** Whatever else the collection holds, a first entity with an offset
    in its timestamp makes the whole operation fail. *)
Lemma get_recent_raises_on_aware_head (b : service) self cl days d w t status show rest s dt off :
  service_client b self = Some cl ->
  backend w (get_request cl (collection b)) = Response status (BodyJson (JArr (show :: rest))) ->
  is_success status = true ->
  PyDatetime.timedelta_days days = Ok d ->
  0 <= now w - d * PyDatetime.us_per_day <= PyDatetime.max_wall ->
  Dyn.getitem show "added" = Ok (JStr s) ->
  parse_added s = Ok dt ->
  PyDatetime.utcoffset dt = Some off ->
  get_recent b self days w t
  = (Raise (TypeError naive_aware_message), (t ++ [get_request cl (collection b)])%list).
Proof.
  intros Hc Hb Hs Hd Hrange Ha Hp Ho.
  rewrite (get_recent_fetch b self cl days w t Hc), Hb. simpl decode. rewrite Hs.
  unfold cutoff_of, bind, datetime_now, lift, ret. rewrite Hd.
  unfold PyDatetime.shift_days.
  replace (now w + - d * PyDatetime.us_per_day) with (now w - d * PyDatetime.us_per_day) by lia.
  destruct (Z.leb_spec 0 (now w - d * PyDatetime.us_per_day)); [|lia].
  destruct (Z.leb_spec (now w - d * PyDatetime.us_per_day) PyDatetime.max_wall); [|lia].
  cbn [andb Dyn.iter mapR].
  rewrite (recent_step_aware b _ show s dt off Ha Hp Ho). reflexivity.
Qed.


(** An entity added exactly [days] before now is left out, one added a
    microsecond later is listed. *)
Example recent_boundary :
  let at_cutoff (added : string) :=
    Sample.serving (JArr [JObj [("title", JStr "Alpha"); ("added", JStr added);
                                ("status", JStr "ended")]]) in
  fst (get_recent_series Sample.mcp (JNum 7) (at_cutoff "2024-01-08T10:30:00") [])
  = Ok "No series added in the last 7 days."
  /\ fst (get_recent_series Sample.mcp (JNum 7) (at_cutoff "2024-01-08T10:30:00.000001") [])
     = Ok ("Recently added series (last 7 days):" ++ nl ++ nl
           ++ "- Alpha (None)" ++ nl
           ++ "  Added: 2024-01-08T10:30:00.000001" ++ nl
           ++ "  Network: None" ++ nl
           ++ "  Seasons: 0" ++ nl ++ nl).
Proof. split; vm_compute; reflexivity. Qed.






Lemma has_infix_here mid after : has_infix (mid ++ after) mid.
Proof. now exists "", after. Qed.

Lemma has_infix_String c s mid : has_infix s mid -> has_infix (String c s) mid.
Proof. intros (b & a & ->). now exists (String c b), a. Qed.

Lemma has_infix_append u s mid : has_infix s mid -> has_infix (u ++ s) mid.
Proof. intros (b & a & ->). exists (u ++ b), a. now rewrite append_assoc. Qed.

Ltac has_infix_tac :=
  repeat first
    [ match goal with |- has_infix _ ?m => apply (has_infix_here m) end
    | apply has_infix_String
    | apply has_infix_append ].

(** An entity kept by the first loop without its secondary attribute
    is rendered with [None] in that field: the dict built for it always
    holds the key, so the "Unknown" default of the second loop is never
    taken. *)
Lemma recent_step_missing_secondary (b : service) c fields entry :
  Py.lookup (secondary b) fields = None ->
  recent_step b c (JObj fields) = Ok (Some entry) ->
  Dyn.getitem entry (secondary b) = Ok JNull
  /\ exists s, render_recent b entry = Ok s /\ has_infix s (secondary_label b ++ "None").
Proof.
  intros Hn H.
  destruct b; simpl in Hn, H |- *; unfold recent_series_step, recent_movies_step in H;
    inv_bindR H;
    match type of H with (if ?x then _ else _) = _ => destruct x; [|discriminate H] end;
    inv_bindR H; injection H as <-;
    match goal with
    | Hg : Dyn.get (JObj fields) _ JNull = Ok ?v |- context [(_, ?v) :: nil] =>
        unfold Dyn.get in Hg; rewrite Hn in Hg; injection Hg as <-
    | Hg : Dyn.get (JObj fields) "network" JNull = Ok ?v |- _ =>
        unfold Dyn.get in Hg; rewrite Hn in Hg; injection Hg as <-
    end;
    (split; [reflexivity|]);
    unfold render_recent_series, render_recent_movie; simpl;
    eexists; (split; [reflexivity|]); has_infix_tac.
Qed.

(** C5.  An entity inside the window that has no [network] (series) or
    no [studio] (movie) is listed, and the operation succeeds, but the
    line of that field reads [None], not "Unknown". *)
Theorem C5_missing_secondary_renders_None :
  get_recent_series Sample.mcp (JNum 7) (Sample.serving Sample.plain_series) []
  = (Ok ("Recently added series (last 7 days):" ++ nl ++ nl
         ++ "- Alpha (2020)" ++ nl
         ++ "  Added: 2024-01-14T08:00:00" ++ nl
         ++ "  Network: None" ++ nl
         ++ "  Seasons: 2" ++ nl ++ nl),
     [get_request Sample.sonarr "series"])
  /\ get_recent_movies Sample.mcp (JNum 7) (Sample.serving Sample.plain_movies) []
     = (Ok ("Recently added movies (last 7 days):" ++ nl ++ nl
            ++ "- Heat (1995)" ++ nl
            ++ "  Added: 2024-01-14T08:00:00" ++ nl
            ++ "  Studio: None" ++ nl ++ nl),
        [get_request Sample.radarr "movie"]).
Proof. split; vm_compute; reflexivity. Qed.

(* ================================================================= *)
(** ** Search *)

Lemma prefix_spec a s : prefix a s = true <-> begins_with s a.
Proof.
  unfold begins_with. revert s. induction a as [|c a IH]; intros s.
  - destruct s; simpl; split; eauto.
  - destruct s as [|d s]; simpl.
    + split; [discriminate|]. intros [tl H]. discriminate H.
    + destruct (ascii_dec c d) as [->|Hne].
      * rewrite IH. split; intros [tl H]; exists tl; [now rewrite H | now injection H].
      * split; [discriminate|]. intros [tl H]. injection H as H1 H2. congruence.
Qed.

Lemma contains_spec needle hay : PyStr.contains needle hay = true <-> has_infix hay needle.
Proof.
  unfold has_infix. induction hay as [|c hay IH]; cbn [PyStr.contains].
  - rewrite orb_false_r, prefix_spec. unfold begins_with.
    split.
    + intros [tl H]. now exists "", tl.
    + intros (b & a & H). destruct b; [now exists a|discriminate H].
  - rewrite orb_true_iff, prefix_spec, IH. unfold begins_with. split.
    + intros [[tl H] | (b & a & H)].
      * now exists "", tl.
      * exists (String c b), a. simpl. now rewrite H.
    + intros (b & a & H). destruct b as [|d b]; simpl in H.
      * left. now exists a.
      * right. injection H as _ H. now exists b, a.
Qed.

Lemma title_matches_titled query s :
  titled s -> title_matches (JStr query) s = Ok (title_has query s).
Proof.
  intros (fields & title & -> & H).
  unfold title_matches, title_has, title_of, Dyn.getitem. rewrite H. reflexivity.
Qed.

Lemma filterR_title_matches query shows :
  Forall titled shows ->
  filterR (title_matches (JStr query)) shows = Ok (filter (title_has query) shows).
Proof.
  induction 1 as [|s shows Hs _ IH]; simpl; [reflexivity|].
  rewrite (title_matches_titled query s Hs), IH. simpl.
  destruct (title_has query s); reflexivity.
Qed.

Lemma mapR_length {A B : Type} (f : A -> result B) l ys :
  mapR f l = Ok ys -> List.length ys = List.length l.
Proof.
  intros H. apply mapR_Forall2 in H. symmetry. eapply Forall2_length; eauto.
Qed.

Lemma search_spec (b : service) self cl query shows status w t :
  service_client b self = Some cl ->
  backend w (get_request cl (collection b)) = Response status (BodyJson (JArr shows)) ->
  is_success status = true ->
  Forall titled shows ->
  search b self (JStr query) w t
  = (match filter (title_has query) shows with
     | [] => Ok (search_nothing b query)
     | _ =>
         blocks <~ mapR (render_match b) (firstn 10 (filter (title_has query) shows)) ;;
         Ok (search_listing b query (String.concat "" blocks))
     end, (t ++ [get_request cl (collection b)])%list).
Proof.
  intros Hc Hb Hs Ht.
  destruct b;
    cbn [search render_match collection service_client search_listing search_nothing] in *;
    unfold search_sonarr_series, search_radarr_movies;
    rewrite Hc; unfold client_get, APIClient_get;
    unfold bind at 1; rewrite APIClient_request_spec;
    unfold api_url, api_headers; unfold get_request in Hb; rewrite Hb, Hs;
    unfold bind, lift, ret; cbn [Dyn.iter];
    rewrite (filterR_title_matches query shows Ht);
    destruct (filter (title_has query) shows) as [|m ms]; try reflexivity;
    match goal with |- context [mapR ?f ?l] => destruct (mapR f l) end; reflexivity.
Qed.

(** At most ten blocks are rendered: as many as there are matches, up
    to ten, in the order of the collection. *)
Lemma search_block_count (b : service) query shows blocks :
  mapR (render_match b) (firstn 10 (filter (title_has query) shows)) = Ok blocks ->
  List.length blocks = Nat.min 10 (List.length (filter (title_has query) shows)).
Proof. intros H. apply mapR_length in H. now rewrite H, length_firstn. Qed.


(** C3.  Through [call_tool], an empty query is not turned away: the
    collection is fetched and every title matches, so the whole library
    is listed; the HTTP route answers the same query with status 400
    and sends nothing. *)
Theorem C3_empty_query_reaches_backend :
  call_tool Sample.mcp "sonarr_search_series" (JObj [("query", JStr "")])
    (Sample.serving Sample.library) []
  = (text_content ("Series matching '':" ++ nl ++ nl
                   ++ "- Alpha (N/A)" ++ nl ++ "  Status: continuing" ++ nl
                   ++ "  Seasons: 0" ++ nl ++ "  ID: 1" ++ nl ++ nl
                   ++ "- Beta (N/A)" ++ nl ++ "  Status: ended" ++ nl
                   ++ "  Seasons: 0" ++ nl ++ "  ID: 2" ++ nl ++ nl),
     [get_request Sample.sonarr "series"])
  /\ Http.sonarr_search (Some Sample.mcp) (Http.mkHttpRequest [("query", "")])
       (Sample.serving Sample.library) []
     = (Ok (Http.error_response "query parameter required" 400), []).
Proof. split; vm_compute; reflexivity. Qed.

(* ================================================================= *)
(** ** The HTTP routes *)

Lemma try_result_shape op w t resp t' :
  Http.try_result op w t = (Ok resp, t') ->
  (exists s, resp = Http.result_response s)
  \/ (exists e, resp = Http.error_response (str_exn e) 500).
Proof.
  unfold Http.try_result. destruct (op w t) as [[s|e] t1]; intros H; inversion H; subst; eauto.
Qed.

Lemma try_result_returns op w t : exists resp t', Http.try_result op w t = (Ok resp, t').
Proof. unfold Http.try_result. destruct (op w t) as [[s|e] t1]; eauto. Qed.

(** Every response a route returns has one of the four shapes. *)
Lemma endpoint_shape (r : Http.route) mcp_instance request w t resp t' :
  Http.endpoint r mcp_instance request w t = (Ok resp, t') ->
  (exists s, resp = Http.result_response s)
  \/ (resp = Http.error_response (service_name (route_service r) ++ " not configured") 503
      /\ Http.ready_with mcp_instance (service_client (route_service r)) = None)
  \/ (resp = Http.error_response "query parameter required" 400)
  \/ (exists e, resp = Http.error_response (str_exn e) 500).
Proof.
  intros H.
  destruct (Http.ready_with mcp_instance (service_client (route_service r))) as [mcp|] eqn:E.
  - destruct r; cbn [Http.endpoint route_service service_client] in *;
      match type of H with ?f _ _ _ _ = _ => unfold f in H end; rewrite E in H;
      try (apply try_result_shape in H; tauto);
      try (apply bind_inv in H;
           destruct H as [(a & t1 & _ & H) | (e & _ & H)]; [|discriminate];
           apply try_result_shape in H; tauto);
      try (destruct (PyStr.is_empty _);
           [inversion H; subst; tauto | apply try_result_shape in H; tauto]).
  - rewrite endpoint_unconfigured in H by exact E. inversion H; subst. tauto.
Qed.

Ltac no_raise H :=
  match type of H with
  | Http.try_result ?op ?w0 ?t0 = _ =>
      let Hr := fresh "Hr" in
      destruct (try_result_returns op w0 t0) as (? & ? & Hr); rewrite Hr in H; discriminate H
  end.

(** A route lets an exception out only from the conversion of [days]. *)
Lemma endpoint_raises (r : Http.route) mcp_instance request w t e t' :
  Http.endpoint r mcp_instance request w t = (Raise e, t') ->
  t' = t /\ exists default, Http.int_param request "days" default = Raise e.
Proof.
  intros H.
  destruct (Http.ready_with mcp_instance (service_client (route_service r))) as [mcp|] eqn:E.
  - destruct r; cbn [Http.endpoint route_service service_client] in *;
      match type of H with ?f _ _ _ _ = _ => unfold f in H end; rewrite E in H;
      first
        [ no_raise H
        | destruct (PyStr.is_empty _); [discriminate H | no_raise H]
        | apply bind_inv in H;
          destruct H as [(a & t1 & _ & H) | (e' & H & He)];
          [ no_raise H
          | unfold lift in H; injection H as H1 H2; injection He as ->; split; eauto ] ].
  - rewrite endpoint_unconfigured in H by exact E. discriminate H.
Qed.

(** C8.  A [days] parameter that is not an integer literal makes
    [int()] raise before the [try] of the route is entered: the four
    routes that read [days] return no JSON envelope at all, the
    [ValueError] leaves the handler. *)
Theorem C8_malformed_days_escapes_handler :
  let request := Http.mkHttpRequest [("days", "abc")] in
  let failure := Raise (ValueError "invalid literal for int() with base 10: 'abc'") in
  Http.sonarr_recent_series (Some Sample.mcp) request (Sample.serving Sample.plain_series) []
  = (failure, [])
  /\ Http.sonarr_calendar (Some Sample.mcp) request (Sample.serving (JArr [])) []
     = (failure, [])
  /\ Http.radarr_recent_movies (Some Sample.mcp) request (Sample.serving Sample.plain_movies) []
     = (failure, [])
  /\ Http.radarr_calendar (Some Sample.mcp) request (Sample.serving (JArr [])) []
     = (failure, []).
Proof. repeat split; vm_compute; reflexivity. Qed.

(* ================================================================= *)
(** ** Missing required arguments *)





















(** [call_tool] has one rendering for every exception: the text
    carries [str(e)] and nothing of the class of [e], so the payload of
    a missing argument is also that of a transport failure whose
    message happens to read the same. *)
Example catch_all_renders_alike :
  fst (call_tool Sample.mcp "sonarr_search_series" (JObj [])
         (Sample.serving Sample.library) [])
  = fst (call_tool Sample.mcp "sonarr_search_series" (JObj [("query", JStr "alpha")])
           (Sample.unreachable "'query'") []).
Proof. vm_compute. reflexivity. Qed.






(* ================================================================= *)
(** ** What the operations send *)

Lemma emits_ret {A : Type} R (a : A) : emits R 0 (ret a).
Proof.
  intros w t x t' H. apply ret_inv in H. destruct H as [_ ->].
  exists []. rewrite app_nil_r. auto.
Qed.

Lemma emits_raise {A : Type} R e : emits R 0 (@raise A e).
Proof.
  intros w t x t' H. unfold raise in H. injection H as _ <-.
  exists []. rewrite app_nil_r. auto.
Qed.

Lemma emits_lift {A : Type} R (r : result A) : emits R 0 (lift r).
Proof.
  intros w t x t' H. apply lift_inv in H. destruct H as [_ ->].
  exists []. rewrite app_nil_r. auto.
Qed.

Lemma emits_now R : emits R 0 datetime_now.
Proof.
  intros w t x t' H. unfold datetime_now in H. injection H as _ <-.
  exists []. rewrite app_nil_r. auto.
Qed.

Lemma emits_weaken {A : Type} R (n n' : nat) (m : M A) :
  (n <= n')%nat -> emits R n m -> emits R n' m.
Proof.
  intros Hn Hm w t x t' H. destruct (Hm w t x t' H) as (new & -> & HR & Hl).
  exists new. repeat split; auto. lia.
Qed.

Lemma emits_bind {A B : Type} R (n1 n2 : nat) (m : M A) (k : A -> M B) :
  emits R n1 m -> (forall a, emits R n2 (k a)) -> emits R (n1 + n2) (bind m k).
Proof.
  intros Hm Hk w t x t' H. apply bind_inv in H.
  destruct H as [(a & t1 & H1 & H2) | (e & H1 & _)].
  - destruct (Hm w t _ _ H1) as (new1 & -> & HR1 & Hl1).
    destruct (Hk a w _ _ _ H2) as (new2 & -> & HR2 & Hl2).
    exists (new1 ++ new2)%list. rewrite app_assoc. repeat split.
    + apply Forall_app; auto.
    + rewrite length_app. lia.
  - destruct (Hm w t _ _ H1) as (new1 & -> & HR1 & Hl1).
    exists new1. repeat split; auto. lia.
Qed.

(** One call of the client is one request, whatever comes back. *)
Lemma emits_request R (r : request) : R r -> emits R 1 (APIClient_request r).
Proof.
  intros HR w t x t' H. rewrite APIClient_request_spec in H. injection H as _ <-.
  exists [r]. repeat split; auto.
Qed.

Lemma begins_with_append p s : begins_with (p ++ s) p.
Proof. now exists s. Qed.

Lemma emits_client_get (b : service) self endpoint params :
  emits (from_backend b self GET) 1 (client_get (service_client b self) endpoint params).
Proof.
  unfold client_get. destruct (service_client b self) as [cl|] eqn:Hc.
  - apply emits_request. exists cl. split; [exact Hc|].
    unfold APIClient_get, addressed_to, api_url, api_headers. simpl.
    split; [reflexivity|]. split; [|reflexivity].
    exists endpoint. now rewrite append_assoc.
  - apply (emits_weaken _ 0); [lia | apply emits_raise].
Qed.

(** What follows a [bind] whose continuation sends nothing. *)
Ltac emits_rest :=
  repeat first
    [ apply emits_ret | apply emits_raise | apply emits_lift | apply emits_now
    | apply (emits_bind _ 0 0); [|intros]
    | match goal with
      | |- emits _ _ (match ?x with [] => _ | _ :: _ => _ end) => destruct x
      | |- emits _ _ (if ?c then _ else _) => destruct c
      end ].

Ltac emits_get :=
  first [ apply (emits_client_get Sonarr) | apply (emits_client_get Radarr) ].

Lemma run_read_emits (b : service) (o : read_op) self arg :
  emits (from_backend b self GET) (read_budget o) (run_read b o self arg).
Proof.
  destruct o; cbn [run_read read_budget].
  - destruct b; cbn [get_recent]; unfold get_recent_series, get_recent_movies, cutoff_of;
      (apply (emits_bind _ 1 0); [emits_get | intros]); emits_rest.
  - destruct b; cbn [get_calendar];
      unfold get_sonarr_calendar, get_radarr_calendar, calendar_params;
      (apply (emits_bind _ 0 1); [emits_rest | intros]);
      (apply (emits_bind _ 1 0); [emits_get | intros]); emits_rest.
  - destruct b; cbn [search]; unfold search_sonarr_series, search_radarr_movies;
      (apply (emits_bind _ 1 0); [emits_get | intros]); emits_rest.
  - destruct b; cbn [get_status]; unfold get_sonarr_status, get_radarr_status;
      (apply (emits_bind _ 1 1); [emits_get | intros]);
      (apply (emits_bind _ 1 0); [emits_get | intros]); emits_rest.
  - destruct b; cbn [get_queue]; unfold get_sonarr_queue, get_radarr_queue;
      (apply (emits_bind _ 1 0); [emits_get | intros]); emits_rest.
Qed.

(** X1.  Whether it returns or raises, a reading operation (recent,
    calendar, search, status, queue) only appends to the trace, and
    every request it sends is a GET to the versioned API of its own
    backend carrying that backend's key; there is at most one request,
    two for status. *)
Theorem read_operations_only_get (b : service) (o : read_op) self arg w t :
  exists new,
    snd (run_read b o self arg w t) = (t ++ new)%list
    /\ (List.length new <= read_budget o)%nat
    /\ (forall q, In q new ->
          exists cl,
            service_client b self = Some cl
            /\ req_method q = GET
            /\ begins_with (req_url q) (base_url cl ++ "/api/v3/")
            /\ req_headers q = [("X-Api-Key", api_key cl)]).
Proof.
  destruct (run_read b o self arg w t) as [x t'] eqn:E.
  destruct (run_read_emits b o self arg w t x t' E) as (new & -> & HF & Hl).
  exists new. split; [reflexivity|]. split; [exact Hl|].
  intros q Hq. rewrite Forall_forall in HF.
  destruct (HF q Hq) as (cl & Hc & Hm & Hu & Hh). eauto.
Qed.

Lemma emits_mono {A : Type} (R R' : request -> Prop) n (m : M A) :
  (forall q, R q -> R' q) -> emits R n m -> emits R' n m.
Proof.
  intros HR Hm w t x t' H. destruct (Hm w t x t' H) as (new & -> & HF & Hl).
  exists new. repeat split; auto. eapply Forall_impl; eauto.
Qed.

Lemma emits_try_result R n op : emits R n op -> emits R n (Http.try_result op).
Proof.
  intros Hop w t x t' H. unfold Http.try_result in H.
  destruct (op w t) as [[s|e] t1] eqn:E; injection H as _ <-; eapply Hop; eauto.
Qed.

Lemma emits_client_post (b : service) self endpoint data :
  emits (from_backend b self POST) 1 (client_post (service_client b self) endpoint data).
Proof.
  unfold client_post. destruct (service_client b self) as [cl|] eqn:Hc.
  - apply emits_request. exists cl. split; [exact Hc|].
    unfold APIClient_post, addressed_to, api_url, api_headers. simpl.
    split; [reflexivity|]. split; [|reflexivity].
    exists endpoint. now rewrite append_assoc.
  - apply (emits_weaken _ 0); [lia | apply emits_raise].
Qed.

Lemma emits_command (c : command) self id :
  emits (from_backend (command_service c) self POST) 1 (run_command c self id).
Proof.
  destruct c; cbn [run_command command_service];
    unfold refresh_sonarr_series, search_sonarr_episodes, refresh_radarr_movie,
      search_radarr_movie;
    (apply (emits_bind _ 1 0);
       [ first [apply (emits_client_post Sonarr) | apply (emits_client_post Radarr)]
       | intros; apply emits_ret ]).
Qed.

Lemma ready_with_Some mcp_instance client mcp :
  Http.ready_with mcp_instance client = Some mcp ->
  mcp_instance = Some mcp /\ exists cl, client mcp = Some cl.
Proof.
  unfold Http.ready_with. destruct mcp_instance as [m|]; [|discriminate].
  destruct (client m) as [cl|] eqn:E; [|discriminate].
  intros H; injection H as <-. eauto.
Qed.

Lemma endpoint_emits (r : Http.route) mcp_instance request :
  emits (route_request mcp_instance r) 2 (Http.endpoint r mcp_instance request)
  /\ (Http.ready_with mcp_instance (service_client (route_service r)) = None ->
      emits (route_request mcp_instance r) 0 (Http.endpoint r mcp_instance request))
  /\ emits (fun _ => False) 0 (Http.health request)
  /\ emits (fun _ => False) 0 (Http.readiness mcp_instance request).
Proof.
  split; [|split; [|split]].
  - destruct (Http.ready_with mcp_instance (service_client (route_service r))) as [mcp|] eqn:E.
    + destruct (ready_with_Some _ _ _ E) as [-> _].
      assert (Hread : forall o arg,
                 emits (route_request (Some mcp) r) 2
                   (Http.try_result (run_read (route_service r) o mcp arg))).
      { intros o arg. apply emits_try_result.
        apply (emits_weaken _ (read_budget o)); [destruct o; simpl; lia|].
        eapply emits_mono; [|apply run_read_emits].
        intros q Hq. now exists mcp. }
      destruct r; cbn [Http.endpoint route_service service_client] in *;
        match goal with |- emits _ _ (?f _ _) => unfold f end; rewrite E;
        try (apply (emits_bind _ 0 2); [apply emits_lift | intros]);
        try match goal with
          | |- emits _ _ (if ?c then _ else _) =>
              destruct c; [apply (emits_weaken _ 0); [lia | apply emits_ret]|]
          end.
      * apply (Hread Recent).
      * apply (Hread Calendar).
      * apply (Hread Search).
      * apply (Hread Status (JObj [])).
      * apply (Hread Queue (JObj [])).
      * apply (Hread Recent).
      * apply (Hread Calendar).
      * apply (Hread Search).
      * apply (Hread Status (JObj [])).
      * apply (Hread Queue (JObj [])).
    + intros w t x t' H. rewrite endpoint_unconfigured in H by exact E.
      injection H as _ <-. exists []. rewrite app_nil_r. repeat split; auto.
  - intros E w t x t' H. rewrite endpoint_unconfigured in H by exact E.
    injection H as _ <-. exists []. rewrite app_nil_r. auto.
  - apply emits_ret.
  - unfold Http.readiness. destruct mcp_instance; apply emits_ret.
Qed.

(** X2.  The routes send nothing but GETs, each to the route's own
    backend with that backend's key, at most two per request, and none
    when the guard answers 503: no HTTP request can trigger a command.
    The health and readiness endpoints never send anything. *)
Theorem http_routes_only_get (r : Http.route) mcp_instance request w t :
  (exists new,
      snd (Http.endpoint r mcp_instance request w t) = (t ++ new)%list
      /\ (List.length new <= 2)%nat
      /\ (forall q, In q new ->
            exists mcp cl,
              mcp_instance = Some mcp
              /\ service_client (route_service r) mcp = Some cl
              /\ req_method q = GET
              /\ begins_with (req_url q) (base_url cl ++ "/api/v3/")
              /\ req_headers q = [("X-Api-Key", api_key cl)])
      /\ (Http.ready_with mcp_instance (service_client (route_service r)) = None ->
          new = []))
  /\ snd (Http.health request w t) = t
  /\ snd (Http.readiness mcp_instance request w t) = t.
Proof.
  destruct (endpoint_emits r mcp_instance request) as (H2 & H0 & _ & _).
  split; [|split].
  - destruct (Http.endpoint r mcp_instance request w t) as [x t'] eqn:E.
    destruct (H2 w t x t' E) as (new & -> & HF & Hl).
    exists new. split; [reflexivity|]. split; [exact Hl|]. split.
    + intros q Hq. rewrite Forall_forall in HF.
      destruct (HF q Hq) as (mcp & Hm & cl & Hc & Hg & Hu & Hh). eauto 8.
    + intros Hn. destruct (H0 Hn w t x _ E) as (new' & Heq & _ & Hl').
      apply app_inv_head in Heq. subst new'. destruct new; [reflexivity|simpl in Hl'; lia].
  - reflexivity.
  - unfold Http.readiness. destruct mcp_instance; reflexivity.
Qed.

Lemma emits_guarded R n client svc run :
  emits R n run -> emits R n (guarded client svc run).
Proof.
  intros Hrun. unfold guarded. destruct client.
  - replace n with (n + 0)%nat by lia. apply emits_bind; [exact Hrun|].
    intros; apply emits_ret.
  - apply (emits_weaken _ 0); [lia | apply emits_ret].
Qed.

Lemma emits_read_tool self name (b : service) (o : read_op) arg :
  tool_service name = Some b ->
  emits (tool_request self name) 2 (run_read b o self arg).
Proof.
  intros Hb. apply (emits_weaken _ (read_budget o)); [destruct o; simpl; lia|].
  eapply emits_mono; [|apply run_read_emits].
  intros q Hq. exists b, GET. repeat split; auto. discriminate.
Qed.

Lemma emits_command_tool self name (c : command) id :
  tool_service name = Some (command_service c) ->
  In name command_tools ->
  emits (tool_request self name) 2 (run_command c self id).
Proof.
  intros Hb Hin. apply (emits_weaken _ 1); [lia|].
  eapply emits_mono; [|apply emits_command].
  intros q Hq. exists (command_service c), POST. repeat split; auto.
Qed.

Lemma emits_call_tool_body self name arguments :
  emits (tool_request self name) 2 (call_tool_body self name arguments).
Proof.
  unfold call_tool_body.
  repeat match goal with
    | |- emits _ _ (if String.eqb name ?lit then _ else _) =>
        destruct (String.eqb_spec name lit) as [-> | _];
          [ apply emits_guarded;
            try (apply (emits_bind _ 0 2); [apply emits_lift | intros])
          | ]
    end.
  - apply (emits_read_tool _ _ Sonarr Recent); reflexivity.
  - apply (emits_read_tool _ _ Sonarr Calendar); reflexivity.
  - apply (emits_read_tool _ _ Sonarr Search); reflexivity.
  - apply (emits_read_tool _ _ Sonarr Status (JObj [])); reflexivity.
  - apply (emits_read_tool _ _ Sonarr Queue (JObj [])); reflexivity.
  - apply (emits_command_tool _ _ RefreshSeries); [reflexivity | simpl; tauto].
  - apply (emits_command_tool _ _ SeriesSearch); [reflexivity | simpl; tauto].
  - apply (emits_read_tool _ _ Radarr Recent); reflexivity.
  - apply (emits_read_tool _ _ Radarr Calendar); reflexivity.
  - apply (emits_read_tool _ _ Radarr Search); reflexivity.
  - apply (emits_read_tool _ _ Radarr Status (JObj [])); reflexivity.
  - apply (emits_read_tool _ _ Radarr Queue (JObj [])); reflexivity.
  - apply (emits_command_tool _ _ RefreshMovie); [reflexivity | simpl; tauto].
  - apply (emits_command_tool _ _ MoviesSearch); [reflexivity | simpl; tauto].
  - apply (emits_weaken _ 0); [lia | apply emits_ret].
Qed.

(** X3.  Whatever the tool name and the argument bag, [call_tool] only
    appends to the trace, at most two requests, each addressed to the
    backend the tool belongs to with that backend's key; a POST is sent
    only by the four command tools. *)
Theorem call_tool_requests self name arguments w t :
  exists new,
    snd (call_tool self name arguments w t) = (t ++ new)%list
    /\ (List.length new <= 2)%nat
    /\ (forall q, In q new ->
          exists b meth,
            tool_service name = Some b
            /\ from_backend b self meth q
            /\ (meth = POST -> In name command_tools)).
Proof.
  unfold call_tool.
  destruct (call_tool_body self name arguments w t) as [[r|e] t1] eqn:E;
    destruct (emits_call_tool_body self name arguments w t _ _ E) as (new & -> & HF & Hl);
    exists new; (split; [reflexivity|]); (split; [exact Hl|]);
    intros q Hq; rewrite Forall_forall in HF; exact (HF q Hq).
Qed.

(* ================================================================= *)
(** ** Tool names: unknown, listed, served *)

Lemma call_tool_unknown self name arguments w t :
  ~ In name (sonarr_tools ++ radarr_tools)%list ->
  call_tool self name arguments w t = (text_content ("Unknown tool: " ++ name), t).
Proof.
  intros Hn. unfold call_tool, call_tool_body.
  repeat match goal with
    | |- context [if String.eqb name ?lit then _ else _] =>
        destruct (String.eqb_spec name lit) as [-> | _];
          [exfalso; apply Hn; simpl; tauto|]
    end.
  reflexivity.
Qed.

(** X4.  A name outside the fourteen gets the unknown-tool answer,
    whatever the configuration and the argument bag, and nothing is
    sent. *)
Theorem unknown_tool_answer self name arguments w t :
  ~ In name (sonarr_tools ++ radarr_tools)%list ->
  call_tool self name arguments w t = (text_content ("Unknown tool: " ++ name), t).
Proof. apply call_tool_unknown. Qed.

Lemma unknown_tool_witness :
  call_tool Sample.mcp "sonarr_delete_series" (JObj [("series_id", JNum 1)])
    (Sample.serving Sample.library) []
  = (text_content "Unknown tool: sonarr_delete_series", []).
Proof.
  apply (unknown_tool_answer Sample.mcp "sonarr_delete_series").
  simpl. intros H.
  repeat (destruct H as [H | H]; [discriminate H|]). exact H.
Defined.

(** A tool whose backend has its client is served: the answer is none
    of the three refusals. *)
Lemma served_tool_is_not_refused (b : service) self cl name arguments w t :
  In name (service_tools b) ->
  service_client b self = Some cl ->
  forall s, fst (call_tool self name arguments w t) = text_content s -> ~ refusal name s.
Proof.
  intros Hin Hc s H Hbad.
  unfold call_tool in H.
  destruct (call_tool_body self name arguments w t) as [[r|e] t1] eqn:E; cbn [fst] in H.
  - subst r.
    destruct b; cbn [service_tools service_client] in *;
      repeat (destruct Hin as [<- | Hin];
        [ unfold call_tool_body in E; cbn [String.eqb Ascii.eqb Bool.eqb] in E;
          rewrite Hc in E; unfold guarded in E;
          apply bind_inv in E;
          destruct E as [(s' & t2 & Hrun & E) | (? & _ & E)]; [|discriminate E];
          apply ret_inv in E; destruct E as [E _]; injection E as E; subst s';
          unfold get_recent_series, get_sonarr_calendar, search_sonarr_series,
            get_sonarr_status, get_sonarr_queue, refresh_sonarr_series,
            search_sonarr_episodes, get_recent_movies, get_radarr_calendar,
            search_radarr_movies, get_radarr_status, get_radarr_queue,
            refresh_radarr_movie, search_radarr_movie in Hrun;
          (destruct Hbad as [-> | [-> | ->]]; cbn [append] in Hrun;
           inv_M Hrun; other_text Hrun)
        | ]);
      contradiction.
  - unfold text_content in H. injection H as <-.
    destruct Hbad as [Hb | [Hb | Hb]]; discriminate Hb.
Qed.

Lemma list_tools_spec self name :
  In name (list_tools self) <->
  exists b cl, In name (service_tools b) /\ service_client b self = Some cl.
Proof.
  unfold list_tools. rewrite in_app_iff. split.
  - intros [H | H].
    + destruct (sonarr_client self) as [cl|] eqn:E; [|contradiction].
      now exists Sonarr, cl.
    + destruct (radarr_client self) as [cl|] eqn:E; [|contradiction].
      now exists Radarr, cl.
  - intros (b & cl & Hin & Hc). destruct b; cbn [service_tools service_client] in *;
      rewrite Hc; auto.
Qed.

(** X5.  [list_tools] offers a name exactly when [call_tool] never refuses
    it: never "Unknown tool", never "not configured". *)
Theorem list_tools_agrees_with_call_tool self name :
  In name (list_tools self) <->
  (forall arguments w t s,
      fst (call_tool self name arguments w t) = text_content s -> ~ refusal name s).
Proof.
  split.
  - intros H. apply list_tools_spec in H. destruct H as (b & cl & Hin & Hc).
    intros arguments w t. now apply (served_tool_is_not_refused b self cl).
  - intros H.
    pose (w := mkWorld (fun _ => ConnectFailure "") 0).
    destruct (in_dec string_dec name (sonarr_tools ++ radarr_tools)%list) as [Hin | Hout].
    + apply in_app_iff in Hin.
      assert (Hb : exists b, In name (service_tools b)) by
          (destruct Hin; [now exists Sonarr | now exists Radarr]).
      destruct Hb as [b Hb].
      destruct (service_client b self) as [cl|] eqn:Hc.
      * apply list_tools_spec. now exists b, cl.
      * exfalso.
        apply (H JNull w [] (service_name b ++ " is not configured")).
        -- now rewrite (call_tool_unconfigured b self name JNull w [] Hc Hb).
        -- destruct b; [left | right; left]; reflexivity.
    + exfalso. apply (H JNull w [] ("Unknown tool: " ++ name)).
      * now rewrite (call_tool_unknown self name JNull w [] Hout).
      * right; right; reflexivity.
Qed.

(** X6.  After start-up, [list_tools] offers the seven tools of a backend
    exactly when its URL and its API key are both non-empty. *)
Theorem list_tools_of_configuration (c : Config) (b : service) name :
  In name (service_tools b) ->
  (In name (list_tools (SonarrRadarrMCP_init c)) <->
   service_url b c <> "" /\ service_key b c <> "").
Proof.
  intros Hin. rewrite list_tools_spec. split.
  - intros (b' & cl & Hin' & Hc).
    assert (b' = b) as ->.
    { destruct b, b'; try reflexivity; exfalso; simpl in Hin, Hin';
        repeat (destruct Hin as [<- | Hin];
                [repeat (destruct Hin' as [Hx | Hin']; [discriminate Hx|]); exact Hin'|]);
        exact Hin. }
    split; intros E; rewrite (init_client_none b c) in Hc by auto; discriminate Hc.
  - intros [Hu Hk]. exists b. eexists. split; [exact Hin|].
    now apply init_client_some.
Qed.

Lemma list_tools_of_configuration_witness :
  In "radarr_get_queue" (list_tools (SonarrRadarrMCP_init Sample.both)).
Proof.
  apply (proj2 (list_tools_of_configuration Sample.both Radarr "radarr_get_queue"
                  ltac:(simpl; tauto))).
  split; discriminate.
Defined.

(* ================================================================= *)
(** ** Defaults, and the two transports side by side *)

Lemma default_days_cases name d :
  default_days name = Some d ->
  (name = "sonarr_get_recent_series" /\ d = 7)
  \/ (name = "sonarr_get_calendar" /\ d = 7)
  \/ (name = "radarr_get_recent_movies" /\ d = 7)
  \/ (name = "radarr_get_calendar" /\ d = 30).
Proof.
  unfold default_days.
  repeat match goal with
    | |- context [String.eqb name ?lit] =>
        destruct (String.eqb_spec name lit) as [-> | _];
          [intros H; injection H as <-; tauto|]
    end.
  discriminate.
Qed.

(** X7.  Leaving [days] out of the argument bag is the same as passing 7,
    or 30 for the movie calendar. *)
Theorem omitted_days_take_the_default self name d fields w t :
  default_days name = Some d ->
  Py.lookup "days" fields = None ->
  call_tool self name (JObj fields) w t
  = call_tool self name (JObj (("days", JNum d) :: fields)) w t.
Proof.
  intros Hd Hl. apply default_days_cases in Hd.
  destruct Hd as [[-> ->] | [[-> ->] | [[-> ->] | [-> ->]]]];
    unfold call_tool, call_tool_body; cbn [String.eqb Ascii.eqb Bool.eqb];
    unfold guarded, bind, lift, Dyn.get; cbn [Py.lookup String.eqb Ascii.eqb Bool.eqb];
    rewrite Hl; reflexivity.
Qed.

Lemma omitted_days_witness :
  call_tool Sample.mcp "radarr_get_calendar" (JObj []) (Sample.serving (JArr [])) []
  = call_tool Sample.mcp "radarr_get_calendar" (JObj [("days", JNum 30)])
      (Sample.serving (JArr [])) [].
Proof.
  exact (omitted_days_take_the_default Sample.mcp "radarr_get_calendar" 30 []
           (Sample.serving (JArr [])) [] eq_refl eq_refl).
Defined.

(** No report of a reading operation begins like an error text. *)
Lemma read_result_is_no_error_text (b : service) (o : read_op) self arg w t s t' :
  run_read b o self arg w t = (Ok s, t') -> ~ begins_with s "Error: ".
Proof.
  intros H [tail ->].
  destruct b, o; cbn [run_read get_recent get_calendar search get_status get_queue] in H;
    unfold get_recent_series, get_sonarr_calendar, search_sonarr_series,
      get_sonarr_status, get_sonarr_queue, get_recent_movies, get_radarr_calendar,
      search_radarr_movies, get_radarr_status, get_radarr_queue in H;
    cbn [append] in H; inv_M H; other_text H.
Qed.

(** The [try] of a route and the [try] of [call_tool] around the same
    operation: a result goes out as [{"result": ...}] with 200 and as
    the text itself, an exception as [{"error": ...}] with 500 and as
    the text after "Error: ". *)
Lemma try_blocks_agree (b : service) (o : read_op) mcp arg name arguments r request w t :
  call_tool_body mcp name arguments w t
  = (result <- run_read b o mcp arg ;; ret (text_content result)) w t ->
  Http.endpoint r (Some mcp) request w t = Http.try_result (run_read b o mcp arg) w t ->
  match call_tool_body mcp name arguments w t with
  | (Ok answer, t') =>
      exists s,
        answer = text_content s
        /\ ~ begins_with s "Error: "
        /\ call_tool mcp name arguments w t = (text_content s, t')
        /\ Http.endpoint r (Some mcp) request w t
           = (Ok (Http.mkJSONResponse (JObj [("result", JStr s)]) 200), t')
  | (Raise e, t') =>
      call_tool mcp name arguments w t = (text_content ("Error: " ++ str_exn e), t')
      /\ Http.endpoint r (Some mcp) request w t
         = (Ok (Http.mkJSONResponse (JObj [("error", JStr (str_exn e))]) 500), t')
  end.
Proof.
  intros H1 H2. unfold call_tool. rewrite H1, H2.
  unfold bind, ret, Http.try_result.
  destruct (run_read b o mcp arg w t) as [[s|e] t1] eqn:Er; [|split; reflexivity].
  exists s. split; [reflexivity|]. split; [|split; reflexivity].
  now apply (read_result_is_no_error_text b o mcp arg w t s t1).
Qed.

(** X8.  With its backend configured, a route and the tool behind it do
    the same on the same input and send the same requests.  Where the
    [try] block of [call_tool] returns the report [s], [call_tool]
    answers [s], which never begins with "Error: ", and the route
    answers [{"result": s}] with status 200; where it raises [e],
    [call_tool] answers "Error: " followed by [str(e)] and the route
    answers [{"error": str(e)}] with status 500. *)
Theorem transports_agree (r : Http.route) mcp request arguments w t :
  Http.ready_with (Some mcp) (service_client (route_service r)) = Some mcp ->
  route_arguments r request = Some arguments ->
  match call_tool_body mcp (route_tool r) arguments w t with
  | (Ok answer, t') =>
      exists s,
        answer = text_content s
        /\ ~ begins_with s "Error: "
        /\ call_tool mcp (route_tool r) arguments w t = (text_content s, t')
        /\ Http.endpoint r (Some mcp) request w t
           = (Ok (Http.mkJSONResponse (JObj [("result", JStr s)]) 200), t')
  | (Raise e, t') =>
      call_tool mcp (route_tool r) arguments w t = (text_content ("Error: " ++ str_exn e), t')
      /\ Http.endpoint r (Some mcp) request w t
         = (Ok (Http.mkJSONResponse (JObj [("error", JStr (str_exn e))]) 500), t')
  end.
Proof.
  intros E Ha.
  destruct (ready_with_Some _ _ _ E) as [_ [cl Hc]].
  assert (Hread : exists arg,
            call_tool_body mcp (route_tool r) arguments w t
            = (result <- run_read (route_service r) (route_op r) mcp arg ;;
               ret (text_content result)) w t
            /\ Http.endpoint r (Some mcp) request w t
               = Http.try_result (run_read (route_service r) (route_op r) mcp arg) w t).
  { destruct r; cbn [Http.endpoint route_service service_client route_tool route_op] in *;
      match goal with |- context [?f (Some mcp) request w t] => unfold f end; rewrite E;
      unfold call_tool_body; cbn [String.eqb Ascii.eqb Bool.eqb];
      rewrite Hc; unfold guarded; unfold route_arguments in Ha;
      unfold Http.int_param;
      repeat match type of Ha with
        | match ?x with _ => _ end = _ => destruct x eqn:?; try discriminate Ha
        end;
      injection Ha as <-;
      unfold Dyn.get, Dyn.getitem;
      cbn [Py.lookup String.eqb Ascii.eqb Bool.eqb PyStr.is_empty];
      first [ exists JNull; split; reflexivity | eexists; split; reflexivity ]. }
  destruct Hread as (arg & H1 & H2).
  exact (try_blocks_agree (route_service r) (route_op r) mcp arg (route_tool r) arguments
           r request w t H1 H2).
Qed.

Lemma transports_agree_witness :
  call_tool Sample.mcp "sonarr_search_series" (JObj [("query", JStr "alp")])
    (Sample.serving Sample.library) []
  = (text_content ("Series matching 'alp':" ++ nl ++ nl
                   ++ "- Alpha (N/A)" ++ nl ++ "  Status: continuing" ++ nl
                   ++ "  Seasons: 0" ++ nl ++ "  ID: 1" ++ nl ++ nl),
     [get_request Sample.sonarr "series"])
  /\ Http.endpoint Http.SonarrSearch (Some Sample.mcp) (Http.mkHttpRequest [("query", "alp")])
       (Sample.serving Sample.library) []
     = (Ok (Http.mkJSONResponse
              (JObj [("result",
                      JStr ("Series matching 'alp':" ++ nl ++ nl
                            ++ "- Alpha (N/A)" ++ nl ++ "  Status: continuing" ++ nl
                            ++ "  Seasons: 0" ++ nl ++ "  ID: 1" ++ nl ++ nl))]) 200),
        [get_request Sample.sonarr "series"])
  /\ call_tool Sample.mcp "sonarr_get_queue" (JObj []) (Sample.unreachable "timed out") []
     = (text_content "Error: timed out", [get_request Sample.sonarr "queue"])
  /\ Http.endpoint Http.SonarrQueue (Some Sample.mcp) (Http.mkHttpRequest [])
       (Sample.unreachable "timed out") []
     = (Ok (Http.mkJSONResponse (JObj [("error", JStr "timed out")]) 500),
        [get_request Sample.sonarr "queue"]).
Proof.
  pose proof (transports_agree Http.SonarrSearch Sample.mcp
                (Http.mkHttpRequest [("query", "alp")]) (JObj [("query", JStr "alp")])
                (Sample.serving Sample.library) [] eq_refl eq_refl) as Hok.
  pose proof (transports_agree Http.SonarrQueue Sample.mcp (Http.mkHttpRequest []) (JObj [])
                (Sample.unreachable "timed out") [] eq_refl eq_refl) as Hfail.
  cbn [route_tool] in Hok, Hfail.
  destruct (call_tool_body Sample.mcp "sonarr_search_series" (JObj [("query", JStr "alp")])
              (Sample.serving Sample.library) []) as [[answer|e] t'] eqn:E1;
    [|vm_compute in E1; discriminate E1].
  destruct Hok as (s & Hs & _ & Hc & Hr).
  vm_compute in E1. injection E1 as <- <-. unfold text_content in Hs. injection Hs as <-.
  destruct (call_tool_body Sample.mcp "sonarr_get_queue" (JObj [])
              (Sample.unreachable "timed out") []) as [[answer|e] t'] eqn:E2;
    [vm_compute in E2; discriminate E2|].
  destruct Hfail as (Hc' & Hr').
  vm_compute in E2. injection E2 as <- <-.
  repeat split; assumption.
Defined.

(* ================================================================= *)
(** ** System status *)

Lemma client_get_spec cl endpoint w t :
  client_get (Some cl) endpoint None w t
  = (decode (backend w (get_request cl endpoint)), (t ++ [get_request cl endpoint])%list).
Proof.
  unfold client_get, APIClient_get. rewrite APIClient_request_spec. reflexivity.
Qed.

Lemma get_status_spec (b : service) self cl w t :
  service_client b self = Some cl ->
  get_status b self w t
  = match decode (backend w (get_request cl "system/status")) with
    | Raise e => (Raise e, (t ++ [get_request cl "system/status"])%list)
    | Ok status =>
        (disk_space <~ decode (backend w (get_request cl "diskspace")) ;;
         render_status (service_name b) status disk_space,
         (t ++ [get_request cl "system/status"; get_request cl "diskspace"])%list)
    end.
Proof.
  intros Hc.
  destruct b; cbn [service_client get_status service_name] in *;
    unfold get_sonarr_status, get_radarr_status;
    rewrite Hc; unfold bind; rewrite client_get_spec;
    (destruct (decode (backend w (get_request cl "system/status"))) as [status|e];
       [|reflexivity]);
    rewrite client_get_spec, <- app_assoc; cbn [app];
    destruct (decode (backend w (get_request cl "diskspace"))); reflexivity.
Qed.

Lemma render_disk_total disk : volume disk -> exists line, render_disk disk = Ok line.
Proof.
  intros (fields & free & total & path & -> & Hf & Ht & Hp & Bf & Bt).
  unfold render_disk, Dyn.getitem. rewrite Hf, Ht, Hp.
  cbn [bindR PyFloat.format_2f_json]. rewrite !format_2f_exact by lia.
  cbn [bindR]. eauto.
Qed.

(** X9.  [status()] of either backend asks for the system status and then
    for the disk space.  When the first answer is a failure the second
    request is never sent.  When both answers are in, the report gives
    the version, the OS and runtime names ("Unknown" for a missing one)
    and one line per volume, in the order received; on volumes as the
    backends report them the report is always produced. *)
Theorem status_report (b : service) self cl w t :
  service_client b self = Some cl ->
  (forall e,
      decode (backend w (get_request cl "system/status")) = Raise e ->
      get_status b self w t = (Raise e, (t ++ [get_request cl "system/status"])%list))
  /\ (forall sf v disks lines,
        decode (backend w (get_request cl "system/status")) = Ok (JObj sf) ->
        decode (backend w (get_request cl "diskspace")) = Ok (JArr disks) ->
        Py.lookup "version" sf = Some v ->
        mapR render_disk disks = Ok lines ->
        get_status b self w t
        = (Ok (status_text b v sf lines),
           (t ++ [get_request cl "system/status"; get_request cl "diskspace"])%list)
        /\ List.length lines = List.length disks)
  /\ (forall sf j,
        decode (backend w (get_request cl "system/status")) = Ok (JObj sf) ->
        decode (backend w (get_request cl "diskspace")) = Ok j ->
        Py.lookup "version" sf = None ->
        get_status b self w t
        = (Raise (KeyError "version"),
           (t ++ [get_request cl "system/status"; get_request cl "diskspace"])%list))
  /\ (forall sf v disks,
        decode (backend w (get_request cl "system/status")) = Ok (JObj sf) ->
        decode (backend w (get_request cl "diskspace")) = Ok (JArr disks) ->
        Py.lookup "version" sf = Some v ->
        Forall volume disks ->
        exists lines,
          mapR render_disk disks = Ok lines
          /\ get_status b self w t
             = (Ok (status_text b v sf lines),
                (t ++ [get_request cl "system/status"; get_request cl "diskspace"])%list)).
Proof.
  intros Hc. rewrite (get_status_spec b self cl w t Hc).
  assert (Hreport : forall sf v disks lines,
            decode (backend w (get_request cl "system/status")) = Ok (JObj sf) ->
            decode (backend w (get_request cl "diskspace")) = Ok (JArr disks) ->
            Py.lookup "version" sf = Some v ->
            mapR render_disk disks = Ok lines ->
            (r <~ decode (backend w (get_request cl "system/status")) ;;
             d <~ decode (backend w (get_request cl "diskspace")) ;;
             render_status (service_name b) r d)
            = Ok (status_text b v sf lines)).
  { intros sf v disks lines Hs Hd Hv Hl. rewrite Hs, Hd.
    cbn [bindR]. unfold render_status, status_text, field_or, Dyn.getitem, Dyn.get.
    rewrite Hv. cbn [bindR Dyn.iter]. rewrite Hl.
    destruct (Py.lookup "osName" sf), (Py.lookup "runtimeName" sf); reflexivity. }
  split; [|split; [|split]].
  - intros e He. now rewrite He.
  - intros sf v disks lines Hs Hd Hv Hl. split.
    + pose proof (Hreport sf v disks lines Hs Hd Hv Hl) as H.
      rewrite Hs in H |- *. cbn [bindR] in H |- *. now rewrite H.
    + now apply mapR_length in Hl.
  - intros sf j Hs Hd Hv. rewrite Hs, Hd. cbn [bindR].
    unfold render_status, Dyn.getitem. rewrite Hv. reflexivity.
  - intros sf v disks Hs Hd Hv Hvol.
    destruct (mapR_total render_disk disks) as [lines Hl].
    { eapply Forall_impl; [|exact Hvol]. apply render_disk_total. }
    exists lines. split; [exact Hl|].
    pose proof (Hreport sf v disks lines Hs Hd Hv Hl) as H.
    rewrite Hs in H |- *. cbn [bindR] in H |- *. now rewrite H.
Qed.

(** An unreachable backend, and a backend with one volume. *)
Lemma status_report_witness :
  get_status Radarr Sample.mcp
    (Sample.unreachable "All connection attempts failed") []
  = (Raise (TransportError "All connection attempts failed"),
     [get_request Sample.radarr "system/status"])
  /\ get_status Sonarr Sample.mcp
       (mkWorld (fun r =>
                   if String.eqb (req_url r) "http://sonarr:8989/api/v3/diskspace"
                   then Response 200 (BodyJson
                          (JArr [JObj [("path", JStr "/data"); ("freeSpace", JNum 1610612736);
                                       ("totalSpace", JNum 10737418240)]]))
                   else Response 200 (BodyJson (JObj [("version", JStr "4.0.1")])))
                Sample.clock) []
     = (Ok ("Sonarr System Status:" ++ nl ++ nl
            ++ "Version: 4.0.1" ++ nl ++ "OS: Unknown" ++ nl ++ "Runtime: Unknown" ++ nl ++ nl
            ++ "Disk Space:" ++ nl
            ++ "- /data: 1.50 GB free of 10.00 GB" ++ nl),
        [get_request Sample.sonarr "system/status"; get_request Sample.sonarr "diskspace"]).
Proof.
  split.
  - exact (proj1 (status_report Radarr Sample.mcp Sample.radarr
                    (Sample.unreachable "All connection attempts failed") [] eq_refl)
             _ eq_refl).
  - pose proof (status_report Sonarr Sample.mcp Sample.sonarr
                  (mkWorld (fun r =>
                     if String.eqb (req_url r) "http://sonarr:8989/api/v3/diskspace"
                     then Response 200 (BodyJson
                            (JArr [JObj [("path", JStr "/data");
                                         ("freeSpace", JNum 1610612736);
                                         ("totalSpace", JNum 10737418240)]]))
                     else Response 200 (BodyJson (JObj [("version", JStr "4.0.1")])))
                  Sample.clock) [] eq_refl) as (_ & _ & _ & Hfull).
    destruct (Hfull [("version", JStr "4.0.1")] (JStr "4.0.1")
                [JObj [("path", JStr "/data"); ("freeSpace", JNum 1610612736);
                       ("totalSpace", JNum 10737418240)]] eq_refl eq_refl eq_refl)
      as (lines & Hl & Hrun).
    { constructor; [|constructor].
      exists [("path", JStr "/data"); ("freeSpace", JNum 1610612736);
              ("totalSpace", JNum 10737418240)], 1610612736, 10737418240, (JStr "/data").
      repeat split; reflexivity. }
    vm_compute in Hl. injection Hl as <-. exact Hrun.
Defined.

(** X10.  A disk line shows the free and the total space as the number of
    hundredths nearest to bytes / 1024^3, with two decimals. *)
Theorem disk_line_gigabytes fields free total path :
  Py.lookup "freeSpace" fields = Some (JNum free) ->
  Py.lookup "totalSpace" fields = Some (JNum total) ->
  Py.lookup "path" fields = Some path ->
  Z.abs free < 2 ^ 53 -> Z.abs total < 2 ^ 53 ->
  exists hf ht,
    render_disk (JObj fields)
    = Ok ("- " ++ Py.str path ++ ": " ++ two_decimals (free <? 0) hf
          ++ " GB free of " ++ two_decimals (total <? 0) ht ++ " GB" ++ nl)
    /\ 0 <= hf /\ 2 * Z.abs (hf * 1024 ^ 3 - 100 * Z.abs free) <= 1024 ^ 3
    /\ 0 <= ht /\ 2 * Z.abs (ht * 1024 ^ 3 - 100 * Z.abs total) <= 1024 ^ 3.
Proof.
  intros Hf Ht Hp Bf Bt.
  exists (PyFloat.round_half_even (Z.abs free * 100) (2 ^ 30)),
         (PyFloat.round_half_even (Z.abs total * 100) (2 ^ 30)).
  split.
  - unfold render_disk, Dyn.getitem. rewrite Hf, Ht, Hp.
    cbn [bindR PyFloat.format_2f_json]. rewrite !format_2f_exact by lia. reflexivity.
  - replace (1024 ^ 3) with (2 ^ 30) by reflexivity.
    pose proof (round_half_even_close (Z.abs free * 100) (2 ^ 30)
                  ltac:(lia) ltac:(reflexivity)) as [F0 F1].
    pose proof (round_half_even_close (Z.abs total * 100) (2 ^ 30)
                  ltac:(lia) ltac:(reflexivity)) as [T0 T1].
    replace (100 * Z.abs free) with (Z.abs free * 100) by lia.
    replace (100 * Z.abs total) with (Z.abs total * 100) by lia. auto.
Qed.

Lemma disk_line_gigabytes_witness :
  exists hf ht,
    render_disk (JObj [("path", JStr "/data"); ("freeSpace", JNum 1610612736);
                       ("totalSpace", JNum 10737418240)])
    = Ok ("- /data: " ++ two_decimals false hf ++ " GB free of "
          ++ two_decimals false ht ++ " GB" ++ nl)
    /\ 0 <= hf /\ 2 * Z.abs (hf * 1024 ^ 3 - 100 * Z.abs 1610612736) <= 1024 ^ 3
    /\ 0 <= ht /\ 2 * Z.abs (ht * 1024 ^ 3 - 100 * Z.abs 10737418240) <= 1024 ^ 3.
Proof.
  exact (disk_line_gigabytes
           [("path", JStr "/data"); ("freeSpace", JNum 1610612736);
            ("totalSpace", JNum 10737418240)]
           1610612736 10737418240 (JStr "/data") eq_refl eq_refl eq_refl eq_refl eq_refl).
Defined.

Example status_run :
  fst (get_status Sonarr Sample.mcp
         (mkWorld (fun r =>
                     if String.eqb (req_url r) "http://sonarr:8989/api/v3/diskspace"
                     then Response 200 (BodyJson
                            (JArr [JObj [("path", JStr "/data"); ("freeSpace", JNum 1610612736);
                                         ("totalSpace", JNum 10737418240)]]))
                     else Response 200 (BodyJson (JObj [("version", JStr "4.0.1")])))
                  Sample.clock) [])
  = Ok ("Sonarr System Status:" ++ nl ++ nl
        ++ "Version: 4.0.1" ++ nl ++ "OS: Unknown" ++ nl ++ "Runtime: Unknown" ++ nl ++ nl
        ++ "Disk Space:" ++ nl
        ++ "- /data: 1.50 GB free of 10.00 GB" ++ nl).
Proof. vm_compute. reflexivity. Qed.

(* ================================================================= *)
(** ** Calendar *)

Lemma client_get_params_spec cl endpoint params w t :
  client_get (Some cl) endpoint (Some params) w t
  = (decode (backend w (mkRequest GET (base_url cl ++ "/api/v3/" ++ endpoint)
                          [("X-Api-Key", api_key cl)] (Some params) None)),
     (t ++ [mkRequest GET (base_url cl ++ "/api/v3/" ++ endpoint)
              [("X-Api-Key", api_key cl)] (Some params) None])%list).
Proof.
  unfold client_get, APIClient_get. rewrite APIClient_request_spec. reflexivity.
Qed.

Lemma get_calendar_spec (b : service) self cl days d w t :
  service_client b self = Some cl ->
  PyDatetime.timedelta_days days = Ok d ->
  0 <= now w + d * PyDatetime.us_per_day <= PyDatetime.max_wall ->
  get_calendar b self days w t
  = (calendar <~ decode (backend w (calendar_request cl (now w) d)) ;;
     if negb (Py.truthy calendar) then Ok (calendar_nothing b days)
     else entries <~ Dyn.iter calendar ;;
          blocks <~ mapR (render_calendar_entry b) entries ;;
          Ok (calendar_listing b days (String.concat "" blocks)),
     (t ++ [calendar_request cl (now w) d])%list).
Proof.
  intros Hc Hd Hr.
  assert (Hp : calendar_params days w t
               = (Ok [("start", PyDatetime.isoformat (now w));
                      ("end", PyDatetime.isoformat (now w + d * PyDatetime.us_per_day))], t)).
  { unfold calendar_params, bind, datetime_now, lift, ret. rewrite Hd.
    unfold PyDatetime.shift_days.
    destruct (Z.leb_spec 0 (now w + d * PyDatetime.us_per_day)); [|lia].
    destruct (Z.leb_spec (now w + d * PyDatetime.us_per_day) PyDatetime.max_wall); [|lia].
    reflexivity. }
  destruct b; cbn [service_client get_calendar render_calendar_entry calendar_nothing
                     calendar_listing] in *;
    unfold get_sonarr_calendar, get_radarr_calendar;
    rewrite Hc; unfold bind at 1; rewrite Hp;
    unfold bind at 1; rewrite client_get_params_spec;
    match goal with
    | |- context [backend w ?r] => change r with (calendar_request cl (now w) d)
    end;
    (destruct (decode (backend w (calendar_request cl (now w) d))) as [calendar|e];
       [|reflexivity]);
    cbn [bindR]; (destruct (Py.truthy calendar); [|reflexivity]);
    unfold bind, lift, ret; cbn [negb];
    (destruct (Dyn.iter calendar) as [entries|e]; [|reflexivity]); cbn [bindR];
    match goal with |- context [mapR ?f entries] => destruct (mapR f entries) end;
    reflexivity.
Qed.

Lemma render_calendar_entry_total (b : service) entry :
  calendar_entry b entry -> exists block, render_calendar_entry b entry = Ok block.
Proof.
  intros (fields & -> & Hb). destruct b; cbn [render_calendar_entry].
  - destruct Hb as (sf & title & sn & en & Hs & Ht & Hsn & Hen).
    unfold render_episode, Dyn.getitem, Dyn.get. rewrite Hs, Hsn, Hen.
    destruct (Py.lookup "airDateUtc" fields); cbn [bindR]; rewrite Ht;
      cbn [bindR Dyn.format_02d];
      destruct (Py.lookup "title" fields); cbn [bindR]; eauto.
  - destruct Hb as (title & status & Ht & Hs).
    unfold render_release, Dyn.getitem, Dyn.get. rewrite Ht, Hs. cbn [bindR].
    destruct (Py.lookup "year" fields), (Py.lookup "inCinemas" fields); cbn [bindR]; eauto.
Qed.

(** X11.  [calendar(days)] of either backend, for an integer [days] whose
    window stays within the calendar, sends exactly one GET to
    [calendar] with [start] = now and [end] = now + [days] days in ISO
    form.  An empty answer gives the fixed sentence; otherwise every
    entry is rendered, in the order received and without a cap, and on
    entries as the backends send them the listing is always produced. *)
Theorem calendar_window (b : service) self cl days d w t :
  service_client b self = Some cl ->
  PyDatetime.timedelta_days days = Ok d ->
  0 <= now w + d * PyDatetime.us_per_day <= PyDatetime.max_wall ->
  snd (get_calendar b self days w t) = (t ++ [calendar_request cl (now w) d])%list
  /\ (forall status,
        backend w (calendar_request cl (now w) d) = Response status (BodyJson (JArr [])) ->
        is_success status = true ->
        fst (get_calendar b self days w t) = Ok (calendar_nothing b days))
  /\ (forall status entry entries blocks,
        backend w (calendar_request cl (now w) d)
        = Response status (BodyJson (JArr (entry :: entries))) ->
        is_success status = true ->
        mapR (render_calendar_entry b) (entry :: entries) = Ok blocks ->
        fst (get_calendar b self days w t)
        = Ok (calendar_listing b days (String.concat "" blocks))
        /\ List.length blocks = S (List.length entries))
  /\ (forall status entry entries,
        backend w (calendar_request cl (now w) d)
        = Response status (BodyJson (JArr (entry :: entries))) ->
        is_success status = true ->
        Forall (calendar_entry b) (entry :: entries) ->
        exists blocks,
          mapR (render_calendar_entry b) (entry :: entries) = Ok blocks
          /\ fst (get_calendar b self days w t)
             = Ok (calendar_listing b days (String.concat "" blocks))).
Proof.
  intros Hc Hd Hr. rewrite (get_calendar_spec b self cl days d w t Hc Hd Hr).
  split; [reflexivity|]. split; [|split].
  - intros status Hb Hs. rewrite Hb. cbn [fst decode]. rewrite Hs. reflexivity.
  - intros status entry entries blocks Hb Hs Hm. rewrite Hb. cbn [fst decode]. rewrite Hs.
    cbn [bindR Py.truthy negb Dyn.iter]. rewrite Hm. split; [reflexivity|].
    now apply mapR_length in Hm.
  - intros status entry entries Hb Hs He.
    destruct (mapR_total (render_calendar_entry b) (entry :: entries)) as [blocks Hm].
    { eapply Forall_impl; [|exact He]. apply render_calendar_entry_total. }
    exists blocks. split; [exact Hm|].
    rewrite Hb. cbn [fst decode]. rewrite Hs.
    cbn [bindR Py.truthy negb Dyn.iter]. rewrite Hm. reflexivity.
Qed.

(** The movie calendar with nothing in it, and the episode calendar
    with two entries. *)
Lemma calendar_window_witness :
  get_calendar Radarr Sample.mcp (JNum 30) (Sample.serving (JArr [])) []
  = (Ok "No movies releasing in the next 30 days.",
     [mkRequest GET "http://radarr:7878/api/v3/calendar" [("X-Api-Key", "k2")]
        (Some [("start", "2024-01-15T10:30:00"); ("end", "2024-02-14T10:30:00")]) None])
  /\ fst (get_calendar Sonarr Sample.mcp (JNum 7)
            (Sample.serving
               (JArr [JObj [("series", JObj [("title", JStr "Alpha")]);
                            ("seasonNumber", JNum 1); ("episodeNumber", JNum 12);
                            ("title", JStr "Pilot"); ("airDateUtc", JStr "2024-01-16T02:00:00Z")];
                      JObj [("series", JObj [("title", JStr "Beta")]);
                            ("seasonNumber", JNum 10); ("episodeNumber", JNum 3)]])) [])
     = Ok ("Upcoming episodes (next 7 days):" ++ nl ++ nl
           ++ "- Alpha - S01E12" ++ nl ++ "  Title: Pilot" ++ nl
           ++ "  Airs: 2024-01-16T02:00:00Z" ++ nl ++ nl
           ++ "- Beta - S10E03" ++ nl ++ "  Title: TBA" ++ nl
           ++ "  Airs: Unknown" ++ nl ++ nl).
Proof.
  split.
  - pose proof (calendar_window Radarr Sample.mcp Sample.radarr (JNum 30) 30
                  (Sample.serving (JArr [])) [] eq_refl eq_refl
                  ltac:(split; discriminate)) as (Ht & He & _).
    specialize (He 200 eq_refl eq_refl).
    destruct (get_calendar Radarr Sample.mcp (JNum 30) (Sample.serving (JArr [])) [])
      as [r tr].
    cbn [fst snd] in Ht, He. subst. reflexivity.
  - pose proof (calendar_window Sonarr Sample.mcp Sample.sonarr (JNum 7) 7
                  (Sample.serving
                     (JArr [JObj [("series", JObj [("title", JStr "Alpha")]);
                                  ("seasonNumber", JNum 1); ("episodeNumber", JNum 12);
                                  ("title", JStr "Pilot");
                                  ("airDateUtc", JStr "2024-01-16T02:00:00Z")];
                            JObj [("series", JObj [("title", JStr "Beta")]);
                                  ("seasonNumber", JNum 10); ("episodeNumber", JNum 3)]]))
                  [] eq_refl eq_refl ltac:(split; discriminate)) as (_ & _ & _ & Hfull).
    destruct (Hfull 200 _ _ eq_refl eq_refl) as (blocks & Hm & Hrun).
    { constructor; [|constructor; [|constructor]].
      - eexists. split; [reflexivity|].
        exists [("title", JStr "Alpha")], (JStr "Alpha"), 1, 12. repeat split; reflexivity.
      - eexists. split; [reflexivity|].
        exists [("title", JStr "Beta")], (JStr "Beta"), 10, 3. repeat split; reflexivity. }
    vm_compute in Hm. injection Hm as <-. exact Hrun.
Defined.



Lemma get_default fields key default v :
  Dyn.get (JObj fields) key default = Ok v -> v = field_or key default fields.
Proof.
  unfold Dyn.get, field_or. destruct (Py.lookup key fields); intros H; now injection H.
Qed.

(** X13.  In the calendar blocks the defaults are taken: an episode without
    [title] shows "TBA" and without [airDateUtc] "Unknown"; a movie
    without [year] shows "N/A" and without [inCinemas] "TBA". *)
Theorem calendar_entry_defaults (fields : list (string * json)) (s : string) :
  (render_episode (JObj fields) = Ok s ->
   (Py.lookup "title" fields = None -> has_infix s ("  Title: TBA" ++ nl))
   /\ (Py.lookup "airDateUtc" fields = None -> has_infix s ("  Airs: Unknown" ++ nl)))
  /\ (render_release (JObj fields) = Ok s ->
      (Py.lookup "year" fields = None -> has_infix s " (N/A)")
      /\ (Py.lookup "inCinemas" fields = None -> has_infix s ("  Release: TBA" ++ nl))).
Proof.
  split; intros H; unfold render_episode, render_release in H; inv_bindR H;
    injection H as <-;
    repeat match goal with
      | Hg : Dyn.get (JObj fields) _ _ = Ok _ |- _ => apply get_default in Hg; subst
      end;
    split; intros Hn; unfold field_or; rewrite Hn; cbn [Py.str]; has_infix_tac.
Qed.

Example episode_block :
  render_episode
    (JObj [("series", JObj [("title", JStr "Alpha")]);
           ("seasonNumber", JNum 1); ("episodeNumber", JNum 12)])
  = Ok ("- Alpha - S01E12" ++ nl ++ "  Title: TBA" ++ nl ++ "  Airs: Unknown" ++ nl ++ nl).
Proof. reflexivity. Qed.

(* ================================================================= *)
(** ** Malformed entities *)

Lemma mapR_In_Raise {A B : Type} (f : A -> result B) l x :
  In x l -> (exists e, f x = Raise e) -> exists e, mapR f l = Raise e.
Proof.
  induction l as [|y l IH]; intros Hin Hx; [contradiction|].
  simpl. destruct (f y) as [v|e] eqn:Ey; [|simpl; eauto].
  destruct Hin as [-> | Hin].
  - destruct Hx as [e He]. congruence.
  - destruct (IH Hin Hx) as [e He]. rewrite He. simpl. eauto.
Qed.

Lemma filterR_In_Raise {A : Type} (f : A -> result bool) l x :
  In x l -> (exists e, f x = Raise e) -> exists e, filterR f l = Raise e.
Proof.
  induction l as [|y l IH]; intros Hin Hx; [contradiction|].
  simpl. destruct (f y) as [v|e] eqn:Ey; [|simpl; eauto].
  destruct Hin as [-> | Hin].
  - destruct Hx as [e He]. congruence.
  - destruct (IH Hin Hx) as [e He]. rewrite He. simpl. eauto.
Qed.

Lemma recent_step_undated (b : service) c show :
  undated show -> exists e, recent_step b c show = Raise e.
Proof.
  unfold undated. intros H.
  destruct b; cbn [recent_step]; unfold recent_series_step, recent_movies_step;
    (destruct (Dyn.getitem show "added") as [v|e]; [|simpl; eauto]);
    (destruct v; try (simpl; eauto; fail));
    destruct H as [e He]; unfold parse_added in He; cbn [bindR Dyn.replace_Z];
    rewrite He; simpl; eauto.
Qed.

Lemma title_matches_untitled query s :
  untitled s -> exists e, title_matches (JStr query) s = Raise e.
Proof.
  unfold untitled, title_matches. intros H. cbn [Dyn.lower bindR].
  destruct (Dyn.getitem s "title") as [v|e]; [|simpl; eauto].
  destruct v; try contradiction; simpl; eauto.
Qed.

(** X14.  One malformed entity fails the whole operation, wherever it stands
    in the collection: [recent] raises when an entity has no usable
    [added], [search] when an entity has no textual [title], even if
    every other entity is fine. *)
Theorem malformed_entity_fails_operation (b : service) self cl shows status w t :
  service_client b self = Some cl ->
  backend w (get_request cl (collection b)) = Response status (BodyJson (JArr shows)) ->
  is_success status = true ->
  (forall show days, In show shows -> undated show ->
     exists e, fst (get_recent b self days w t) = Raise e)
  /\ (forall s query, In s shows -> untitled s ->
        exists e, fst (search b self (JStr query) w t) = Raise e).
Proof.
  intros Hc Hb Hs. split.
  - intros show days Hin Hu.
    rewrite (get_recent_fetch b self cl days w t Hc), Hb. cbn [decode]. rewrite Hs.
    unfold bind at 1.
    destruct (cutoff_of days w _) as [[c|e] t1]; [|simpl; eauto].
    unfold bind at 1. unfold lift at 1. cbn [Dyn.iter].
    unfold bind at 1. unfold lift at 1.
    destruct (mapR_In_Raise (recent_step b c) shows show Hin (recent_step_undated b c show Hu))
      as [e He].
    rewrite He. simpl. eauto.
  - intros s query Hin Hu.
    destruct (filterR_In_Raise (title_matches (JStr query)) shows s Hin
                (title_matches_untitled query s Hu)) as [e He].
    destruct b; cbn [search service_client collection] in *;
      unfold search_sonarr_series, search_radarr_movies;
      rewrite Hc; unfold bind at 1; rewrite client_get_spec, Hb; cbn [decode];
      rewrite Hs; unfold bind at 1; unfold lift at 1; cbn [Dyn.iter];
      unfold bind at 1; unfold lift at 1; rewrite He; simpl; eauto.
Qed.

Lemma malformed_entity_witness :
  let shows := [JObj [("title", JStr "Alpha"); ("added", JStr "2024-01-14T08:00:00");
                      ("status", JStr "ended")];
                JObj [("title", JNull); ("added", JStr "last week");
                      ("status", JStr "ended")]] in
  (exists e, fst (get_recent Sonarr Sample.mcp (JNum 7) (Sample.serving (JArr shows)) [])
             = Raise e)
  /\ (exists e, fst (search Sonarr Sample.mcp (JStr "zzz") (Sample.serving (JArr shows)) [])
                = Raise e).
Proof.
  intros shows.
  pose proof (malformed_entity_fails_operation Sonarr Sample.mcp Sample.sonarr shows 200
                (Sample.serving (JArr shows)) [] eq_refl eq_refl eq_refl) as [H1 H2].
  split.
  - apply (H1 (JObj [("title", JNull); ("added", JStr "last week"); ("status", JStr "ended")])
              (JNum 7)).
    + simpl; tauto.
    + unfold undated. cbn [Dyn.getitem Py.lookup String.eqb Ascii.eqb Bool.eqb].
      eexists. vm_compute. reflexivity.
  - apply (H2 (JObj [("title", JNull); ("added", JStr "last week"); ("status", JStr "ended")])
              "zzz").
    + simpl; tauto.
    + exact I.
Defined.

(* ================================================================= *)
(** ** Loading the configuration *)

Lemma rstrip_slash_split s : exists k, s = PyStr.rstrip_slash s ++ slashes k.
Proof.
  induction s as [|c r [k IH]]; [now exists 0%nat|].
  simpl. destruct (PyStr.rstrip_slash r) as [|a q] eqn:E.
  - simpl in IH. destruct (Ascii.eqb_spec c "/"%char) as [-> | _].
    + exists (S k). simpl. now rewrite <- IH.
    + exists k. simpl. now rewrite <- IH.
  - exists k. simpl. simpl in IH. now rewrite <- IH.
Qed.

Lemma append_slash_nonempty h : h ++ "/" <> "".
Proof. destruct h; discriminate. Qed.

Lemma rstrip_slash_clean s : ~ ends_with (PyStr.rstrip_slash s) "/".
Proof.
  intros [h H]. revert h H. induction s as [|c r IH]; intros h H.
  - simpl in H. symmetry in H. now apply append_slash_nonempty in H.
  - simpl in H. destruct (PyStr.rstrip_slash r) as [|a q] eqn:E.
    + destruct (Ascii.eqb_spec c "/"%char) as [-> | Hc].
      * symmetry in H. now apply append_slash_nonempty in H.
      * destruct h as [|x h]; simpl in H.
        -- injection H as H1. congruence.
        -- injection H as H1 H2. symmetry in H2. now apply append_slash_nonempty in H2.
    + destruct h as [|x h]; simpl in H.
      * discriminate H.
      * injection H as H1 H2. eapply IH. exact H2.
Qed.

Lemma rstrip_slash_only_slashes k : PyStr.rstrip_slash (slashes k) = "".
Proof. induction k as [|k IH]; simpl; [reflexivity | now rewrite IH]. Qed.

(** X15.  [Config.from_env]: the URLs are the environment's with every
    trailing slash removed, the keys are taken as they are, and the
    timeout is 30 unless [REQUEST_TIMEOUT] is set; a timeout that is
    no integer makes the loading raise.  A URL made of slashes only is
    read as empty, which leaves the backend without a client. *)
Theorem from_env_normalises env :
  (forall e, Dyn.int_of_str (getenv env "REQUEST_TIMEOUT" "30") = Raise e ->
             Config_from_env env = Raise e)
  /\ (forall c, Config_from_env env = Ok c ->
        (exists k, getenv env "SONARR_URL" "" = sonarr_url c ++ slashes k)
        /\ (exists k, getenv env "RADARR_URL" "" = radarr_url c ++ slashes k)
        /\ ~ ends_with (sonarr_url c) "/" /\ ~ ends_with (radarr_url c) "/"
        /\ sonarr_api_key c = getenv env "SONARR_API_KEY" ""
        /\ radarr_api_key c = getenv env "RADARR_API_KEY" ""
        /\ (env_lookup env "REQUEST_TIMEOUT" = None -> request_timeout c = 30)
        /\ (forall k, getenv env "SONARR_URL" "" = slashes k ->
              sonarr_client (SonarrRadarrMCP_init c) = None)
        /\ (forall k, getenv env "RADARR_URL" "" = slashes k ->
              radarr_client (SonarrRadarrMCP_init c) = None)).
Proof.
  unfold Config_from_env. split.
  - intros e He. now rewrite He.
  - intros c H. inv_bindR H. injection H as <-. cbn [sonarr_url radarr_url sonarr_api_key
      radarr_api_key request_timeout].
    repeat split; try apply rstrip_slash_split; try apply rstrip_slash_clean.
    + intros Hn. unfold env_lookup in Hn. unfold getenv in H0.
      destruct (find _ env); [discriminate Hn|]. now injection H0.
    + intros k Hk. apply (init_client_none Sonarr). left. cbn [service_url sonarr_url].
      rewrite Hk. apply rstrip_slash_only_slashes.
    + intros k Hk. apply (init_client_none Radarr). left. cbn [service_url radarr_url].
      rewrite Hk. apply rstrip_slash_only_slashes.
Qed.

Example from_env_run :
  Config_from_env [("SONARR_URL", "http://sonarr:8989//"); ("SONARR_API_KEY", "test-key");
                   ("RADARR_URL", "/"); ("RADARR_API_KEY", "test-key-2")]
  = Ok (mkConfig "http://sonarr:8989" "test-key" "" "test-key-2" 30).
Proof. reflexivity. Qed.

(* ================================================================= *)
(** ** Search and recent additions on well-formed collections *)

Lemma ascii_titled_titled s : ascii_titled s -> titled s.
Proof. intros (fields & title & H1 & H2 & _). now exists fields, title. Qed.

Lemma In_firstn {A : Type} n (l : list A) x : In x (firstn n l) -> In x l.
Proof. intros H. rewrite <- (firstn_skipn n l). apply in_or_app. now left. Qed.

(** A match that has [status] and [id] is always rendered. *)
Lemma render_match_total (b : service) s :
  titled s -> listable s -> exists block, render_match b s = Ok block.
Proof.
  intros (fields & title & -> & Ht) (fields' & status & id & Hf & Hs & Hi).
  injection Hf as <-.
  destruct b; cbn [render_match]; unfold render_series_match, render_movie_match,
    Dyn.getitem, Dyn.get; rewrite Ht, Hs, Hi; cbn [bindR];
    repeat match goal with
      | |- context [Py.lookup ?k fields] => destruct (Py.lookup k fields)
      end; cbn [bindR]; eauto.
Qed.

(** X16.  [search(query)] for an ASCII query on a collection whose titles
    are ASCII text: an entity is a match exactly when its title holds
    the query as a substring, letter case aside; no match gives the
    fixed sentence; otherwise the first ten matches are rendered, in
    the order of the collection, and the rendering cannot fail on
    matches that have [status] and [id]. *)
Theorem search_lists_matching_titles (b : service) self cl query shows status w t :
  service_client b self = Some cl ->
  backend w (get_request cl (collection b)) = Response status (BodyJson (JArr shows)) ->
  is_success status = true ->
  PyStr.is_ascii query = true ->
  Forall ascii_titled shows ->
  let matches := filter (title_has query) shows in
  (forall s, In s matches <->
             In s shows /\ has_infix (PyStr.lower (title_of s)) (PyStr.lower query))
  /\ (matches = [] ->
      search b self (JStr query) w t
      = (Ok (search_nothing b query), (t ++ [get_request cl (collection b)])%list))
  /\ (forall blocks,
        matches <> [] ->
        mapR (render_match b) (firstn 10 matches) = Ok blocks ->
        search b self (JStr query) w t
        = (Ok (search_listing b query (String.concat "" blocks)),
           (t ++ [get_request cl (collection b)])%list)
        /\ List.length blocks = Nat.min 10 (List.length matches))
  /\ (Forall listable (firstn 10 matches) ->
      exists blocks, mapR (render_match b) (firstn 10 matches) = Ok blocks).
Proof.
  intros Hc Hb Hs Hq Ha matches.
  assert (Ht : Forall titled shows).
  { eapply Forall_impl; [|exact Ha]. apply ascii_titled_titled. }
  split; [|split; [|split]].
  - intros s. unfold matches. rewrite filter_In. unfold title_has at 1.
    now rewrite contains_spec.
  - intros He. rewrite (search_spec b self cl query shows status w t Hc Hb Hs Ht).
    fold matches. now rewrite He.
  - intros blocks Hne Hm. split.
    + rewrite (search_spec b self cl query shows status w t Hc Hb Hs Ht).
      fold matches. rewrite Hm. destruct matches; [congruence | reflexivity].
    + now apply (search_block_count b query shows).
  - intros Hl. apply mapR_total. rewrite Forall_forall in *. intros s Hin.
    apply render_match_total; [|now apply Hl].
    apply Ht. apply In_firstn in Hin. unfold matches in Hin.
    apply filter_In in Hin. tauto.
Qed.

Lemma search_lists_matching_titles_witness :
  search Sonarr Sample.mcp (JStr "BET") (Sample.serving Sample.library) []
  = (Ok ("Series matching 'BET':" ++ nl ++ nl
         ++ "- Beta (N/A)" ++ nl ++ "  Status: ended" ++ nl
         ++ "  Seasons: 0" ++ nl ++ "  ID: 2" ++ nl ++ nl),
     [get_request Sample.sonarr "series"]).
Proof.
  assert (Ht : Forall ascii_titled
                 [JObj [("title", JStr "Alpha"); ("status", JStr "continuing");
                        ("id", JNum 1)];
                  JObj [("title", JStr "Beta"); ("status", JStr "ended");
                        ("id", JNum 2)]]).
  { repeat constructor; eexists _, _; repeat split; reflexivity. }
  pose proof (search_lists_matching_titles Sonarr Sample.mcp Sample.sonarr "BET" _ 200
                (Sample.serving Sample.library) [] eq_refl eq_refl eq_refl eq_refl Ht)
    as (_ & _ & H & Htotal).
  destruct Htotal as [blocks Hblocks].
  { repeat constructor. eexists _, _, _. repeat split; reflexivity. }
  pose proof Hblocks as Hb. vm_compute in Hb. injection Hb as <-.
  refine (proj1 (H _ _ Hblocks)). discriminate.
Defined.






(* ================================================================= *)
(** ** Failures of the client *)

(** X18.  A failure of the client is passed on as it is, after one attempt:
    when the first request of recent, search, status or queue is
    answered by a failure (no connection, a status outside 2xx, a body
    that is no JSON), the operation raises that very exception and the
    trace holds that one request; nothing is retried and nothing else
    is asked. *)
Theorem client_failure_surfaces (b : service) (o : read_op) self cl arg e w t :
  o <> Calendar ->
  service_client b self = Some cl ->
  decode (backend w (get_request cl (first_endpoint b o))) = Raise e ->
  run_read b o self arg w t
  = (Raise e, (t ++ [get_request cl (first_endpoint b o)])%list).
Proof.
  intros Ho Hc He. destruct o; try congruence; cbn [run_read first_endpoint] in *.
  - now rewrite (get_recent_fetch b self cl arg w t Hc), He.
  - destruct b; cbn [search service_client collection] in *;
      unfold search_sonarr_series, search_radarr_movies; rewrite Hc;
      unfold bind at 1; now rewrite client_get_spec, He.
  - now rewrite (get_status_spec b self cl w t Hc), He.
  - now rewrite (get_queue_spec b self cl w t Hc), He.
Qed.

Lemma client_failure_surfaces_witness :
  run_read Sonarr Queue Sample.mcp JNull
    (mkWorld (fun _ => Response 401 (BodyJson (JObj []))) Sample.clock) []
  = (Raise (ApiRequestFailed 401), [get_request Sample.sonarr "queue"])
  /\ str_exn (ApiRequestFailed 401) = "API request failed: 401".
Proof.
  split; [|reflexivity].
  exact (client_failure_surfaces Sonarr Queue Sample.mcp Sample.sonarr JNull _
           (mkWorld (fun _ => Response 401 (BodyJson (JObj []))) Sample.clock) []
           ltac:(discriminate) eq_refl eq_refl).
Defined.

(* ================================================================= *)
(** ** Concrete runs of the statements without a premise of their own *)

Lemma calendar_entry_defaults_witness :
  has_infix ("- Alpha - S01E12" ++ nl ++ "  Title: TBA" ++ nl ++ "  Airs: Unknown" ++ nl ++ nl)
            ("  Title: TBA" ++ nl).
Proof.
  exact (proj1 (proj1 (calendar_entry_defaults
                         [("series", JObj [("title", JStr "Alpha")]);
                          ("seasonNumber", JNum 1); ("episodeNumber", JNum 12)] _)
                  eq_refl) eq_refl).
Defined.

Lemma from_env_normalises_witness :
  exists k, "http://sonarr:8989//" = "http://sonarr:8989" ++ slashes k.
Proof.
  exact (proj1 (proj2 (from_env_normalises
                         [("SONARR_URL", "http://sonarr:8989//"); ("SONARR_API_KEY", "k")])
                  (mkConfig "http://sonarr:8989" "k" "" "" 30) eq_refl)).
Defined.
